(** * A model of the drifting-data generator

    The development follows the Python sources module by module:
    [config.py] (enumerations, flag sets, validated configuration records),
    [GenWords.py] (the word source), [column_space.py] (per-column value
    synthesis, transitions and the day cache), [output_writers.py] (row
    consolidation for the three formats) and [data_generator.py] (row-count
    planning and orchestration).

    Conventions.
    - Python [int] is [Z]; Python [float] is modelled by an exact rational
      [Q], kept in lowest terms.  The model is exact whenever operands and
      results are representable doubles (all concrete inputs below are
      dyadic); rounding of the binary format is outside the model.
    - Everything the interpreter and its libraries supply from outside the
      program (the pseudo-random streams, the dictionary file, the decimal
      rendering of floats, the completion times of worker processes) is
      gathered in a [Runtime] record over which every theorem quantifies.
    - Stateful methods are functions in a small state-and-exception monad
      [M] over [State] (random cursors, file system, generator attributes).
    - A worker of the process pool is a task run on a copy of the parent's
      state whose file effects alone reach the parent; the order in which
      the futures complete is read from the runtime.
    - Logging, progress bars, directories, file timestamps and machine
      limits (memory, 64-bit SQLite integers, NaN) are not modelled. *)

From Stdlib Require Import ZArith QArith Qround Lia Lqa.
From stdpp Require Import base gmap strings list pretty sorting.

Local Open Scope Z_scope.

(** ** Python values *)

Inductive value :=
| VInt (z : Z)
| VFloat (q : Q)
| VStr (s : string).

(** [int(x)] on a float truncates toward zero. *)
Definition int_of_float (q : Q) : Z := Z.quot (Qnum q) (Z.pos (Qden q)).

Definition float_of_int (z : Z) : Q := inject_Z z.

Definition fmul (a b : Q) : Q := Qred (a * b).
Definition fadd (a b : Q) : Q := Qred (a + b).
Definition fsub (a b : Q) : Q := Qred (a - b).

(** [range(n)] over Python integers. *)
Definition py_range (n : Z) : list Z := Z.of_nat <$> seq 0 (Z.to_nat n).

(** [s.endswith(suf)]. *)
Definition str_endswith (s suf : string) : bool :=
  bool_decide (String.length suf <= String.length s)%nat
  && bool_decide (String.substring (String.length s - String.length suf)
                    (String.length suf) s = suf).

(** [s.startswith(pre)]. *)
Definition str_startswith (s pre : string) : bool := String.prefix pre s.

(** ** exceptions.py *)

Inductive exn_class :=
| ValueError | KeyError | IndexError | DatabaseError
| DataGenerationError | ConfigurationError | CacheError | OutputError
| ValidationError.

Record exn := Exn { exn_cls : exn_class; exn_msg : string }.

(** [isinstance(e, DataGenerationError)] for the classes above. *)
Definition is_DataGenerationError (c : exn_class) : bool :=
  match c with
  | DataGenerationError | ConfigurationError | CacheError | OutputError
  | ValidationError => true
  | ValueError | KeyError | IndexError | DatabaseError => false
  end.

Inductive result (A : Type) :=
| Ok (a : A)
| Err (e : exn).
Arguments Ok {A} a.
Arguments Err {A} e.

(** ** config.py *)

Inductive DataType := INTEGER | FLOAT | STRING_LONG | STRING_CATEGORY.

Inductive TransitionType :=
| VALUES_SCALE | VALUES_ALL_STRINGS | VALUES_SOME_STRINGS | SCHEMA_NAME
| STRING_LONG_TO_SMALL | STRING_SMALL_TO_LONG | NULLS_HIGH | ZEROS_HIGH.

(** The position of the bit of each transition flag ([1 << k]). *)
Definition TransitionType_bit (t : TransitionType) : Z :=
  match t with
  | VALUES_SCALE => 1
  | VALUES_ALL_STRINGS => 2
  | VALUES_SOME_STRINGS => 3
  | SCHEMA_NAME => 4
  | STRING_LONG_TO_SMALL => 5
  | STRING_SMALL_TO_LONG => 6
  | NULLS_HIGH => 7
  | ZEROS_HIGH => 8
  end.

Definition TransitionType_value (t : TransitionType) : Z :=
  Z.shiftl 1 (TransitionType_bit t).

Inductive DistributionType := INCREMENT | UNIFORM | NORMAL.

Definition DistributionType_bit (d : DistributionType) : Z :=
  match d with
  | INCREMENT => 0
  | UNIFORM => 1
  | NORMAL => 2
  end.

Definition DistributionType_value (d : DistributionType) : Z :=
  Z.shiftl 1 (DistributionType_bit d).

Record ColumnConfig := {
  name : string;
  data_type : DataType;
  transition_percentage : Q;
  transition_type : Z;
  distribution_flags : Z
}.

(** [ColumnConfig.__post_init__]: [not 0 <= p <= 1] raises [ValueError]. *)
Definition ColumnConfig_post_init (self : ColumnConfig) : result unit :=
  if negb (Qle_bool 0 (transition_percentage self)
           && Qle_bool (transition_percentage self) 1)
  then Err (Exn ValueError "transition_percentage must be between 0 and 1")
  else Ok tt.


Record GeneratorConfig := {
  num_days : Z;
  approx_rows_per_day : Z;
  output_dir : string;
  output_format : string;
  cache_batch_size : Z;
  max_workers : option Z;
  row_variation_percentage : Q;
  random_day_reduction_probability : Q;
  random_day_reduction_factor : Q;
  cleanup_cache : bool;
  resume_generation : bool;
  log_level : string;
  progress_bars : bool;
  columns : list ColumnConfig
}.

Definition supported_format (f : string) : bool :=
  bool_decide (f ∈ ["csv"; "json"; "jsonl"]).

(** [GeneratorConfig.__post_init__]. *)
Definition GeneratorConfig_post_init (self : GeneratorConfig) : result unit :=
  if num_days self <=? 0 then
    Err (Exn ValueError "num_days must be positive")
  else if approx_rows_per_day self <=? 0 then
    Err (Exn ValueError "approx_rows_per_day must be positive")
  else if negb (supported_format (output_format self)) then
    Err (Exn ValueError "output_format must be one of: csv, json, jsonl")
  else if negb (Qle_bool 0 (row_variation_percentage self)
                && Qle_bool (row_variation_percentage self) 1) then
    Err (Exn ValueError "row_variation_percentage must be between 0 and 1")
  else Ok tt.

(** ** The runtime and the mutable state *)

Record Runtime := {
  (** the k-th result of [random.random()], in [0,1) *)
  py_random : nat -> Q;
  (** the k-th draw of the [random] module read as [_randbelow(n)] *)
  py_randbelow : nat -> nat -> nat;
  (** the k-th sample of [np.random.rand] *)
  np_rand : nat -> Q;
  (** the k-th sample of [np.random.normal(0, 100, _)] *)
  np_normal : nat -> Q;
  (** the dictionary line found by the k-th seek, [None] at end of file *)
  dict_line : nat -> option string;
  (** [str(x)] for a float [x] *)
  float_repr : Q -> string;
  (** the instant at which the worker submitted i-th finishes *)
  finish_time : nat -> nat
}.

(** [str(v)], also what an f-string placeholder renders. *)
Definition py_str (rt : Runtime) (v : value) : string :=
  match v with
  | VInt z => pretty z
  | VFloat q => float_repr rt q
  | VStr s => s
  end.

(** ** Files, generator attributes, state *)

(** A JSON object as Python builds it with [dict(zip(names, row))]:
    keys in insertion order, [None] for a JSON null. *)
Definition record : Type := list (string * option value).

(** [GenerationMetrics] (the wall-clock field is left out). *)
Record GenerationMetrics := {
  total_rows_generated : Z;
  total_columns : Z;
  cache_operations : Z;
  files_written : Z;
  errors_encountered : Z
}.

Inductive file :=
| CacheFile (rows : list value)          (* table [data(val)], rowid 1.. *)
| CsvFile (lines : list (list string))   (* header line first *)
| JsonFile (records : list record)
| JsonlFile (records : list record)
| ProfileFile (m : GenerationMetrics) (rows_per_day : gmap Z Z).

Record State := {
  rt : Runtime;
  py_pos : nat;                  (* draws made from [random] *)
  np_pos : nat;                  (* samples drawn from [np.random] *)
  fs : gmap string file;         (* the files, by path *)
  metrics : GenerationMetrics;   (* [DataGenerator.metrics] *)
  rows_per_day_map : gmap Z Z    (* [DataGenerator.rows_per_day_map] *)
}.

Definition set_py_pos (n : nat) (s : State) : State :=
  {| rt := rt s; py_pos := n; np_pos := np_pos s; fs := fs s;
     metrics := metrics s; rows_per_day_map := rows_per_day_map s |}.

Definition set_np_pos (n : nat) (s : State) : State :=
  {| rt := rt s; py_pos := py_pos s; np_pos := n; fs := fs s;
     metrics := metrics s; rows_per_day_map := rows_per_day_map s |}.

Definition set_fs (f : gmap string file) (s : State) : State :=
  {| rt := rt s; py_pos := py_pos s; np_pos := np_pos s; fs := f;
     metrics := metrics s; rows_per_day_map := rows_per_day_map s |}.

Definition set_metrics (m : GenerationMetrics) (s : State) : State :=
  {| rt := rt s; py_pos := py_pos s; np_pos := np_pos s; fs := fs s;
     metrics := m; rows_per_day_map := rows_per_day_map s |}.

Definition set_rows_per_day_map (m : gmap Z Z) (s : State) : State :=
  {| rt := rt s; py_pos := py_pos s; np_pos := np_pos s; fs := fs s;
     metrics := metrics s; rows_per_day_map := m |}.

(** ** The state-and-exception monad *)

Inductive outcome (A : Type) :=
| Ret (a : A) (s : State)       (* normal return *)
| Raise (e : exn) (s : State)   (* an exception escapes *)
| Diverge.                      (* the call never returns *)
Arguments Ret {A} a s.
Arguments Raise {A} e s.
Arguments Diverge {A}.

Definition M (A : Type) : Type := State -> outcome A.

#[global] Instance M_ret : MRet M := fun A a s => Ret a s.

#[global] Instance M_bind : MBind M := fun A B f m s =>
  match m s with
  | Ret a s' => f a s'
  | Raise e s' => Raise e s'
  | Diverge => Diverge
  end.

Definition raise {A} (e : exn) : M A := fun s => Raise e s.
Definition diverge {A} : M A := fun _ => Diverge.
Definition get_state : M State := fun s => Ret s s.
Definition modify (f : State -> State) : M unit := fun s => Ret tt (f s).

(** [try: body except Exception as e: handler(e)]. *)
Definition try_except {A} (body : M A) (handler : exn -> M A) : M A :=
  fun s =>
    match body s with
    | Ret a s' => Ret a s'
    | Raise e s' => handler e s'
    | Diverge => Diverge
    end.

Definition lift_result {A} (r : result A) : M A :=
  match r with
  | Ok a => mret a
  | Err e => raise e
  end.

(** Evaluate [f] on each element from left to right, as a list
    comprehension or a [for] loop that appends does. *)
Fixpoint for_each {A B} (f : A -> M B) (l : list A) : M (list B) :=
  match l with
  | [] => mret []
  | x :: l' => y ← f x; ys ← for_each f l'; mret (y :: ys)
  end.

(** A [for] loop run for its effects only. *)
Fixpoint for_ {A} (f : A -> M unit) (l : list A) : M unit :=
  match l with
  | [] => mret tt
  | x :: l' => f x;; for_ f l'
  end.

(** [random.random()]. *)
Definition random_random : M Q := fun s =>
  Ret (py_random (rt s) (py_pos s)) (set_py_pos (S (py_pos s)) s).

(** [random.choice(seq)]: [seq[_randbelow(len(seq))]]. *)
Definition random_choice {A} (l : list A) : M A := fun s =>
  match l !! (py_randbelow (rt s) (py_pos s) (length l) mod length l)%nat with
  | Some x => Ret x (set_py_pos (S (py_pos s)) s)
  | None => Raise (Exn IndexError "Cannot choose from an empty sequence") s
  end.

(** [n] consecutive samples of a numpy stream. *)
Definition np_samples (view : Runtime -> nat -> Q) (n : Z) : M (list Q) :=
  fun s =>
    if n <? 0 then Raise (Exn ValueError "negative dimensions are not allowed") s
    else Ret (view (rt s) <$> seq (np_pos s) (Z.to_nat n))
             (set_np_pos (np_pos s + Z.to_nat n)%nat s).

(** ** GenWords.py *)

Module ValueGenerator.

Record t := { cat_string : list string }.

(** [AmericanEnglishDict.random_word]: one seek into the dictionary. *)
Definition _random_word : M (option string) := fun s =>
  Ret (dict_line (rt s) (py_pos s)) (set_py_pos (S (py_pos s)) s).

Definition new : M t :=
  ws ← for_each (fun _ : Z =>
          w ← _random_word;
          mret (match w with Some x => x | None => "je suis" end))
        (py_range 10);
  mret {| cat_string := ws |}.

Definition rand_cat_str (self : t) : M string :=
  random_choice (cat_string self).

Definition join_words (l : list string) : string :=
  match l with
  | [] => ""
  | w :: ws => fold_left (fun acc x => acc +:+ " " +:+ x) ws w
  end.

Definition rand_words (self : t) (_n : Z) : M string :=
  theList ← for_each (fun _ : Z =>
          w ← _random_word;
          mret (match w with Some x => x | None => "NULL" end))
        (py_range _n);
  mret (join_words theList).

End ValueGenerator.

(** ** column_space.py *)

(** [isinstance(v, (int, float))]. *)
Definition is_number (v : value) : bool :=
  match v with
  | VInt _ | VFloat _ => true
  | VStr _ => false
  end.

(** [v != 0]. *)
Definition ne_zero (v : value) : bool :=
  match v with
  | VInt z => negb (z =? 0)
  | VFloat q => negb (Qeq_bool q 0)
  | VStr _ => true
  end.

(** [v != ""]. *)
Definition ne_empty_str (v : value) : bool :=
  match v with
  | VStr s => negb (bool_decide (s = ""))
  | _ => true
  end.

(** [v * k] for a number [v] and an integer literal [k]. *)
Definition mul_lit (v : value) (k : Z) : value :=
  match v with
  | VInt z => VInt (z * k)
  | VFloat q => VFloat (fmul q (float_of_int k))
  | VStr s => VStr s
  end.

(** [int(v)] for a number [v]. *)
Definition py_int (v : value) : value :=
  match v with
  | VInt z => VInt z
  | VFloat q => VInt (int_of_float q)
  | VStr s => VStr s
  end.

Module ColumnSpace.

Record t := {
  config : ColumnConfig;
  word_gen : option ValueGenerator.t
}.

(** [ColumnSpace.__init__]. *)
Definition new (cfg : ColumnConfig) : M t :=
  match data_type cfg with
  | STRING_LONG | STRING_CATEGORY =>
      wg ← ValueGenerator.new;
      mret {| config := cfg; word_gen := Some wg |}
  | _ => mret {| config := cfg; word_gen := None |}
  end.

Definition field_name (self : t) : string := name (config self).

Definition has_distribution (self : t) (mask : Z) : bool :=
  negb (Z.land (distribution_flags (config self)) mask =? 0).

Definition has_transition (self : t) (day_index total_days mask : Z) : bool :=
  let transition_day :=
    int_of_float (fmul (float_of_int total_days)
                       (transition_percentage (config self))) in
  if day_index <? transition_day then false
  else negb (Z.land (transition_type (config self)) mask =? 0).

Definition get_field_name (self : t) (day_index total_days : Z) : string :=
  if has_transition self day_index total_days (TransitionType_value SCHEMA_NAME)
  then "new-" +:+ name (config self)
  else name (config self).

Definition _generate_word (self : t) (day_index total_days : Z) : M string :=
  match word_gen self with
  | None =>
      raise (Exn DataGenerationError
               ("Word generator not initialized for column "
                  +:+ name (config self)))
  | Some wg =>
      match data_type (config self) with
      | STRING_LONG =>
          if has_transition self day_index total_days
               (TransitionType_value STRING_LONG_TO_SMALL)
          then ValueGenerator.rand_cat_str wg
          else ValueGenerator.rand_words wg 20
      | STRING_CATEGORY =>
          if has_transition self day_index total_days
               (TransitionType_value STRING_SMALL_TO_LONG)
          then ValueGenerator.rand_words wg 5
          else ValueGenerator.rand_cat_str wg
      | _ => ValueGenerator.rand_cat_str wg
      end
  end.

(** [np.arange(0, n, 1.0)]: empty when [n <= 0]. *)
Definition np_arange (num_values : Z) : list Q :=
  float_of_int <$> py_range num_values.

Definition _generate_numeric_distribution (self : t) (num_values : Z)
  : M (list Q) :=
  if has_distribution self (DistributionType_value INCREMENT) then
    mret (np_arange num_values)
  else if has_distribution self (DistributionType_value UNIFORM) then
    np_samples np_rand num_values
  else if has_distribution self (DistributionType_value NORMAL) then
    np_samples np_normal num_values
  else np_samples np_rand num_values.

Definition _replace_half (values : list value) (new_value : value)
  : M (list value) :=
  for_each (fun v =>
      r ← random_random;
      mret (if negb (Qle_bool r (1 # 2)) then new_value else v))
    values.

Definition _apply_transitions (self : t) (values : list value)
    (day_index total_days : Z) : M (list value) :=
  let active f := has_transition self day_index total_days
                    (TransitionType_value f) in
  values ← mret (if active VALUES_SCALE
                 then (fun v => if is_number v then mul_lit v 40 else v)
                        <$> values
                 else values);
  values ← (if active ZEROS_HIGH then
              r ← random_random;
              if Qle_bool (1 # 2) r then _replace_half values (VInt 0)
              else mret values
            else mret values);
  values ← (if active NULLS_HIGH then
              r ← random_random;
              if Qle_bool (1 # 2) r then _replace_half values (VStr "")
              else mret values
            else mret values);
  if active VALUES_SOME_STRINGS then
    for_each (fun v =>
        b ← random_choice [true; false];
        s ← get_state;
        mret (if b : bool then VStr ("sometimes-" +:+ py_str (rt s) v) else v))
      values
  else if active VALUES_ALL_STRINGS then
    s ← get_state;
    mret ((fun v => VStr ("all-" +:+ py_str (rt s) v)) <$> values)
  else mret values.

Definition _convert_types (self : t) (values : list value) : list value :=
  match data_type (config self) with
  | INTEGER =>
      (fun v => if is_number v && ne_zero v && ne_empty_str v
                then py_int (mul_lit v 100) else v) <$> values
  | _ => values
  end.

Definition _get_cache_path (self : t) (day_index : Z) : string :=
  "." +:+ name (config self) +:+ "-" +:+ pretty day_index +:+ ".cache".

Definition is_string_type (d : DataType) : bool :=
  match d with
  | STRING_LONG | STRING_CATEGORY => true
  | _ => false
  end.

(** One batch of the generation loop: sample, convert, apply transitions. *)
Definition generate_batch (self : t) (day_index total_days : Z)
    (batch_size_actual : Z) : M (list value) :=
  batch_values ←
    (if is_string_type (data_type (config self)) then
       for_each (fun _ : Z =>
           w ← _generate_word self day_index total_days; mret (VStr w))
         (py_range batch_size_actual)
     else
       arr ← _generate_numeric_distribution self batch_size_actual;
       mret (_convert_types self (VFloat <$> arr)));
  _apply_transitions self batch_values day_index total_days.

(** The [while values_generated < num_values] loop.  [pending] holds the
    rows inserted so far in the open transaction.  A batch that adds no
    value leaves the loop condition unchanged for ever, so the call never
    returns; [fuel] bounds the number of batches that add at least one. *)
Fixpoint generate_loop (fuel : nat) (self : t)
    (day_index num_values total_days batch_size : Z)
    (values_generated : Z) (pending : list value) : M (list value) :=
  if values_generated <? num_values then
    match fuel with
    | O => diverge
    | S fuel' =>
        let batch_size_actual :=
          Z.min batch_size (num_values - values_generated) in
        batch_values ←
          generate_batch self day_index total_days batch_size_actual;
        if bool_decide (batch_values = []) then diverge
        else
          generate_loop fuel' self day_index num_values total_days batch_size
            (values_generated + Z.of_nat (length batch_values))
            (pending ++ batch_values)
    end
  else mret pending.

(** [generate_day_data]: the cache file is removed and recreated with an
    empty table; the batches run inside one transaction that is committed
    at the end of the [with] body; any exception of the body leaves the
    empty table behind and is re-raised as [CacheError]. *)
Definition generate_day_data (self : t)
    (day_index num_values total_days batch_size : Z) : M unit :=
  let cache_path := _get_cache_path self day_index in
  modify (fun s => set_fs (<[cache_path := CacheFile []]>
                             (delete cache_path (fs s))) s);;
  try_except
    (rows ← generate_loop (Z.to_nat num_values) self day_index num_values
              total_days batch_size 0 [];
     modify (fun s => set_fs (<[cache_path := CacheFile rows]> (fs s)) s))
    (fun e =>
       raise (Exn CacheError
                ("Cache operation failed for " +:+ name (config self)
                   +:+ ": " +:+ exn_msg e))).

Definition cleanup_cache (self : t) (day_index : Z) : M unit :=
  modify (fun s => set_fs (delete (_get_cache_path self day_index) (fs s)) s).

(** [glob.glob(".<name>-*.cache")] for a name without glob metacharacters. *)
Definition matches_cache_pattern (self : t) (path : string) : bool :=
  let pre := "." +:+ name (config self) +:+ "-" in
  let suf := ".cache" in
  bool_decide (String.length pre + String.length suf <= String.length path)%nat
  && str_startswith path pre
  && str_endswith path suf.

Definition cleanup_all_cache (self : t) : M unit :=
  modify (fun s =>
    set_fs (filter (fun kv => matches_cache_pattern self kv.1 = false) (fs s)) s).

End ColumnSpace.

(** ** output_writers.py *)

(** [SELECT val FROM data WHERE rowid=?] followed by [fetchone()], on a
    connection to the given file.  Rows of a fresh table get the rowids
    1, 2, 3, ... in insertion order. *)
Definition select_val (conn : file) (row_index : Z) : result (option value) :=
  match conn with
  | CacheFile rows =>
      Ok (if row_index <=? 0 then None else rows !! Z.to_nat (row_index - 1))
  | _ => Err (Exn DatabaseError "file is not a database")
  end.

(** [dict(zip(names, row))]: a repeated key keeps its first position and
    takes the last value. *)
Fixpoint dict_set (d : record) (k : string) (v : option value) : record :=
  match d with
  | [] => [(k, v)]
  | (k', v') :: d' =>
      if bool_decide (k' = k) then (k', v) :: d'
      else (k', v') :: dict_set d' k v
  end.

Definition dict_zip (names : list string) (row : list (option value)) : record :=
  fold_left (fun d kv => dict_set d kv.1 kv.2) (zip names row) [].

(** [row and row != [None]]. *)
Definition keep_row (row : list (option value)) : bool :=
  match row with
  | [] => false
  | [None] => false
  | _ => true
  end.

(** [range(1, rows_per_day + 1)]. *)
Definition row_indices (rows_per_day : Z) : list Z :=
  (fun i => i + 1) <$> py_range rows_per_day.

(** How [csv.writer] renders a cell ([None] as the empty field; quoting is
    not modelled). *)
Definition csv_cell (rt : Runtime) (c : option value) : string :=
  match c with
  | None => ""
  | Some v => py_str rt v
  end.

Module CSVWriter.

Definition _get_data_row (rt : Runtime) (field_names : list string)
    (row_index : Z) (cache_handles : gmap string file)
    (none_value : option value) : list (option value) :=
  (fun field_name =>
     match cache_handles !! field_name with
     | None => none_value
     | Some cache_conn =>
         match select_val cache_conn row_index with
         | Ok (Some v) => Some (VStr (py_str rt v))
         | Ok None => none_value
         | Err _ => none_value
         end
     end) <$> field_names.

Definition data_rows (rt : Runtime) (field_names : list string)
    (cache_handles : gmap string file) (rows_per_day : Z)
  : list (list (option value)) :=
  filter (fun row => keep_row row = true)
    ((fun row_index =>
        _get_data_row rt field_names row_index cache_handles
          (Some (VStr ""))) <$> row_indices rows_per_day).

Definition write_day (day_index : Z) (field_names : list string)
    (cache_handles : gmap string file) (rows_per_day : Z)
    (output_path : string) : M unit :=
  modify (fun s =>
    set_fs (<[output_path :=
                CsvFile (field_names ::
                         ((fun row : list (option value) => csv_cell (rt s) <$> row) <$>
                            data_rows (rt s) field_names cache_handles
                              rows_per_day))]> (fs s)) s).

Definition get_file_extension : string := "csv".

End CSVWriter.

Module JSONWriter.

Definition _get_data_row (field_names : list string)
    (row_index : Z) (cache_handles : gmap string file)
    (none_value : option value) : list (option value) :=
  (fun field_name =>
     match cache_handles !! field_name with
     | None => none_value
     | Some cache_conn =>
         match select_val cache_conn row_index with
         | Ok (Some v) => Some v
         | Ok None => none_value
         | Err _ => none_value
         end
     end) <$> field_names.

Definition records (field_names : list string)
    (cache_handles : gmap string file) (rows_per_day : Z) : list record :=
  dict_zip field_names <$>
    filter (fun row => keep_row row = true)
      ((fun row_index =>
          _get_data_row field_names row_index cache_handles None)
         <$> row_indices rows_per_day).

Definition write_day (day_index : Z) (field_names : list string)
    (cache_handles : gmap string file) (rows_per_day : Z)
    (output_path : string) : M unit :=
  modify (fun s =>
    set_fs (<[output_path :=
                JsonFile (records field_names cache_handles rows_per_day)]>
              (fs s)) s).

Definition get_file_extension : string := "json".

End JSONWriter.

Module JSONLinesWriter.

Definition _get_data_row (field_names : list string)
    (row_index : Z) (cache_handles : gmap string file)
    (none_value : option value) : list (option value) :=
  (fun field_name =>
     match cache_handles !! field_name with
     | None => none_value
     | Some cache_conn =>
         match select_val cache_conn row_index with
         | Ok (Some v) => Some v
         | Ok None => none_value
         | Err _ => none_value
         end
     end) <$> field_names.

Definition records (field_names : list string)
    (cache_handles : gmap string file) (rows_per_day : Z) : list record :=
  dict_zip field_names <$>
    filter (fun row => keep_row row = true)
      ((fun row_index =>
          _get_data_row field_names row_index cache_handles None)
         <$> row_indices rows_per_day).

Definition write_day (day_index : Z) (field_names : list string)
    (cache_handles : gmap string file) (rows_per_day : Z)
    (output_path : string) : M unit :=
  modify (fun s =>
    set_fs (<[output_path :=
                JsonlFile (records field_names cache_handles rows_per_day)]>
              (fs s)) s).

Definition get_file_extension : string := "jsonl".

End JSONLinesWriter.

(** The three concrete [OutputWriter] classes. *)
Inductive OutputWriter := Csv | Json | JsonLines.

Definition write_day (w : OutputWriter) :
    Z -> list string -> gmap string file -> Z -> string -> M unit :=
  match w with
  | Csv => CSVWriter.write_day
  | Json => JSONWriter.write_day
  | JsonLines => JSONLinesWriter.write_day
  end.

Definition get_file_extension (w : OutputWriter) : string :=
  match w with
  | Csv => CSVWriter.get_file_extension
  | Json => JSONWriter.get_file_extension
  | JsonLines => JSONLinesWriter.get_file_extension
  end.

Module OutputWriterFactory.

Definition _writers : list (string * OutputWriter) :=
  [("csv", Csv); ("json", Json); ("jsonl", JsonLines)].

Definition create_writer (format_name : string) : result OutputWriter :=
  match (list_to_map _writers : gmap string OutputWriter) !! format_name with
  | None => Err (Exn OutputError
                   ("Unsupported output format: " +:+ format_name))
  | Some w => Ok w
  end.

Definition get_supported_formats : list string := _writers.*1.

End OutputWriterFactory.

(** ** data_generator.py *)

(** [os.path.join(a, b)] for a relative [b]. *)
Definition path_join (a b : string) : string :=
  if bool_decide (a = "") then b
  else if str_endswith a "/" then a +:+ b
  else a +:+ "/" +:+ b.

(** [d[k]] on a dictionary with integer keys. *)
Definition dict_get (d : gmap Z Z) (k : Z) : M Z :=
  match d !! k with
  | Some v => mret v
  | None => raise (Exn KeyError (pretty k))
  end.

Definition add_cache_operations (k : Z) : M unit :=
  modify (fun s =>
    let m := metrics s in
    set_metrics {| total_rows_generated := total_rows_generated m;
                   total_columns := total_columns m;
                   cache_operations := cache_operations m + k;
                   files_written := files_written m;
                   errors_encountered := errors_encountered m |} s).

Definition add_errors_encountered (k : Z) : M unit :=
  modify (fun s =>
    let m := metrics s in
    set_metrics {| total_rows_generated := total_rows_generated m;
                   total_columns := total_columns m;
                   cache_operations := cache_operations m;
                   files_written := files_written m;
                   errors_encountered := errors_encountered m + k |} s).

Definition add_file_written (rows_for_day : Z) : M unit :=
  modify (fun s =>
    let m := metrics s in
    set_metrics {| total_rows_generated := total_rows_generated m + rows_for_day;
                   total_columns := total_columns m;
                   cache_operations := cache_operations m;
                   files_written := files_written m + 1;
                   errors_encountered := errors_encountered m |} s).

(** [generate_column_worker]: the body run by a worker process. *)
Definition generate_column_worker (column_config : ColumnConfig)
    (rows_per_day_map : gmap Z Z) (total_days batch_size : Z) : M string :=
  column_space ← ColumnSpace.new column_config;
  for_ (fun day_index =>
          num_values ← dict_get rows_per_day_map day_index;
          ColumnSpace.generate_day_data column_space day_index num_values
            total_days batch_size)
       (py_range total_days);;
  mret ("Successfully generated column: " +:+ name column_config).

(** A task run by [ProcessPoolExecutor]: the child starts from a copy of
    the parent's interpreter state; of its effects only those on the file
    system reach the parent, which later reads the task's result or
    exception from the future.  Tasks are serialised in submission order
    (they write disjoint cache files when column names are distinct). *)
Definition in_child_process {A} (task : M A) : M (result A) := fun s =>
  match task s with
  | Ret a s' => Ret (Ok a) (set_fs (fs s') s)
  | Raise e s' => Ret (Err e) (set_fs (fs s') s)
  | Diverge => Diverge
  end.

Definition finishes_before {A} (rt : Runtime) (a b : nat * A) : Prop :=
  (finish_time rt a.1 <= finish_time rt b.1)%nat.

#[global] Instance finishes_before_dec {A} (rt : Runtime) (a b : nat * A)
  : Decision (finishes_before rt a b) :=
  decide (finish_time rt a.1 <= finish_time rt b.1)%nat.

(** [as_completed]: the futures by increasing finishing time. *)
Definition as_completed {A} (rt : Runtime) (futures : list (nat * A))
  : list (nat * A) :=
  merge_sort (finishes_before rt) futures.

Module DataGenerator.

Record t := {
  config : GeneratorConfig;
  column_spaces : list ColumnSpace.t
}.

(** [DataGenerator.__init__]. *)
Definition new (cfg : GeneratorConfig) : M t :=
  modify (fun s =>
    set_rows_per_day_map ∅
      (set_metrics {| total_rows_generated := 0; total_columns := 0;
                      cache_operations := 0; files_written := 0;
                      errors_encountered := 0 |} s));;
  cs ← for_each ColumnSpace.new (columns cfg);
  modify (fun s =>
    let m := metrics s in
    set_metrics {| total_rows_generated := total_rows_generated m;
                   total_columns := Z.of_nat (length cs);
                   cache_operations := cache_operations m;
                   files_written := files_written m;
                   errors_encountered := errors_encountered m |} s);;
  mret {| config := cfg; column_spaces := cs |}.

(** The body of the planner's loop for one day. *)
Definition rows_for_day (self : t) : M Z :=
  let base_rows := approx_rows_per_day (config self) in
  let variation := row_variation_percentage (config self) in
  u ← random_random;
  let variation_factor :=
    fadd 1 (fmul (fmul (fsub u (1 # 2)) 2) variation) in
  let num_rows := int_of_float (fmul (float_of_int base_rows) variation_factor) in
  a ← random_random;
  let num_rows :=
    if negb (Qle_bool a (random_day_reduction_probability (config self)))
    then int_of_float (fmul (float_of_int num_rows)
                         (random_day_reduction_factor (config self)))
    else num_rows in
  mret (Z.max 1 num_rows).

Fixpoint plan_days (self : t) (days : list Z) (rows_map : gmap Z Z)
  : M (gmap Z Z) :=
  match days with
  | [] => mret rows_map
  | day :: days' =>
      r ← rows_for_day self;
      plan_days self days' (<[day := r]> rows_map)
  end.

Definition _generate_rows_per_day_map (self : t) : M (gmap Z Z) :=
  plan_days self (py_range (num_days (config self))) ∅.

(** Directories are not modelled. *)
Definition _create_output_directory (self : t) : M unit := mret tt.

(** The body of the inner loop of the single-process path. *)
Definition generate_one_day (self : t) (column_space : ColumnSpace.t)
    (day_index : Z) : M unit :=
  s ← get_state;
  num_values ← dict_get (rows_per_day_map s) day_index;
  ColumnSpace.generate_day_data column_space day_index num_values
    (num_days (config self)) (cache_batch_size (config self));;
  add_cache_operations 1.

Definition generate_one_column (self : t) (column_space : ColumnSpace.t)
  : M unit :=
  for_ (generate_one_day self column_space) (py_range (num_days (config self))).

Definition generate_sequential (self : t) : M unit :=
  for_ (generate_one_column self) (column_spaces self).

(** A worker task is submitted for the column; the future carries the
    column's name and the task's result. *)
Definition submit_column (self : t) (rows_map : gmap Z Z)
    (col : ColumnSpace.t) : M (string * result string) :=
  r ← in_child_process
        (generate_column_worker (ColumnSpace.config col) rows_map
           (num_days (config self)) (cache_batch_size (config self)));
  mret (name (ColumnSpace.config col), r).

(** The body of the loop over the completed futures. *)
Definition collect_future (self : t) (future : nat * (string * result string))
  : M unit :=
  let column_name := future.2.1 in
  match future.2.2 with
  | Ok _ => add_cache_operations (num_days (config self))
  | Err e =>
      add_errors_encountered 1;;
      raise (Exn DataGenerationError
               ("Failed to generate column " +:+ column_name
                  +:+ ": " +:+ exn_msg e))
  end.

Definition generate_parallel (self : t) : M unit :=
  match max_workers (config self) with
  | Some n =>
      if n <? 0 then raise (Exn ValueError "max_workers must be greater than 0")
      else mret tt
  | None => mret tt
  end;;
  s ← get_state;
  futures ← for_each (submit_column self (rows_per_day_map s))
               (column_spaces self);
  for_ (collect_future self)
    (as_completed (rt s) (imap (fun i f => (i, f)) futures)).

Definition _generate_column_data (self : t) : M unit :=
  if bool_decide (max_workers (config self) = Some 1)
  then generate_sequential self
  else generate_parallel self.

(** [_open_cache_connections]: one connection per column, stored under
    the column's configured name. *)
Fixpoint open_connections (files : gmap string file) (day_index : Z)
    (cols : list ColumnSpace.t) (connections : gmap string file)
  : result (gmap string file) :=
  match cols with
  | [] => Ok connections
  | column_space :: cols' =>
      let cache_path := ColumnSpace._get_cache_path column_space day_index in
      match files !! cache_path with
      | None => Err (Exn CacheError ("Cache file not found: " +:+ cache_path))
      | Some f =>
          open_connections files day_index cols'
            (<[name (ColumnSpace.config column_space) := f]> connections)
      end
  end.

Definition _open_cache_connections (self : t) (day_index : Z)
  : M (gmap string file) :=
  s ← get_state;
  lift_result (open_connections (fs s) day_index (column_spaces self) ∅).

Definition write_one_day (self : t) (writer : OutputWriter) (day_index : Z)
  : M unit :=
  try_except
    (let field_names :=
       (fun column_space =>
          ColumnSpace.get_field_name column_space day_index
            (num_days (config self))) <$> column_spaces self in
     cache_handles ← _open_cache_connections self day_index;
     let output_path :=
       path_join (output_dir (config self))
         (pretty day_index +:+ "." +:+ get_file_extension writer) in
     s ← get_state;
     rows_for_day ← dict_get (rows_per_day_map s) day_index;
     write_day writer day_index field_names cache_handles rows_for_day
       output_path;;
     add_file_written rows_for_day)
    (fun e =>
       add_errors_encountered 1;;
       raise (Exn OutputError
                ("Failed to write output for day " +:+ pretty day_index
                   +:+ ": " +:+ exn_msg e))).

Definition _write_output_data (self : t) : M unit :=
  writer ← lift_result
             (OutputWriterFactory.create_writer (output_format (config self)));
  for_ (write_one_day self writer) (py_range (num_days (config self))).

Definition _cleanup_cache_files (self : t) : M unit :=
  if cleanup_cache (config self)
  then for_ ColumnSpace.cleanup_all_cache (column_spaces self)
  else mret tt.

Definition _write_generation_profile (self : t) : M unit :=
  modify (fun s =>
    set_fs (<[path_join (output_dir (config self)) "generation_profile.json"
                := ProfileFile (metrics s) (rows_per_day_map s)]> (fs s)) s).

Definition generate (self : t) : M GenerationMetrics :=
  try_except
    (rows_map ← _generate_rows_per_day_map self;
     modify (set_rows_per_day_map rows_map);;
     _create_output_directory self;;
     _generate_column_data self;;
     _write_output_data self;;
     _write_generation_profile self;;
     _cleanup_cache_files self;;
     s ← get_state;
     mret (metrics s))
    (fun e =>
       add_errors_encountered 1;;
       raise (Exn DataGenerationError
                ("Data generation failed: " +:+ exn_msg e))).

End DataGenerator.

(** ** data_generator.py: the validation of a run *)

(** [os.path.getsize(path) == 0]: a CSV file holds its header line at
    least, a JSON file the brackets of its list, a JSON-lines file one
    line per record. *)
Definition file_is_empty (f : file) : bool :=
  match f with
  | CsvFile [] | JsonlFile [] => true
  | _ => false
  end.

(** [validate_generated_data]; [dir_exists] is
    [os.path.exists(self.config.output_dir)]. *)
Definition validate_generated_data (dir_exists : bool)
    (self : DataGenerator.t) : M (list string) :=
  let cfg := DataGenerator.config self in
  if negb dir_exists then mret ["Output directory does not exist"]
  else
    writer ← lift_result
               (OutputWriterFactory.create_writer (output_format cfg));
    let extension := get_file_extension writer in
    let expected_files :=
      (fun i => pretty i +:+ "." +:+ extension) <$> py_range (num_days cfg) in
    s ← get_state;
    let file_issues :=
      expected_files ≫= (fun expected_file =>
        let file_path := path_join (output_dir cfg) expected_file in
        match fs s !! file_path with
        | None => ["Missing expected file: " +:+ expected_file]
        | Some f =>
            if file_is_empty f then ["Empty file: " +:+ expected_file]
            else []
        end) in
    let rows_issue :=
      if total_rows_generated (metrics s) =? 0
      then ["No rows were generated"] else [] in
    let count_issue :=
      if negb (files_written (metrics s) =? num_days cfg)
      then ["Expected " +:+ pretty (num_days cfg) +:+ " files, but wrote "
              +:+ pretty (files_written (metrics s))]
      else [] in
    mret (file_issues ++ rows_issue ++ count_issue).

(** ** config.py: the default configuration *)

(** [get_default_columns]; every constructor call passes
    [ColumnConfig.__post_init__] (lemma [default_columns_valid]). *)
Definition get_default_columns : list ColumnConfig :=
  let col n dt p tt df :=
    {| name := n; data_type := dt; transition_percentage := p;
       transition_type := tt; distribution_flags := df |} in
  [ col "id" INTEGER 0%Q 0 (DistributionType_value INCREMENT);
    col "uniform1" INTEGER 0%Q 0 (DistributionType_value UNIFORM);
    col "zeroes1" INTEGER (6 # 10) (TransitionType_value ZEROS_HIGH)
      (DistributionType_value UNIFORM);
    col "nulls1" INTEGER (4 # 10) (TransitionType_value NULLS_HIGH)
      (DistributionType_value UNIFORM);
    col "normal1" FLOAT (2 # 10) (TransitionType_value SCHEMA_NAME)
      (DistributionType_value NORMAL);
    col "uniform2" FLOAT (3 # 10) (TransitionType_value VALUES_SCALE)
      (DistributionType_value UNIFORM);
    col "normal2" INTEGER (7 # 10)
      (Z.lor (TransitionType_value VALUES_SCALE)
         (TransitionType_value VALUES_SOME_STRINGS))
      (DistributionType_value NORMAL);
    col "normal3" INTEGER (7 # 10) (TransitionType_value VALUES_SCALE)
      (DistributionType_value NORMAL);
    col "uniform3" FLOAT (9 # 10) (TransitionType_value VALUES_ALL_STRINGS)
      (DistributionType_value UNIFORM);
    col "catStr1" STRING_CATEGORY (5 # 10)
      (TransitionType_value STRING_SMALL_TO_LONG) 0;
    col "catStrSteady2" STRING_CATEGORY 0%Q 0 0;
    col "descStr1" STRING_LONG (5 # 10)
      (TransitionType_value STRING_LONG_TO_SMALL) 0 ].

(** [get_default_config]: [GeneratorConfig()] with the default columns. *)
Definition get_default_config : GeneratorConfig := {|
  num_days := 10; approx_rows_per_day := 500; output_dir := "data";
  output_format := "csv"; cache_batch_size := 10000;
  max_workers := None; row_variation_percentage := 2 # 10;
  random_day_reduction_probability := 8 # 10;
  random_day_reduction_factor := 1 # 10;
  cleanup_cache := true; resume_generation := false;
  log_level := "INFO"; progress_bars := true;
  columns := get_default_columns
|}.

(** ** gen_data_new.py *)

(** The parsed command line; an option that was not given is [None]. *)
Module Args.

Record t := {
  config : option string;
  out : option string;
  rows : option Z;
  days : option Z;
  format : option string;
  workers : option Z;
  batch_size : option Z;
  log_level : option string;
  no_progress : bool;
  no_cleanup : bool
}.

End Args.

(** The truth value of an optional string and of an optional integer. *)
Definition str_truthy (o : option string) : bool :=
  match o with
  | Some s => negb (bool_decide (s = ""))
  | None => false
  end.

Definition int_truthy (o : option Z) : bool :=
  match o with
  | Some z => negb (z =? 0)
  | None => false
  end.

(** [str(l)] for a list of plain strings. *)
Definition py_list_repr (l : list string) : string :=
  "[" +:+ match (fun x => "'" +:+ x +:+ "'") <$> l with
          | [] => ""
          | w :: ws => fold_left (fun acc x => acc +:+ ", " +:+ x) ws w
          end +:+ "]".

(** [validate_args]; [isfile] is [os.path.isfile]. *)
Definition validate_args (isfile : string -> bool) (args : Args.t)
  : result unit :=
  if match Args.rows args with Some r => r <=? 0 | None => false end then
    Err (Exn ValueError "Number of rows must be positive")
  else if match Args.days args with Some d => d <=? 0 | None => false end then
    Err (Exn ValueError "Number of days must be positive")
  else if str_truthy (Args.format args)
          && negb (bool_decide (default "" (Args.format args)
                                ∈ OutputWriterFactory.get_supported_formats))
  then
    Err (Exn ValueError
           ("Unsupported format: " +:+ default "" (Args.format args)
              +:+ ". Supported: "
              +:+ py_list_repr OutputWriterFactory.get_supported_formats))
  else if str_truthy (Args.config args)
          && negb (isfile (default "" (Args.config args)))
  then
    Err (Exn ValueError
           ("Configuration file not found: "
              +:+ default "" (Args.config args)))
  else if match Args.workers args with Some w => w <? 1 | None => false end
  then
    Err (Exn ValueError "Number of workers must be at least 1")
  else Ok tt.

(** The overrides that [load_config_from_args] assigns to the attributes
    of the configuration object. *)
Definition apply_overrides (args : Args.t) (config : GeneratorConfig)
  : GeneratorConfig := {|
  num_days :=
    if int_truthy (Args.days args) then default 0 (Args.days args)
    else num_days config;
  approx_rows_per_day :=
    if int_truthy (Args.rows args) then default 0 (Args.rows args)
    else approx_rows_per_day config;
  output_dir :=
    if str_truthy (Args.out args) then default "" (Args.out args)
    else output_dir config;
  output_format :=
    if str_truthy (Args.format args) then default "" (Args.format args)
    else output_format config;
  cache_batch_size :=
    if int_truthy (Args.batch_size args)
    then default 0 (Args.batch_size args)
    else cache_batch_size config;
  max_workers :=
    match Args.workers args with
    | Some w => Some w
    | None => max_workers config
    end;
  row_variation_percentage := row_variation_percentage config;
  random_day_reduction_probability := random_day_reduction_probability config;
  random_day_reduction_factor := random_day_reduction_factor config;
  cleanup_cache := if Args.no_cleanup args then false else cleanup_cache config;
  resume_generation := resume_generation config;
  log_level :=
    if str_truthy (Args.log_level args)
    then default "" (Args.log_level args)
    else log_level config;
  progress_bars :=
    if Args.no_progress args then false else progress_bars config;
  columns := columns config
|}.

(** [load_config_from_args]; [from_yaml] is [GeneratorConfig.from_yaml] and
    [from_json] is [GeneratorConfig.from_dict] on the parsed JSON file,
    both with the exception they raise if any. *)
Definition load_config_from_args
    (from_yaml from_json : string -> result GeneratorConfig)
    (args : Args.t) : result GeneratorConfig :=
  let loaded :=
    if str_truthy (Args.config args) then
      let path := default "" (Args.config args) in
      match
        (if str_endswith path ".yaml" || str_endswith path ".yml"
         then from_yaml path
         else if str_endswith path ".json" then from_json path
         else Err (Exn ConfigurationError
                     ("Unsupported config file format: " +:+ path)))
      with
      | Ok config => Ok config
      | Err e =>
          Err (Exn ConfigurationError
                 ("Failed to load config file " +:+ path +:+ ": "
                    +:+ exn_msg e))
      end
    else Ok get_default_config in
  match loaded with
  | Ok config => Ok (apply_overrides args config)
  | Err e => Err e
  end.

(** ** Concrete inputs used in examples *)

(** The decimal expansion of a dyadic rational (a denominator [2^k] gives
    at most [k] decimals), which is how Python prints the floats of the
    examples below. *)
Fixpoint frac_digits (fuel : nat) (num den : Z) : string :=
  match fuel with
  | O => ""
  | S fuel' =>
      if num =? 0 then ""
      else pretty ((num * 10) / den)
             +:+ frac_digits fuel' ((num * 10) mod den) den
  end.

Definition decimal_repr (q : Q) : string :=
  let n := Qnum q in
  let d := Z.pos (Qden q) in
  let a := Z.abs n in
  (if n <? 0 then "-" else "") +:+ pretty (a / d) +:+ "." +:+
  (if a mod d =? 0 then "0"
   else frac_digits (Pos.size_nat (Qden q)) (a mod d) d).

(** A runtime whose [random.random()] alternates 0.875, 0.5, whose numpy
    samples are all 1/64, and whose workers finish in submission order. *)
Definition demo_rt : Runtime := {|
  py_random := fun k => if Nat.even k then 7 # 8 else 1 # 2;
  py_randbelow := fun k n => k;
  np_rand := fun _ => 1 # 64;
  np_normal := fun _ => 1 # 64;
  dict_line := fun _ => Some "word";
  float_repr := decimal_repr;
  finish_time := fun i => i
|}.

Definition no_metrics : GenerationMetrics := {|
  total_rows_generated := 0; total_columns := 0; cache_operations := 0;
  files_written := 0; errors_encountered := 0
|}.

(** A fresh interpreter in an empty directory. *)
Definition demo_state : State := {|
  rt := demo_rt; py_pos := 0; np_pos := 0; fs := ∅;
  metrics := no_metrics; rows_per_day_map := ∅
|}.

Definition column (n : string) (dt : DataType) (p : Q) (tt df : Z)
  : ColumnConfig :=
  {| name := n; data_type := dt; transition_percentage := p;
     transition_type := tt; distribution_flags := df |}.

(** A numeric column object (no word source). *)
Definition numeric_column (cfg : ColumnConfig) : ColumnSpace.t :=
  {| ColumnSpace.config := cfg; ColumnSpace.word_gen := None |}.

(** [ColumnConfig("id", DataType.INTEGER, 0.0, 0, DistributionType.INCREMENT)],
    the first default column. *)
Definition id_column : ColumnConfig :=
  column "id" INTEGER 0 0 (DistributionType_value INCREMENT).

(** ** The spec's wording of the claims that are compared with the code *)

(** [v == q] for a cached value and a number. *)
Definition num_eq (v : value) (q : Q) : Prop :=
  match v with
  | VInt z => (inject_Z z == q)%Q
  | VFloat x => (x == q)%Q
  | VStr _ => False
  end.

(** No transition flag is active for the column on that day. *)
Definition no_transition_active (self : ColumnSpace.t) (d total : Z) : Prop :=
  forall flag : TransitionType,
    ColumnSpace.has_transition self d total (TransitionType_value flag) = false.

(** The spec's INCREMENT property (section 8): for a column with the
    INCREMENT flag, of any data type, and a day without active transition,
    the values cached for the day are [0, 1, ..., n-1] in order, for any
    row count and batch size. *)
Definition spec_increment_sequence : Prop :=
  forall (cfg : ColumnConfig) (s0 s1 : State) (self : ColumnSpace.t)
         (d n total b : Z) (s s' : State),
    ColumnSpace.new cfg s0 = Ret self s1 ->
    ColumnSpace.has_distribution self (DistributionType_value INCREMENT) = true ->
    no_transition_active self d total ->
    1 <= b -> 1 <= n ->
    ColumnSpace.generate_day_data self d n total b s = Ret tt s' ->
    exists rows,
      fs s' !! ColumnSpace._get_cache_path self d = Some (CacheFile rows)
      /\ Forall2 num_eq rows (float_of_int <$> py_range n).

(** The order of the post-sampling transforms as the spec gives it
    (section 4.2): value scaling, high zeros, high nulls, then type
    coercion, then stringification. *)
Definition spec_post_sampling (self : ColumnSpace.t) (values : list value)
    (day_index total_days : Z) : M (list value) :=
  let active f := ColumnSpace.has_transition self day_index total_days
                    (TransitionType_value f) in
  values ← mret (if active VALUES_SCALE
                 then (fun v => if is_number v then mul_lit v 40 else v)
                        <$> values
                 else values);
  values ← (if active ZEROS_HIGH then
              r ← random_random;
              if Qle_bool (1 # 2) r
              then ColumnSpace._replace_half values (VInt 0)
              else mret values
            else mret values);
  values ← (if active NULLS_HIGH then
              r ← random_random;
              if Qle_bool (1 # 2) r
              then ColumnSpace._replace_half values (VStr "")
              else mret values
            else mret values);
  values ← mret (ColumnSpace._convert_types self values);
  if active VALUES_SOME_STRINGS then
    for_each (fun v =>
        b ← random_choice [true; false];
        s ← get_state;
        mret (if b : bool then VStr ("sometimes-" +:+ py_str (rt s) v) else v))
      values
  else if active VALUES_ALL_STRINGS then
    s ← get_state;
    mret ((fun v => VStr ("all-" +:+ py_str (rt s) v)) <$> values)
  else mret values.

(** A numeric batch produced in the spec's order. *)
Definition spec_numeric_batch (self : ColumnSpace.t) (day_index total_days : Z)
    (batch_size_actual : Z) : M (list value) :=
  arr ← ColumnSpace._generate_numeric_distribution self batch_size_actual;
  spec_post_sampling self (VFloat <$> arr) day_index total_days.

(** [ColumnConfig("normal3", DataType.INTEGER, 0.7,
    TransitionType.VALUES_SCALE, DistributionType.NORMAL)], one of the
    default columns. *)
Definition normal3_column : ColumnConfig :=
  column "normal3" INTEGER (7 # 10) (TransitionType_value VALUES_SCALE)
    (DistributionType_value NORMAL).

(** Two days of two rows, written as JSON by the single-process path: the
    incrementing [id] column and a FLOAT column whose name changes from
    day 2 of 4 on. *)
Definition renaming_config : GeneratorConfig := {|
  num_days := 4; approx_rows_per_day := 2; output_dir := "data";
  output_format := "json"; cache_batch_size := 10000;
  max_workers := Some 1; row_variation_percentage := 0;
  random_day_reduction_probability := 4 # 5;
  random_day_reduction_factor := 1 # 10;
  cleanup_cache := false; resume_generation := false;
  log_level := "INFO"; progress_bars := false;
  columns := [id_column;
              column "normal1" FLOAT (1 # 2) (TransitionType_value SCHEMA_NAME)
                (DistributionType_value NORMAL)]
|}.

(** Two open caches of one row each, as [write_day] receives them. *)
Definition two_caches : gmap string file :=
  {[ "a" := CacheFile [VInt 1]; "b" := CacheFile [VInt 2] ]}.

(** The file system an outcome leaves behind. *)
Definition outcome_fs {A} (o : outcome A) : gmap string file :=
  match o with
  | Ret _ s | Raise _ s => fs s
  | Diverge => ∅
  end.

Definition returned {A} (o : outcome A) : bool :=
  match o with
  | Ret _ _ => true
  | _ => false
  end.

(** Construct the generator, then run it. *)
Definition run_generator (cfg : GeneratorConfig) : M GenerationMetrics :=
  g ← DataGenerator.new cfg; DataGenerator.generate g.





(** The test suite's generator with ten rows per day and 25% variation. *)
Definition planner_config : GeneratorConfig := {|
  num_days := 2; approx_rows_per_day := 10; output_dir := "data";
  output_format := "csv"; cache_batch_size := 10000;
  max_workers := Some 1; row_variation_percentage := 1 # 4;
  random_day_reduction_probability := 4 # 5;
  random_day_reduction_factor := 1 # 10;
  cleanup_cache := true; resume_generation := false;
  log_level := "ERROR"; progress_bars := false;
  columns := [id_column]
|}.

Definition planner_generator : DataGenerator.t := {|
  DataGenerator.config := planner_config;
  DataGenerator.column_spaces := [numeric_column id_column]
|}.

(** The row count the code plans from the two draws at cursor [pos]. *)
Definition planned_rows (cfg : GeneratorConfig) (rt : Runtime) (pos : nat) : Z :=
  let u := py_random rt pos in
  let a := py_random rt (S pos) in
  let variation_factor :=
    fadd 1 (fmul (fmul (fsub u (1 # 2)) 2) (row_variation_percentage cfg)) in
  let num_rows :=
    int_of_float (fmul (float_of_int (approx_rows_per_day cfg)) variation_factor) in
  let num_rows :=
    if negb (Qle_bool a (random_day_reduction_probability cfg))
    then int_of_float (fmul (float_of_int num_rows)
                         (random_day_reduction_factor cfg))
    else num_rows in
  Z.max 1 num_rows.

(** The file system [f'] differs from [f] only by cache tables: every path
    either holds what it held or holds a cache table. *)
Definition only_caches_written (f f' : gmap string file) : Prop :=
  forall path, f' !! path = f !! path
               \/ exists rows, f' !! path = Some (CacheFile rows).

(** No output file was written between two states. *)
Definition no_output_written (s s' : State) : Prop :=
  only_caches_written (fs s) (fs s')
  /\ files_written (metrics s') = files_written (metrics s).

(** A run whose only numeric column is asked for batches of size -1. *)
Definition failing_config : GeneratorConfig := {|
  num_days := 2; approx_rows_per_day := 10; output_dir := "data";
  output_format := "csv"; cache_batch_size := -1;
  max_workers := Some 1; row_variation_percentage := 1 # 4;
  random_day_reduction_probability := 4 # 5;
  random_day_reduction_factor := 1 # 10;
  cleanup_cache := true; resume_generation := false;
  log_level := "ERROR"; progress_bars := false;
  columns := [column "uniform1" INTEGER 0 0 (DistributionType_value UNIFORM)]
|}.

Definition failing_generator : DataGenerator.t := {|
  DataGenerator.config := failing_config;
  DataGenerator.column_spaces :=
    [numeric_column
       (column "uniform1" INTEGER 0 0 (DistributionType_value UNIFORM))]
|}.

(** A one-day JSON run whose two columns are both renamed from day 0. *)
Definition all_renamed_config : GeneratorConfig := {|
  num_days := 1; approx_rows_per_day := 2; output_dir := "data";
  output_format := "json"; cache_batch_size := 10000;
  max_workers := Some 1; row_variation_percentage := 0;
  random_day_reduction_probability := 4 # 5;
  random_day_reduction_factor := 1 # 10;
  cleanup_cache := false; resume_generation := false;
  log_level := "INFO"; progress_bars := false;
  columns := [column "a" FLOAT 0 (TransitionType_value SCHEMA_NAME)
                (DistributionType_value UNIFORM);
              column "b" FLOAT 0 (TransitionType_value SCHEMA_NAME)
                (DistributionType_value UNIFORM)]
|}.

(** [ColumnConfig("catStr1", DataType.STRING_CATEGORY, 0.5,
    TransitionType.STRING_SMALL_TO_LONG, 0)], a default column, and the
    object its constructor builds with [demo_rt]. *)
Definition catStr1_column : ColumnConfig :=
  column "catStr1" STRING_CATEGORY (1 # 2)
    (TransitionType_value STRING_SMALL_TO_LONG) 0.

Definition catStr1_space : ColumnSpace.t := {|
  ColumnSpace.config := catStr1_column;
  ColumnSpace.word_gen :=
    Some {| ValueGenerator.cat_string := replicate 10 "word" |}
|}.

(** The path of the output file of a day. *)
Definition output_path (self : DataGenerator.t) (writer : OutputWriter)
    (day_index : Z) : string :=
  path_join (output_dir (DataGenerator.config self))
    (pretty day_index +:+ "." +:+ get_file_extension writer).

(** The file has the format the writer produces. *)
Definition written_by (writer : OutputWriter) (f : file) : Prop :=
  match writer, f with
  | Csv, CsvFile lines => lines <> []    (* the header line at least *)
  | Json, JsonFile _ | JsonLines, JsonlFile _ => True
  | _, _ => False
  end.

(** The sum of the planned row counts of the given days. *)
Definition planned_total (m : gmap Z Z) (days : list Z) : Z :=
  foldr (fun d acc => default 0 (m !! d) + acc) 0 days.

(** A state in which the two days of [planner_generator] have been
    planned and its column has been cached. *)
Definition cached_state : State := {|
  rt := demo_rt; py_pos := 4; np_pos := 0;
  fs := {[ ".id-0.cache" := CacheFile [VFloat 0; VInt 100];
           ".id-1.cache" := CacheFile [VFloat 0; VInt 100; VInt 200] ]};
  metrics := no_metrics;
  rows_per_day_map := {[ 0 := 2; 1 := 3 ]}
|}.

(** The table at [path] holds as many rows as the plan gives the day. *)
Definition aligned_table (m : gmap Z Z) (f : gmap string file)
    (path : string) (d : Z) : Prop :=
  exists (rows : list value) (n : Z),
    f !! path = Some (CacheFile rows)
    /\ m !! d = Some n
    /\ Z.of_nat (length rows) = Z.max 0 n.

(** The cache of column [c] for day [d] holds the planned number of rows. *)
Definition cache_aligned (s : State) (c : ColumnSpace.t) (d : Z) : Prop :=
  aligned_table (rows_per_day_map s) (fs s) (ColumnSpace._get_cache_path c d) d.

(** [path] is the cache of one of the columns for one of the days, and
    holds the planned number of rows. *)
Definition planned_cache (cols : list ColumnSpace.t) (days : list Z)
    (m : gmap Z Z) (f : gmap string file) (path : string) : Prop :=
  exists c d, c ∈ cols /\ d ∈ days
    /\ path = ColumnSpace._get_cache_path c d
    /\ aligned_table m f path d.

(** Between two states of the generation phase: the plan is the same,
    every path holds what it held or a planned cache, and of the metrics
    only [cache_operations] may differ. *)
Definition caches_grown (cols : list ColumnSpace.t) (days : list Z)
    (s s' : State) : Prop :=
  rows_per_day_map s' = rows_per_day_map s
  /\ (forall p, fs s' !! p = fs s !! p
                \/ planned_cache cols days (rows_per_day_map s) (fs s') p)
  /\ files_written (metrics s') = files_written (metrics s)
  /\ total_rows_generated (metrics s') = total_rows_generated (metrics s)
  /\ errors_encountered (metrics s') = errors_encountered (metrics s).

(** The worker of the future returned. *)
Definition future_ok {A} (fut : string * result A) : Prop :=
  exists v, fut.2 = Ok v.

(** The path of the generation profile. *)
Definition profile_path (self : DataGenerator.t) : string :=
  path_join (output_dir (DataGenerator.config self)) "generation_profile.json".

(** The same column with its transitions active from day 0 on. *)
Definition from_day_zero (self : ColumnSpace.t) : ColumnSpace.t :=
  {| ColumnSpace.config :=
       {| name := name (ColumnSpace.config self);
          data_type := data_type (ColumnSpace.config self);
          transition_percentage := 0;
          transition_type := transition_type (ColumnSpace.config self);
          distribution_flags := distribution_flags (ColumnSpace.config self) |};
     ColumnSpace.word_gen := ColumnSpace.word_gen self |}.

(** [int(total_days * transition_percentage)], the first day on which the
    transitions of the column are active. *)
Definition transition_day (self : ColumnSpace.t) (total_days : Z) : Z :=
  int_of_float (fmul (float_of_int total_days)
                  (transition_percentage (ColumnSpace.config self))).

(** [--rows 1000 --days 30 --batch-size -5]. *)
Definition demo_args : Args.t := {|
  Args.config := None; Args.out := None; Args.rows := Some 1000;
  Args.days := Some 30; Args.format := None; Args.workers := None;
  Args.batch_size := Some (-5); Args.log_level := None;
  Args.no_progress := false; Args.no_cleanup := false
|}.

(** A one-day JSON-lines run whose only column is renamed from day 0. *)
Definition renamed_jsonl_generator : DataGenerator.t := {|
  DataGenerator.config := {|
    num_days := 1; approx_rows_per_day := 2; output_dir := "data";
    output_format := "jsonl"; cache_batch_size := 10000;
    max_workers := Some 1; row_variation_percentage := 0;
    random_day_reduction_probability := 4 # 5;
    random_day_reduction_factor := 1 # 10;
    cleanup_cache := true; resume_generation := false;
    log_level := "INFO"; progress_bars := false;
    columns := [column "a" FLOAT 0 (TransitionType_value SCHEMA_NAME)
                  (DistributionType_value UNIFORM)]
  |};
  DataGenerator.column_spaces :=
    [numeric_column (column "a" FLOAT 0 (TransitionType_value SCHEMA_NAME)
                       (DistributionType_value UNIFORM))]
|}.

(** One of the category words of the word source. *)
Definition category_word (wg : ValueGenerator.t) (v : value) : Prop :=
  exists w, v = VStr w /\ w ∈ ValueGenerator.cat_string wg.

(** A float in [[0,1)]. *)
Definition unit_float (v : value) : Prop :=
  exists q, v = VFloat q /\ (0 <= q)%Q /\ (q < 1)%Q.

(** What [int(v * 100)] leaves of a float in [[0,1)]: an integer from 0
    to 99, or the float zero itself. *)
Definition percent_value (v : value) : Prop :=
  (exists q, v = VFloat q /\ (q == 0)%Q)
  \/ exists k, v = VInt k /\ 0 <= k <= 99.

(** The samples of [np.random.rand] lie in [[0,1)]. *)
Definition unit_samples (rt : Runtime) : Prop :=
  forall k, (0 <= np_rand rt k)%Q /\ (np_rand rt k < 1)%Q.

(** The rows of the cache of a column for a day. *)
Definition day_cache (s : State) (c : ColumnSpace.t) (d : Z) : list value :=
  match fs s !! ColumnSpace._get_cache_path c d with
  | Some (CacheFile rows) => rows
  | _ => []
  end.

(** The JSON or JSON-lines file with the given records. *)
Definition records_file (writer : OutputWriter) (recs : list record) : file :=
  match writer with
  | JsonLines => JsonlFile recs
  | _ => JsonFile recs
  end.


(** What an INCREMENT column caches for the counter value [j]: the float
    itself, or for an INTEGER column [100 * j], the zero staying the
    float it was. *)
Definition increment_value (dt : DataType) (j : Z) : value :=
  match dt with
  | INTEGER => if j =? 0 then VFloat 0 else VInt (j * 100)
  | _ => VFloat (float_of_int j)
  end.

(** The generator of [renaming_config], and a state in which day 2 has
    been planned with one row and cached for both columns. *)
Definition renaming_generator : DataGenerator.t := {|
  DataGenerator.config := renaming_config;
  DataGenerator.column_spaces := numeric_column <$> columns renaming_config
|}.

Definition renamed_state : State := {|
  rt := demo_rt; py_pos := 0; np_pos := 0;
  fs := {[ ".id-2.cache" := CacheFile [VFloat 0];
           ".normal1-2.cache" := CacheFile [VFloat (1 # 64)] ]};
  metrics := no_metrics;
  rows_per_day_map := {[ 2 := 1 ]}
|}.

(** What the code caches for an INCREMENT column in one batch. *)
Definition increment_floats (n : Z) : list value :=
  (fun i => VFloat (float_of_int i)) <$> py_range n.

Definition increment_integers (n : Z) : list value :=
  (fun i => if i =? 0 then VFloat 0 else VInt (i * 100)) <$> py_range n.

(** * Properties *)

(** ** Arithmetic of the transition threshold *)

Lemma int_of_float_floor (q : Q) : (0 <= q)%Q -> int_of_float q = Qfloor q.
Proof.
  destruct q as [n d]. unfold int_of_float, Qfloor, Qle. simpl.
  intros H. apply Z.quot_div_nonneg; lia.
Qed.

Lemma fmul_nonneg (a b : Q) : (0 <= a)%Q -> (0 <= b)%Q -> (0 <= fmul a b)%Q.
Proof.
  intros Ha Hb. unfold fmul. rewrite Qred_correct. by apply Qmult_le_0_compat.
Qed.







(** ** Reasoning about monadic code *)

Lemma bind_unfold {A B} (m : M A) (f : A -> M B) (s : State) :
  (m ≫= f) s = match m s with
               | Ret a s' => f a s'
               | Raise e s' => Raise e s'
               | Diverge => Diverge
               end.
Proof. reflexivity. Qed.

(** [m] returns normally from every state, with a result satisfying [P]. *)
Definition returns_all {A} (m : M A) (P : A -> Prop) : Prop :=
  forall s, exists a s', m s = Ret a s' /\ P a.

Lemma returns_ret {A} (a : A) (P : A -> Prop) : P a -> returns_all (mret a) P.
Proof. intros H s. by exists a, s. Qed.

Lemma returns_bind {A B} (m : M A) (f : A -> M B) (Q : A -> Prop)
    (P : B -> Prop) :
  returns_all m Q -> (forall a, Q a -> returns_all (f a) P) ->
  returns_all (m ≫= f) P.
Proof.
  intros Hm Hf s. destruct (Hm s) as (a & s1 & E & Ha).
  rewrite bind_unfold, E. by apply Hf.
Qed.

Lemma returns_weaken {A} (m : M A) (P Q : A -> Prop) :
  returns_all m P -> (forall a, P a -> Q a) -> returns_all m Q.
Proof.
  intros Hm HPQ s. destruct (Hm s) as (a & s1 & E & Ha). exists a, s1. auto.
Qed.

Lemma returns_for_each {A B} (f : A -> M B) (l : list A) :
  (forall x, returns_all (f x) (fun _ => True)) ->
  returns_all (for_each f l) (fun ys => length ys = length l).
Proof.
  intros Hf. induction l as [|x l IH]; simpl.
  - by apply returns_ret.
  - eapply returns_bind; [apply Hf|]. intros y _.
    eapply returns_bind; [apply IH|]. intros ys Hys.
    apply returns_ret. simpl. by rewrite Hys.
Qed.

Lemma returns_random_random : returns_all random_random (fun _ => True).
Proof. intros s. by eexists _, _. Qed.

Lemma returns_random_choice {A} (l : list A) :
  l <> [] -> returns_all (random_choice l) (fun _ => True).
Proof.
  intros Hl s. unfold random_choice.
  destruct (l !! _) as [x|] eqn:E.
  - by eexists _, _.
  - apply lookup_ge_None in E.
    assert (length l <> 0)%nat by (destruct l; simpl; congruence).
    pose proof (Nat.mod_upper_bound
                  (py_randbelow (rt s) (py_pos s) (length l)) (length l)).
    lia.
Qed.

Lemma returns_get_state : returns_all get_state (fun _ => True).
Proof. intros s. by eexists _, _. Qed.

Lemma py_range_length (n : Z) : length (py_range n) = Z.to_nat n.
Proof. unfold py_range. by rewrite length_fmap, length_seq. Qed.

(** ** The word source never fails *)

Lemma returns_random_word :
  returns_all ValueGenerator._random_word (fun _ => True).
Proof. intros s. by eexists _, _. Qed.

Lemma returns_ValueGenerator_new :
  returns_all ValueGenerator.new
    (fun wg => ValueGenerator.cat_string wg <> []).
Proof.
  unfold ValueGenerator.new.
  eapply returns_bind.
  - apply returns_for_each. intros _.
    eapply returns_bind; [apply returns_random_word|].
    intros w _. by apply returns_ret.
  - intros ws Hws. apply returns_ret. simpl.
    rewrite py_range_length in Hws. by destruct ws.
Qed.

Lemma returns_rand_words (wg : ValueGenerator.t) (n : Z) :
  returns_all (ValueGenerator.rand_words wg n) (fun _ => True).
Proof.
  unfold ValueGenerator.rand_words.
  eapply returns_bind.
  - apply returns_for_each. intros _.
    eapply returns_bind; [apply returns_random_word|].
    intros w _. by apply returns_ret.
  - intros ws _. by apply returns_ret.
Qed.

(** The state of a column as its constructor leaves it: a string column
    owns a word source with a non-empty category list. *)
Definition well_formed (self : ColumnSpace.t) : Prop :=
  ColumnSpace.is_string_type (data_type (ColumnSpace.config self)) = true ->
  exists wg, ColumnSpace.word_gen self = Some wg
             /\ ValueGenerator.cat_string wg <> [].

Lemma returns_ColumnSpace_new (cfg : ColumnConfig) :
  returns_all (ColumnSpace.new cfg)
    (fun self => ColumnSpace.config self = cfg /\ well_formed self).
Proof.
  unfold ColumnSpace.new.
  destruct (data_type cfg) eqn:Hdt.
  1,2: apply returns_ret; split; [done|];
       unfold well_formed; simpl; rewrite Hdt; discriminate.
  all: eapply returns_bind; [apply returns_ValueGenerator_new|];
       intros wg Hwg; apply returns_ret; split; [done|];
       intros _; by exists wg.
Qed.

Lemma returns_generate_word (self : ColumnSpace.t) (d total : Z) :
  well_formed self ->
  ColumnSpace.is_string_type (data_type (ColumnSpace.config self)) = true ->
  returns_all (ColumnSpace._generate_word self d total) (fun _ => True).
Proof.
  intros Hwf Hstr. destruct (Hwf Hstr) as (wg & Hwg & Hne).
  unfold ColumnSpace._generate_word. rewrite Hwg.
  destruct (data_type (ColumnSpace.config self)); try discriminate;
    destruct (ColumnSpace.has_transition _ _ _ _);
    first [ apply returns_rand_words | by apply returns_random_choice ].
Qed.

(** ** Every batch has the requested size *)

Lemma returns_np_samples (view : Runtime -> nat -> Q) (n : Z) :
  0 <= n ->
  returns_all (np_samples view n) (fun arr => length arr = Z.to_nat n).
Proof.
  intros Hn s. unfold np_samples.
  destruct (Z.ltb_spec n 0); [lia|].
  eexists _, _. split; [done|]. by rewrite length_fmap, length_seq.
Qed.

Lemma returns_numeric_distribution (self : ColumnSpace.t) (n : Z) :
  0 <= n ->
  returns_all (ColumnSpace._generate_numeric_distribution self n)
    (fun arr => length arr = Z.to_nat n).
Proof.
  intros Hn. unfold ColumnSpace._generate_numeric_distribution.
  repeat case_match; try by apply returns_np_samples.
  apply returns_ret. unfold ColumnSpace.np_arange.
  by rewrite length_fmap, py_range_length.
Qed.

Lemma convert_types_length (self : ColumnSpace.t) (values : list value) :
  length (ColumnSpace._convert_types self values) = length values.
Proof.
  unfold ColumnSpace._convert_types. case_match; by rewrite ?length_fmap.
Qed.

Lemma returns_replace_half (values : list value) (new_value : value) :
  returns_all (ColumnSpace._replace_half values new_value)
    (fun vs => length vs = length values).
Proof.
  unfold ColumnSpace._replace_half. apply returns_for_each. intros v.
  eapply returns_bind; [apply returns_random_random|].
  intros r _. by apply returns_ret.
Qed.

Lemma returns_apply_transitions (self : ColumnSpace.t) (values : list value)
    (d total : Z) :
  returns_all (ColumnSpace._apply_transitions self values d total)
    (fun vs => length vs = length values).
Proof.
  unfold ColumnSpace._apply_transitions.
  eapply returns_bind with (Q := fun vs => length vs = length values).
  { apply returns_ret. case_match; by rewrite ?length_fmap. }
  intros v1 H1.
  eapply returns_bind with (Q := fun vs => length vs = length values).
  { case_match; [|by apply returns_ret].
    eapply returns_bind; [apply returns_random_random|]. intros r _.
    case_match; [|by apply returns_ret].
    eapply returns_weaken; [apply returns_replace_half|].
    intros vs Hvs. congruence. }
  intros v2 H2.
  eapply returns_bind with (Q := fun vs => length vs = length values).
  { case_match; [|by apply returns_ret].
    eapply returns_bind; [apply returns_random_random|]. intros r _.
    case_match; [|by apply returns_ret].
    eapply returns_weaken; [apply returns_replace_half|].
    intros vs Hvs. congruence. }
  intros v3 H3.
  case_match.
  - eapply returns_weaken.
    + apply returns_for_each. intros v.
      eapply returns_bind; [by apply returns_random_choice|]. intros b _.
      eapply returns_bind; [apply returns_get_state|]. intros s _.
      by apply returns_ret.
    + intros vs Hvs. simpl in Hvs. congruence.
  - case_match; [|by apply returns_ret].
    eapply returns_bind; [apply returns_get_state|]. intros s _.
    apply returns_ret. by rewrite length_fmap.
Qed.

Lemma returns_generate_batch (self : ColumnSpace.t) (d total n : Z) :
  well_formed self -> 0 <= n ->
  returns_all (ColumnSpace.generate_batch self d total n)
    (fun vs => length vs = Z.to_nat n).
Proof.
  intros Hwf Hn. unfold ColumnSpace.generate_batch.
  eapply returns_bind with (Q := fun vs => length vs = Z.to_nat n).
  - destruct (ColumnSpace.is_string_type _) eqn:Hstr.
    + eapply returns_weaken.
      * apply returns_for_each. intros _.
        eapply returns_bind; [by apply returns_generate_word|].
        intros w _. by apply returns_ret.
      * intros vs Hvs. simpl in Hvs. by rewrite Hvs, py_range_length.
    + eapply returns_bind; [by apply returns_numeric_distribution|].
      intros arr Harr. apply returns_ret.
      by rewrite convert_types_length, length_fmap.
  - intros vs Hvs. eapply returns_weaken; [apply returns_apply_transitions|].
    intros vs' Hvs'. simpl in Hvs'. congruence.
Qed.

(** The loop returns once the target is reached, having appended exactly
    the missing values; the fuel given by [generate_day_data] is enough. *)
Lemma returns_generate_loop (self : ColumnSpace.t) (d n total b : Z) :
  well_formed self -> 1 <= b ->
  forall (fuel : nat) (generated : Z) (pending : list value),
    generated <= n -> (Z.to_nat (n - generated) <= fuel)%nat ->
    returns_all
      (ColumnSpace.generate_loop fuel self d n total b generated pending)
      (fun rows => Z.of_nat (length rows)
                   = Z.of_nat (length pending) + (n - generated)).
Proof.
  intros Hwf Hb. induction fuel as [|fuel IH]; intros generated pending Hle Hfuel.
  - simpl. destruct (Z.ltb_spec generated n); [lia|].
    apply returns_ret. lia.
  - simpl. destruct (Z.ltb_spec generated n) as [Hlt|Hge].
    + eapply returns_bind.
      { apply returns_generate_batch; [done|lia]. }
      intros vs Hvs. simpl in Hvs.
      case_bool_decide as Hnil.
      { subst vs. simpl in Hvs. lia. }
      eapply returns_weaken.
      * apply IH; lia.
      * intros rows Hrows. simpl in Hrows. rewrite Hrows, length_app. lia.
    + apply returns_ret. lia.
Qed.

(** C5.  For a column as its constructor builds it, every batch size
    [>= 1] and every target [num_values >= 1], [generate_day_data] returns
    and leaves at the column's cache path for that day a table holding
    exactly [num_values] values: the rows at the 1-based positions
    [1 .. num_values] are the generated values in order, and no other
    position holds a row. *)
Theorem day_cache_row_count
    (cfg : ColumnConfig) (s0 s1 : State) (self : ColumnSpace.t)
    (day_index num_values total_days batch_size : Z) (s : State) :
  ColumnSpace.new cfg s0 = Ret self s1 ->
  1 <= batch_size ->
  1 <= num_values ->
  exists (s' : State) (rows : list value),
    ColumnSpace.generate_day_data self day_index num_values total_days
      batch_size s = Ret tt s'
    /\ fs s' !! ColumnSpace._get_cache_path self day_index = Some (CacheFile rows)
    /\ Z.of_nat (length rows) = num_values
    /\ (forall p, 1 <= p <= num_values ->
          select_val (CacheFile rows) p = Ok (rows !! Z.to_nat (p - 1))
          /\ is_Some (rows !! Z.to_nat (p - 1)))
    /\ (forall p, ~ 1 <= p <= num_values ->
          select_val (CacheFile rows) p = Ok None).
Proof.
  intros Hnew Hb Hn.
  destruct (returns_ColumnSpace_new cfg s0) as (self' & s1' & E & _ & Hwf).
  rewrite Hnew in E. inversion E; subst self' s1'. clear E.
  unfold ColumnSpace.generate_day_data.
  rewrite bind_unfold. unfold modify at 1.
  set (sA := set_fs _ s).
  destruct (returns_generate_loop self day_index num_values total_days
              batch_size Hwf Hb (Z.to_nat num_values) 0 [] ltac:(lia)
              ltac:(lia) sA) as (rows & sB & Eloop & Hlen).
  simpl in Hlen.
  unfold try_except. rewrite bind_unfold, Eloop. unfold modify.
  eexists _, rows. split; [done|]. simpl.
  split; [apply lookup_insert_eq|].
  split; [lia|]. split.
  - intros p Hp. simpl. destruct (Z.leb_spec p 0); [lia|].
    split; [done|]. apply lookup_lt_is_Some. lia.
  - intros p Hp. simpl. destruct (Z.leb_spec p 0); [done|].
    f_equal. apply lookup_ge_None. lia.
Qed.

(** ** Generation depends on the transition set only through
       [has_transition] *)

Lemma bind_ext {A B} (m m' : M A) (f f' : A -> M B) (s : State) :
  m s = m' s -> (forall a s1, f a s1 = f' a s1) ->
  (m ≫= f) s = (m' ≫= f') s.
Proof.
  intros Hm Hf. rewrite !bind_unfold, Hm. by destruct (m' s).
Qed.

(** Two columns that differ at most in their transition sets. *)
Definition same_but_transitions (self self' : ColumnSpace.t) : Prop :=
  ColumnSpace.word_gen self = ColumnSpace.word_gen self'
  /\ name (ColumnSpace.config self) = name (ColumnSpace.config self')
  /\ data_type (ColumnSpace.config self) = data_type (ColumnSpace.config self')
  /\ distribution_flags (ColumnSpace.config self)
     = distribution_flags (ColumnSpace.config self').

Section Ext.

Variables (self self' : ColumnSpace.t) (d total : Z).
Hypothesis Hsame : same_but_transitions self self'.
Hypothesis Hactive : forall mask,
  ColumnSpace.has_transition self d total mask
  = ColumnSpace.has_transition self' d total mask.

Lemma generate_word_ext :
  ColumnSpace._generate_word self d total
  = ColumnSpace._generate_word self' d total.
Proof using Hsame Hactive.
  destruct Hsame as (Hwg & Hname & Hdt & _).
  unfold ColumnSpace._generate_word. by rewrite !Hactive, Hwg, Hname, Hdt.
Qed.

Lemma apply_transitions_ext (values : list value) :
  ColumnSpace._apply_transitions self values d total
  = ColumnSpace._apply_transitions self' values d total.
Proof using Hactive.
  unfold ColumnSpace._apply_transitions. by rewrite !Hactive.
Qed.

Lemma generate_batch_ext (n : Z) (s : State) :
  ColumnSpace.generate_batch self d total n s
  = ColumnSpace.generate_batch self' d total n s.
Proof using Hsame Hactive.
  unfold ColumnSpace.generate_batch.
  rewrite generate_word_ext.
  destruct Hsame as (_ & _ & Hdt & Hdf).
  unfold ColumnSpace._generate_numeric_distribution, ColumnSpace._convert_types,
    ColumnSpace.has_distribution.
  rewrite Hdt, Hdf.
  apply bind_ext; [done|]. intros vs s1. by rewrite apply_transitions_ext.
Qed.

Lemma generate_loop_ext (n b : Z) (fuel : nat) :
  forall (generated : Z) (pending : list value) (s : State),
    ColumnSpace.generate_loop fuel self d n total b generated pending s
    = ColumnSpace.generate_loop fuel self' d n total b generated pending s.
Proof using Hsame Hactive.
  induction fuel as [|fuel IH]; intros generated pending s; simpl.
  - done.
  - destruct (generated <? n); [|done].
    apply bind_ext; [apply generate_batch_ext|].
    intros vs s1. case_bool_decide; [done|]. apply IH.
Qed.

Lemma generate_day_data_ext (n b : Z) (s : State) :
  ColumnSpace.generate_day_data self d n total b s
  = ColumnSpace.generate_day_data self' d n total b s.
Proof using Hsame Hactive.
  unfold ColumnSpace.generate_day_data, ColumnSpace._get_cache_path.
  destruct Hsame as (_ & Hname & _ & _). rewrite Hname.
  apply bind_ext; [done|]. intros [] s1.
  unfold try_except. rewrite !bind_unfold, generate_loop_ext.
  by destruct (ColumnSpace.generate_loop _ _ _ _ _ _ _ _ _).
Qed.

End Ext.

(** The same column with every transition flag cleared. *)
Definition without_transitions (self : ColumnSpace.t) : ColumnSpace.t :=
  {| ColumnSpace.config :=
       {| name := name (ColumnSpace.config self);
          data_type := data_type (ColumnSpace.config self);
          transition_percentage := transition_percentage (ColumnSpace.config self);
          transition_type := 0;
          distribution_flags := distribution_flags (ColumnSpace.config self) |};
     ColumnSpace.word_gen := ColumnSpace.word_gen self |}.



(** ** INCREMENT columns *)

Lemma generate_loop_done (fuel : nat) (self : ColumnSpace.t)
    (d n total b generated : Z) (pending : list value) (s : State) :
  n <= generated ->
  ColumnSpace.generate_loop fuel self d n total b generated pending s
  = Ret pending s.
Proof.
  intros H. destruct fuel; simpl; by destruct (Z.ltb_spec generated n); [lia|].
Qed.

Lemma apply_transitions_inactive (self : ColumnSpace.t) (values : list value)
    (d total : Z) (s : State) :
  no_transition_active self d total ->
  ColumnSpace._apply_transitions self values d total s = Ret values s.
Proof.
  intros H. unfold ColumnSpace._apply_transitions. by rewrite !H.
Qed.

Lemma int_of_float_times_100 (i : Z) :
  0 <= i -> int_of_float (fmul (float_of_int i) (float_of_int 100)) = i * 100.
Proof.
  intros Hi. rewrite int_of_float_floor.
  - unfold fmul, float_of_int. rewrite Qred_correct, <- inject_Z_mult.
    apply Qfloor_Z.
  - apply fmul_nonneg; unfold float_of_int, Qle; simpl; lia.
Qed.

Lemma float_of_int_eq_zero (i : Z) :
  Qeq_bool (float_of_int i) 0 = (i =? 0).
Proof.
  apply eq_true_iff_eq. rewrite Qeq_bool_iff, Z.eqb_eq.
  unfold float_of_int, Qeq. simpl. lia.
Qed.

Lemma convert_increments_integer (self : ColumnSpace.t) (n : Z) :
  data_type (ColumnSpace.config self) = INTEGER ->
  ColumnSpace._convert_types self (VFloat <$> ColumnSpace.np_arange n)
  = increment_integers n.
Proof.
  intros Hdt. unfold ColumnSpace._convert_types, ColumnSpace.np_arange,
    increment_integers, py_range.
  rewrite Hdt, <- !list_fmap_compose.
  apply list_fmap_ext. intros k i Hk.
  apply lookup_seq in Hk as [-> _].
  cbn [compose is_number ne_zero ne_empty_str mul_lit py_int andb].
  rewrite float_of_int_eq_zero.
  change (0 + k)%nat with k.
  destruct (Z.eqb_spec (Z.of_nat k) 0) as [E|Hne]; simpl.
  - by rewrite E.
  - f_equal. apply int_of_float_times_100. lia.
Qed.

Lemma convert_increments_float (self : ColumnSpace.t) (n : Z) :
  data_type (ColumnSpace.config self) = FLOAT ->
  ColumnSpace._convert_types self (VFloat <$> ColumnSpace.np_arange n)
  = increment_floats n.
Proof.
  intros Hdt. unfold ColumnSpace._convert_types, ColumnSpace.np_arange,
    increment_floats.
  by rewrite Hdt, <- list_fmap_compose.
Qed.

(** C4 (amended).  For a FLOAT or INTEGER column with the INCREMENT flag,
    a day without active transition and a row count not above the batch
    size, the day's cache holds, in order, [0.0, 1.0, ..., n-1] for a
    FLOAT column and [0.0, 100, 200, ..., 100*(n-1)] for an INTEGER
    column. *)
Theorem increment_single_batch
    (self : ColumnSpace.t) (d n total b : Z) (s : State) :
  ColumnSpace.has_distribution self (DistributionType_value INCREMENT) = true ->
  no_transition_active self d total ->
  0 <= n <= b ->
  data_type (ColumnSpace.config self) = FLOAT
  \/ data_type (ColumnSpace.config self) = INTEGER ->
  exists s' : State,
    ColumnSpace.generate_day_data self d n total b s = Ret tt s'
    /\ fs s' !! ColumnSpace._get_cache_path self d
       = Some (CacheFile
                 (match data_type (ColumnSpace.config self) with
                  | INTEGER => increment_integers n
                  | _ => increment_floats n
                  end)).
Proof.
  intros Hinc Hoff Hn Hdt.
  set (expected := match data_type (ColumnSpace.config self) with
                   | INTEGER => increment_integers n
                   | _ => increment_floats n
                   end).
  assert (Hlen : length expected = Z.to_nat n).
  { unfold expected, increment_integers, increment_floats.
    case_match; by rewrite length_fmap, py_range_length. }
  assert (Hbatch : forall s1,
    ColumnSpace.generate_batch self d total n s1 = Ret expected s1).
  { intros s1. unfold ColumnSpace.generate_batch.
    assert (Hstr : ColumnSpace.is_string_type
                     (data_type (ColumnSpace.config self)) = false)
      by (destruct Hdt as [-> | ->]; done).
    rewrite Hstr. unfold ColumnSpace._generate_numeric_distribution.
    rewrite Hinc. rewrite !bind_unfold. simpl.
    rewrite apply_transitions_inactive by done. f_equal.
    unfold expected.
    destruct Hdt as [Hf | Hi].
    - rewrite Hf. by apply convert_increments_float.
    - rewrite Hi. by apply convert_increments_integer. }
  assert (Hloop : forall s1,
    ColumnSpace.generate_loop (Z.to_nat n) self d n total b 0 [] s1
    = Ret expected s1).
  { intros s1. destruct (Z.to_nat n) as [|fuel] eqn:Hfuel.
    - assert (n = 0) by lia. subst n.
      destruct expected; [done | simpl in Hlen; lia].
    - simpl. destruct (Z.ltb_spec 0 n); [|lia].
      rewrite bind_unfold.
      replace (Z.min b (n - 0)) with n by lia.
      rewrite Hbatch.
      case_bool_decide as Hnil.
      { rewrite Hnil in Hlen. simpl in Hlen. lia. }
      apply generate_loop_done. lia. }
  unfold ColumnSpace.generate_day_data.
  rewrite bind_unfold. unfold modify at 1.
  unfold try_except. rewrite bind_unfold, Hloop. unfold modify.
  eexists. split; [done|]. simpl. apply lookup_insert_eq.
Qed.

Example id_column_day :
  ColumnSpace.generate_day_data (numeric_column id_column) 0 3 1 10000 demo_state
  = Ret tt (set_fs {[ ".id-0.cache" := CacheFile [VFloat 0; VInt 100; VInt 200] ]}
              demo_state).
Proof. vm_compute. reflexivity. Qed.

(** With a batch size below the row count the sequence starts again at
    every batch. *)
Example increment_restarts_each_batch :
  ColumnSpace.generate_day_data
    (numeric_column (column "n" FLOAT 0 0 (DistributionType_value INCREMENT)))
    0 3 1 2 demo_state
  = Ret tt (set_fs {[ ".n-0.cache" := CacheFile [VFloat 0; VFloat 1; VFloat 0] ]}
              demo_state).
Proof. vm_compute. reflexivity. Qed.

(** C4 (as stated) fails: the default INTEGER column [id] with the
    INCREMENT flag caches [0.0, 100, 200] for a day of three rows, not
    [0, 1, 2]. *)
Lemma increment_sequence_counterexample : ~ spec_increment_sequence.
Proof.
  intros H.
  destruct (H id_column demo_state demo_state (numeric_column id_column)
              0 3 1 10000 demo_state _ eq_refl eq_refl
              ltac:(intros []; reflexivity) ltac:(lia) ltac:(lia)
              id_column_day) as (rows & Hrows & Hall).
  vm_compute in Hrows. inversion Hrows; subst rows. clear Hrows.
  inversion Hall as [|? ? ? ? _ Htl]; subst.
  inversion Htl as [|? ? ? ? Hone _]; subst.
  vm_compute in Hone. discriminate.
Qed.

(** The concrete input on which the amended statement is exercised. *)
Lemma increment_single_batch_witness :
  exists s' : State,
    ColumnSpace.generate_day_data (numeric_column id_column) 0 3 1 10000
      demo_state = Ret tt s'
    /\ fs s' !! ".id-0.cache" = Some (CacheFile (increment_integers 3)).
Proof.
  apply (increment_single_batch (numeric_column id_column) 0 3 1 10000
           demo_state);
    [reflexivity | intros []; reflexivity | lia | right; reflexivity].
Defined.

(** ** Order of the post-sampling transforms *)

(** C3.  On day 9 of 10 the default INTEGER column [normal3] (scaling
    active) turns the sample 1/64 into [int(1.5625) * 40 = 40]: the code
    coerces first and scales afterwards.  In the order of the spec the
    same sample gives [int(0.625 * 100) = 62]. *)
Theorem coercion_runs_before_scaling :
  ColumnSpace.generate_batch (numeric_column normal3_column) 9 10 1 demo_state
  = Ret [VInt 40] (set_np_pos 1 demo_state)
  /\ spec_numeric_batch (numeric_column normal3_column) 9 10 1 demo_state
     = Ret [VInt 62] (set_np_pos 1 demo_state).
Proof. split; vm_compute; reflexivity. Qed.

(** ** Row consolidation *)

(** The handle dictionary has exactly the configured names as keys. *)
Lemma open_connections_keys (files : gmap string file) (d : Z)
    (cols : list ColumnSpace.t) :
  forall (acc conns : gmap string file),
    DataGenerator.open_connections files d cols acc = Ok conns ->
    forall k, is_Some (conns !! k)
              <-> is_Some (acc !! k)
                  \/ k ∈ (fun c => name (ColumnSpace.config c)) <$> cols.
Proof.
  induction cols as [|c cols IH]; intros acc conns H k; simpl in H.
  - inversion H; subst. simpl. rewrite elem_of_nil. tauto.
  - destruct (files !! _) as [f|]; [|discriminate].
    rewrite (IH _ _ H k), fmap_cons, elem_of_cons.
    destruct (decide (name (ColumnSpace.config c) = k)) as [->|Hne].
    + rewrite lookup_insert_eq. split; [auto | intros _; left; by eexists].
    + rewrite lookup_insert_ne by done.
      split.
      * intros [Hacc|Hin]; [by left | by right; right].
      * intros [Hacc|[Heq|Hin]]; [by left | congruence | by right].
Qed.

(** A field name that is not a configured name reads the null marker at
    every position, whatever the caches hold. *)
Lemma unknown_field_reads_none (handles : gmap string file)
    (fields : list string) (i : nat) (field : string) (p : Z)
    (none_value : option value) :
  fields !! i = Some field ->
  handles !! field = None ->
  JSONWriter._get_data_row fields p handles none_value !! i = Some none_value.
Proof.
  intros Hi Hnone. unfold JSONWriter._get_data_row.
  by rewrite list_lookup_fmap, Hi; simpl; rewrite Hnone.
Qed.

(** C1.  In a four-day JSON run with the columns [id] and [normal1]
    (name change from day 2 on), the cache of [normal1] for day 2 holds
    the two generated values, yet both rows of [data/2.json] carry a null
    under [new-normal1]: the handles are stored under the configured name
    and looked up under the effective name.  Day 1, before the change,
    carries the values. *)
Theorem renamed_column_values_are_lost :
  let run := run_generator renaming_config demo_state in
  returned run = true
  /\ outcome_fs run !! ".normal1-2.cache"
     = Some (CacheFile [VFloat (1 # 64); VFloat (1 # 64)])
  /\ outcome_fs run !! "data/2.json"
     = Some (JsonFile
               [[("id", Some (VFloat 0)); ("new-normal1", None)];
                [("id", Some (VInt 100)); ("new-normal1", None)]])
  /\ outcome_fs run !! "data/1.json"
     = Some (JsonFile
               [[("id", Some (VFloat 0)); ("normal1", Some (VFloat (1 # 64)))];
                [("id", Some (VInt 100)); ("normal1", Some (VFloat (1 # 64)))]]).
Proof. vm_compute. repeat split; reflexivity. Qed.

Lemma keep_row_false (row : list (option value)) :
  keep_row row = false <-> row = [] \/ row = [None].
Proof.
  destruct row as [|[v|] [|c row]]; simpl; split; intros H; try done;
    try (by left); try (by right); by destruct H.
Qed.

(** C2.  With two columns whose caches hold one row each and a target of
    two rows, position 2 resolves every field to the null marker and the
    row is emitted all the same, in each of the three formats; only a
    JSON or JSON-lines row of exactly one column is dropped.  A whole run
    with two renamed columns writes nothing but such rows. *)
Theorem all_null_row_is_emitted :
  JSONWriter.records ["a"; "b"] two_caches 2
  = [[("a", Some (VInt 1)); ("b", Some (VInt 2))]; [("a", None); ("b", None)]]
  /\ JSONLinesWriter.records ["a"; "b"] two_caches 2
     = [[("a", Some (VInt 1)); ("b", Some (VInt 2))]; [("a", None); ("b", None)]]
  /\ CSVWriter.data_rows demo_rt ["a"; "b"] two_caches 2
     = [[Some (VStr "1"); Some (VStr "2")]; [Some (VStr ""); Some (VStr "")]]
  /\ CSVWriter.data_rows demo_rt ["a"] two_caches 2
     = [[Some (VStr "1")]; [Some (VStr "")]]
  /\ JSONWriter.records ["a"] two_caches 2 = [[("a", Some (VInt 1))]]
  /\ outcome_fs (run_generator all_renamed_config demo_state) !! "data/0.json"
     = Some (JsonFile [[("new-a", None); ("new-b", None)];
                       [("new-a", None); ("new-b", None)]]).
Proof. vm_compute. repeat split; reflexivity. Qed.

(** ** The row-count planner *)

Lemma int_of_float_ceiling (q : Q) : (q <= 0)%Q -> int_of_float q = Qceiling q.
Proof.
  destruct q as [n d]. unfold int_of_float, Qceiling, Qfloor, Qle. simpl.
  intros H.
  replace n with (- - n) at 1 by lia.
  rewrite Z.quot_opp_l by lia. f_equal. apply Z.quot_div_nonneg; lia.
Qed.

Lemma int_of_float_comp (q q' : Q) :
  (q == q')%Q -> int_of_float q = int_of_float q'.
Proof.
  intros E. destruct (Qlt_le_dec q 0) as [Hneg|Hpos].
  - rewrite !int_of_float_ceiling.
    + by rewrite E.
    + rewrite <- E. by apply Qlt_le_weak.
    + by apply Qlt_le_weak.
  - rewrite !int_of_float_floor.
    + by rewrite E.
    + by rewrite <- E.
    + done.
Qed.

Lemma rows_for_day_eval (self : DataGenerator.t) (s : State) :
  DataGenerator.rows_for_day self s
  = Ret (planned_rows (DataGenerator.config self) (rt s) (py_pos s))
        (set_py_pos (S (S (py_pos s))) s).
Proof. reflexivity. Qed.

Lemma plan_days_spec (self : DataGenerator.t) (n : nat) :
  forall (k : nat) (acc : gmap Z Z) (s : State),
  exists (m : gmap Z Z) (s' : State),
    DataGenerator.plan_days self (Z.of_nat <$> seq k n) acc s = Ret m s'
    /\ (forall j, (k <= j < k + n)%nat ->
          m !! Z.of_nat j
          = Some (planned_rows (DataGenerator.config self) (rt s)
                    (py_pos s + 2 * (j - k))))
    /\ (forall d, (forall j, (k <= j < k + n)%nat -> d <> Z.of_nat j) ->
          m !! d = acc !! d).
Proof.
  induction n as [|n IH]; intros k acc s; simpl.
  - exists acc, s. split; [done|]. split; [intros; lia | done].
  - rewrite bind_unfold, rows_for_day_eval.
    destruct (IH (S k) (<[Z.of_nat k :=
                planned_rows (DataGenerator.config self) (rt s) (py_pos s)]> acc)
                (set_py_pos (S (S (py_pos s))) s))
      as (m & s' & E & Hin & Hout).
    exists m, s'. split; [done|]. split.
    + intros j Hj. destruct (decide (j = k)) as [->|Hne].
      * rewrite Hout by (intros; lia).
        rewrite lookup_insert_eq. do 2 f_equal. lia.
      * rewrite Hin by lia. simpl. do 2 f_equal. lia.
    + intros d Hd. rewrite Hout by (intros; apply Hd; lia).
      apply lookup_insert_ne. intros <-. by apply (Hd k); [lia|].
Qed.


Lemma GeneratorConfig_post_init_inv (cfg : GeneratorConfig) :
  GeneratorConfig_post_init cfg = Ok tt ->
  0 < num_days cfg /\ 0 < approx_rows_per_day cfg
  /\ supported_format (output_format cfg) = true
  /\ (0 <= row_variation_percentage cfg)%Q
  /\ (row_variation_percentage cfg <= 1)%Q.
Proof.
  unfold GeneratorConfig_post_init.
  destruct (Z.leb_spec (num_days cfg) 0); [discriminate|].
  destruct (Z.leb_spec (approx_rows_per_day cfg) 0); [discriminate|].
  destruct (supported_format _); [|discriminate]. simpl.
  destruct (Qle_bool 0 _) eqn:Hlo; [|discriminate].
  destruct (Qle_bool _ 1) eqn:Hhi; [|discriminate].
  intros _. repeat split; try done; by apply Qle_bool_iff.
Qed.





(** ** What the generation phase may touch *)

(** Every outcome of [m] that has a final state is [R]-related to the
    initial one. *)
Definition preserves {A} (R : State -> State -> Prop) (m : M A) : Prop :=
  forall s, match m s with
            | Ret _ s' | Raise _ s' => R s s'
            | Diverge => True
            end.

Section Preserves.

Context (R : State -> State -> Prop) `{!PreOrder R}.

Lemma preserves_ret {A} (a : A) : preserves R (mret a).
Proof using Type*. intros s. simpl. reflexivity. Qed.

Lemma preserves_raise {A} (e : exn) : preserves R (raise (A:=A) e).
Proof using Type*. intros s. simpl. reflexivity. Qed.

Lemma preserves_diverge {A} : preserves R (diverge (A:=A)).
Proof using Type. by intros s. Qed.

Lemma preserves_get_state : preserves R get_state.
Proof using Type*. intros s. simpl. reflexivity. Qed.

Lemma preserves_bind {A B} (m : M A) (f : A -> M B) :
  preserves R m -> (forall a, preserves R (f a)) -> preserves R (m ≫= f).
Proof using Type*.
  intros Hm Hf s. rewrite bind_unfold. specialize (Hm s).
  destruct (m s) as [a s1|e s1|]; [|done..].
  specialize (Hf a s1). destruct (f a s1); [| |done]; by etrans.
Qed.

Lemma preserves_try_except {A} (body : M A) (handler : exn -> M A) :
  preserves R body -> (forall e, preserves R (handler e)) ->
  preserves R (try_except body handler).
Proof using Type*.
  intros Hm Hf s. unfold try_except. specialize (Hm s).
  destruct (body s) as [a s1|e s1|]; [done| |done].
  specialize (Hf e s1). destruct (handler e s1); [| |done]; by etrans.
Qed.

Lemma preserves_for_ {A} (f : A -> M unit) (l : list A) :
  (forall x, preserves R (f x)) -> preserves R (for_ f l).
Proof using Type*.
  intros Hf. induction l as [|x l IH]; simpl.
  - apply preserves_ret.
  - apply preserves_bind; [apply Hf | by intros _].
Qed.

Lemma preserves_for_each {A B} (f : A -> M B) (l : list A) :
  (forall x, preserves R (f x)) -> preserves R (for_each f l).
Proof using Type*.
  intros Hf. induction l as [|x l IH]; simpl.
  - apply preserves_ret.
  - apply preserves_bind; [apply Hf|]. intros y.
    apply preserves_bind; [apply IH|]. intros ys. apply preserves_ret.
Qed.

Lemma preserves_lift_result {A} (r : result A) : preserves R (lift_result r).
Proof using Type*.
  destruct r; [apply preserves_ret | apply preserves_raise].
Qed.

End Preserves.

#[global] Instance only_caches_written_preorder : PreOrder only_caches_written.
Proof.
  split.
  - intros f path. by left.
  - intros f1 f2 f3 H12 H23 path.
    destruct (H23 path) as [E|Hc]; [|by right].
    rewrite E. apply H12.
Qed.

#[global] Instance no_output_written_preorder : PreOrder no_output_written.
Proof.
  split.
  - intros s. split; reflexivity.
  - intros s1 s2 s3 [Hf12 Hm12] [Hf23 Hm23]. split; [by etrans | congruence].
Qed.

Lemma no_output_same (s s' : State) :
  fs s' = fs s -> files_written (metrics s') = files_written (metrics s) ->
  no_output_written s s'.
Proof. intros Hf Hm. split; [rewrite Hf; reflexivity | done]. Qed.

Create HintDb preserves.

Lemma preserves_modify (R : State -> State -> Prop) (f : State -> State) :
  (forall s, R s (f s)) -> preserves R (modify f).
Proof. intros H s. apply H. Qed.

Lemma nw_random_random : preserves no_output_written random_random.
Proof. intros s. by apply no_output_same. Qed.

Lemma nw_random_choice {A} (l : list A) :
  preserves no_output_written (random_choice l).
Proof.
  intros s. unfold random_choice. destruct (l !! _); by apply no_output_same.
Qed.

Lemma nw_np_samples (view : Runtime -> nat -> Q) (n : Z) :
  preserves no_output_written (np_samples view n).
Proof.
  intros s. unfold np_samples. destruct (n <? 0); by apply no_output_same.
Qed.

Lemma nw_random_word : preserves no_output_written ValueGenerator._random_word.
Proof. intros s. by apply no_output_same. Qed.

Lemma nw_add_cache_operations (k : Z) :
  preserves no_output_written (add_cache_operations k).
Proof. apply preserves_modify. intros s. by apply no_output_same. Qed.

Lemma nw_add_errors_encountered (k : Z) :
  preserves no_output_written (add_errors_encountered k).
Proof. apply preserves_modify. intros s. by apply no_output_same. Qed.

Lemma nw_dict_get (d : gmap Z Z) (k : Z) :
  preserves no_output_written (dict_get d k).
Proof.
  unfold dict_get. case_match; [apply preserves_ret | apply preserves_raise];
    apply _.
Qed.

#[global] Hint Resolve nw_random_random nw_random_choice nw_np_samples
  nw_random_word nw_add_cache_operations nw_add_errors_encountered
  nw_dict_get : preserves.

(** Decompose a monadic term along its binds, loops and branches. *)
Ltac preserves_step :=
  first
    [ solve [eauto with preserves]
    | apply preserves_ret; apply _
    | apply preserves_raise; apply _
    | apply preserves_diverge
    | apply preserves_get_state; apply _
    | apply preserves_lift_result; apply _
    | apply preserves_bind; [apply _ | | intros ?]
    | apply preserves_try_except; [apply _ | | intros ?]
    | apply preserves_for_; [apply _ | intros ?]
    | apply preserves_for_each; [apply _ | intros ?]
    | case_match ].

Ltac preserves_auto := repeat preserves_step.

Lemma nw_ValueGenerator_new : preserves no_output_written ValueGenerator.new.
Proof. unfold ValueGenerator.new. preserves_auto. Qed.

Lemma nw_rand_words (wg : ValueGenerator.t) (n : Z) :
  preserves no_output_written (ValueGenerator.rand_words wg n).
Proof. unfold ValueGenerator.rand_words. preserves_auto. Qed.

Lemma nw_rand_cat_str (wg : ValueGenerator.t) :
  preserves no_output_written (ValueGenerator.rand_cat_str wg).
Proof. unfold ValueGenerator.rand_cat_str. preserves_auto. Qed.

#[global] Hint Resolve nw_ValueGenerator_new nw_rand_words nw_rand_cat_str
  : preserves.

Lemma nw_ColumnSpace_new (cfg : ColumnConfig) :
  preserves no_output_written (ColumnSpace.new cfg).
Proof. unfold ColumnSpace.new. preserves_auto. Qed.

Lemma nw_generate_word (self : ColumnSpace.t) (d total : Z) :
  preserves no_output_written (ColumnSpace._generate_word self d total).
Proof. unfold ColumnSpace._generate_word. preserves_auto. Qed.

Lemma nw_numeric_distribution (self : ColumnSpace.t) (n : Z) :
  preserves no_output_written
    (ColumnSpace._generate_numeric_distribution self n).
Proof. unfold ColumnSpace._generate_numeric_distribution. preserves_auto. Qed.

Lemma nw_replace_half (values : list value) (v : value) :
  preserves no_output_written (ColumnSpace._replace_half values v).
Proof. unfold ColumnSpace._replace_half. preserves_auto. Qed.

#[global] Hint Resolve nw_ColumnSpace_new nw_generate_word
  nw_numeric_distribution nw_replace_half : preserves.

Lemma nw_apply_transitions (self : ColumnSpace.t) (values : list value)
    (d total : Z) :
  preserves no_output_written
    (ColumnSpace._apply_transitions self values d total).
Proof. unfold ColumnSpace._apply_transitions. preserves_auto. Qed.

#[global] Hint Resolve nw_apply_transitions : preserves.

Lemma nw_generate_batch (self : ColumnSpace.t) (d total n : Z) :
  preserves no_output_written (ColumnSpace.generate_batch self d total n).
Proof. unfold ColumnSpace.generate_batch. preserves_auto. Qed.

#[global] Hint Resolve nw_generate_batch : preserves.

Lemma nw_generate_loop (self : ColumnSpace.t) (d n total b : Z) (fuel : nat) :
  forall (generated : Z) (pending : list value),
    preserves no_output_written
      (ColumnSpace.generate_loop fuel self d n total b generated pending).
Proof.
  induction fuel as [|fuel IH]; intros generated pending; simpl.
  - preserves_auto.
  - case_match; [|preserves_auto].
    apply preserves_bind; [apply _ | apply nw_generate_batch |].
    intros vs. case_match; [apply preserves_diverge | apply IH].
Qed.

#[global] Hint Resolve nw_generate_loop : preserves.

Lemma no_output_put_cache (s : State) (path : string) (rows : list value)
    (f : gmap string file) :
  only_caches_written (fs s) f ->
  no_output_written s (set_fs (<[path := CacheFile rows]> f) s).
Proof.
  intros Hf. split; [|done]. intros p. simpl.
  destruct (decide (path = p)) as [->|Hne].
  - right. exists rows. apply lookup_insert_eq.
  - rewrite lookup_insert_ne by done. apply Hf.
Qed.

Lemma nw_generate_day_data (self : ColumnSpace.t) (d n total b : Z) :
  preserves no_output_written (ColumnSpace.generate_day_data self d n total b).
Proof.
  unfold ColumnSpace.generate_day_data.
  apply preserves_bind; [apply _ | | intros _].
  - apply preserves_modify. intros s.
    split; [|done]. intros p. simpl.
    destruct (decide (ColumnSpace._get_cache_path self d = p)) as [->|Hne].
    + right. eexists. apply lookup_insert_eq.
    + left. by rewrite lookup_insert_ne, lookup_delete_ne.
  - apply preserves_try_except; [apply _ | | intros e; preserves_auto].
    apply preserves_bind; [apply _ | apply nw_generate_loop |].
    intros rows. apply preserves_modify. intros s.
    apply no_output_put_cache. reflexivity.
Qed.

#[global] Hint Resolve nw_generate_day_data : preserves.

Lemma nw_generate_column_worker (cfg : ColumnConfig) (m : gmap Z Z)
    (total b : Z) :
  preserves no_output_written (generate_column_worker cfg m total b).
Proof. unfold generate_column_worker. preserves_auto. Qed.

Lemma nw_in_child_process {A} (task : M A) :
  preserves no_output_written task ->
  preserves no_output_written (in_child_process task).
Proof.
  intros H s. unfold in_child_process. specialize (H s).
  destruct (task s) as [a s1|e s1|]; [| |done];
    destruct H as [Hf _]; by split.
Qed.

Lemma nw_generate_one_day (self : DataGenerator.t) (c : ColumnSpace.t) (d : Z) :
  preserves no_output_written (DataGenerator.generate_one_day self c d).
Proof. unfold DataGenerator.generate_one_day. preserves_auto. Qed.

Lemma nw_generate_sequential (self : DataGenerator.t) :
  preserves no_output_written (DataGenerator.generate_sequential self).
Proof.
  unfold DataGenerator.generate_sequential, DataGenerator.generate_one_column.
  apply preserves_for_; [apply _|]. intros c.
  apply preserves_for_; [apply _|]. intros d. apply nw_generate_one_day.
Qed.

Lemma nw_generate_parallel (self : DataGenerator.t) :
  preserves no_output_written (DataGenerator.generate_parallel self).
Proof.
  unfold DataGenerator.generate_parallel.
  apply preserves_bind; [apply _ | preserves_auto | intros _].
  apply preserves_bind; [apply _ | preserves_auto | intros s].
  apply preserves_bind; [apply _ | | intros futures].
  - apply preserves_for_each; [apply _|]. intros col.
    unfold DataGenerator.submit_column.
    apply preserves_bind; [apply _ | | intros r; preserves_auto].
    apply nw_in_child_process, nw_generate_column_worker.
  - apply preserves_for_; [apply _|]. intros future.
    unfold DataGenerator.collect_future. preserves_auto.
Qed.

Lemma nw_generate_column_data (self : DataGenerator.t) :
  preserves no_output_written (DataGenerator._generate_column_data self).
Proof.
  unfold DataGenerator._generate_column_data.
  case_match; [apply nw_generate_sequential | apply nw_generate_parallel].
Qed.

Lemma nw_plan_days (self : DataGenerator.t) (days : list Z) :
  forall acc, preserves no_output_written (DataGenerator.plan_days self days acc).
Proof.
  induction days as [|d days IH]; intros acc; simpl.
  - preserves_auto.
  - apply preserves_bind; [apply _ | | intros r; apply IH].
    unfold DataGenerator.rows_for_day. preserves_auto.
Qed.

Lemma nw_generate_rows_per_day_map (self : DataGenerator.t) :
  preserves no_output_written (DataGenerator._generate_rows_per_day_map self).
Proof. apply nw_plan_days. Qed.

(** ** Failure of the run *)



(** The failing run, evaluated: the [ValueError] of numpy for a negative
    size becomes a [CacheError], then a [DataGenerationError]. *)
Example failing_run_message :
  match DataGenerator.generate failing_generator demo_state with
  | Raise e s => Some (e, fst <$> map_to_list (fs s))
  | _ => None
  end
  = Some (Exn DataGenerationError
            ("Data generation failed: Cache operation failed for uniform1: "
               +:+ "negative dimensions are not allowed"),
          [".uniform1-0.cache"]).
Proof. vm_compute. reflexivity. Qed.

(** ** Unsupported formats *)

Lemma create_writer_unsupported (format_name : string) :
  format_name ∉ ["csv"; "json"; "jsonl"] ->
  OutputWriterFactory.create_writer format_name
  = Err (Exn OutputError ("Unsupported output format: " +:+ format_name)).
Proof.
  intros Hnot. unfold OutputWriterFactory.create_writer,
    OutputWriterFactory._writers.
  repeat rewrite not_elem_of_cons in Hnot.
  destruct Hnot as (H1 & H2 & H3 & _).
  cbn [list_to_map foldr uncurry fst snd].
  by rewrite !lookup_insert_ne, lookup_empty.
Qed.

(** C9.  For every format name outside csv, json and jsonl:
    [create_writer] raises [OutputError]; [_write_output_data], which
    requests the writer, raises that [OutputError] without touching the
    state; and a whole run with that format never returns normally and
    leaves no file other than cache tables, so zero output files. *)
Theorem unsupported_format_raises_OutputError (format_name : string) :
  format_name ∉ ["csv"; "json"; "jsonl"] ->
  OutputWriterFactory.create_writer format_name
  = Err (Exn OutputError ("Unsupported output format: " +:+ format_name))
  /\ (forall (self : DataGenerator.t) (s : State),
        output_format (DataGenerator.config self) = format_name ->
        DataGenerator._write_output_data self s
        = Raise (Exn OutputError ("Unsupported output format: " +:+ format_name))
            s)
  /\ (forall (self : DataGenerator.t) (s : State),
        output_format (DataGenerator.config self) = format_name ->
        match DataGenerator.generate self s with
        | Ret _ _ => False
        | Raise e s' =>
            is_DataGenerationError (exn_cls e) = true
            /\ only_caches_written (fs s) (fs s')
            /\ files_written (metrics s') = files_written (metrics s)
        | Diverge => True
        end).
Proof.
  intros Hnot.
  pose proof (create_writer_unsupported format_name Hnot) as Hcw.
  split; [done|].
  assert (Hwrite : forall (self : DataGenerator.t) (s : State),
            output_format (DataGenerator.config self) = format_name ->
            DataGenerator._write_output_data self s
            = Raise (Exn OutputError
                       ("Unsupported output format: " +:+ format_name)) s).
  { intros self s Hfmt. unfold DataGenerator._write_output_data.
    by rewrite bind_unfold, Hfmt, Hcw. }
  split; [done|].
  intros self s Hfmt.
  unfold DataGenerator.generate, try_except. rewrite bind_unfold.
  pose proof (nw_generate_rows_per_day_map self s) as Hnw1.
  destruct (DataGenerator._generate_rows_per_day_map self s)
    as [m s1|e s1|]; [| |done].
  - rewrite bind_unfold. unfold modify at 1.
    rewrite bind_unfold. unfold DataGenerator._create_output_directory at 1.
    cbn [mret M_ret]. rewrite bind_unfold.
    pose proof (nw_generate_column_data self (set_rows_per_day_map m s1))
      as Hnw2.
    destruct (DataGenerator._generate_column_data self _)
      as [[] s2|e s2|]; [| |done].
    + rewrite bind_unfold, Hwrite by done.
      rewrite bind_unfold. unfold add_errors_encountered, modify, raise.
      split; [done|].
      assert (Hnw : no_output_written s s2).
      { etrans; [exact Hnw1|]. etrans; [|exact Hnw2]. by apply no_output_same. }
      destruct Hnw as [Hf Hm]. by split.
    + rewrite bind_unfold. unfold add_errors_encountered, modify, raise.
      split; [done|].
      assert (Hnw : no_output_written s s2).
      { etrans; [exact Hnw1|]. etrans; [|exact Hnw2]. by apply no_output_same. }
      destruct Hnw as [Hf Hm]. by split.
  - rewrite bind_unfold. unfold add_errors_encountered, modify, raise.
    split; [done|]. destruct Hnw1 as [Hf Hm]. by split.
Qed.

Lemma unsupported_format_witness :
  OutputWriterFactory.create_writer "xml"
  = Err (Exn OutputError "Unsupported output format: xml").
Proof.
  apply (unsupported_format_raises_OutputError "xml").
  intros Hin. repeat (apply elem_of_cons in Hin as [Hin|Hin]; [discriminate|]).
  by apply elem_of_nil in Hin.
Defined.

(** ** The fuel of the generation loop is never exhausted *)

Lemma generate_loop_fuel (self : ColumnSpace.t) (d n total b : Z)
    (fuel1 : nat) :
  forall (fuel2 : nat) (generated : Z) (pending : list value) (s : State),
    (Z.to_nat (n - generated) <= fuel1)%nat ->
    (Z.to_nat (n - generated) <= fuel2)%nat ->
    ColumnSpace.generate_loop fuel1 self d n total b generated pending s
    = ColumnSpace.generate_loop fuel2 self d n total b generated pending s.
Proof.
  induction fuel1 as [|fuel1 IH]; intros fuel2 generated pending s H1 H2.
  - rewrite !generate_loop_done by lia. done.
  - destruct (Z.ltb_spec generated n) as [Hlt|Hge].
    + destruct fuel2 as [|fuel2]; [lia|]. simpl.
      destruct (Z.ltb_spec generated n); [|lia].
      apply bind_ext; [done|]. intros vs s1.
      case_bool_decide as Hnil; [done|].
      assert (length vs <> 0)%nat by (destruct vs; simpl; congruence).
      apply IH; lia.
    + rewrite !generate_loop_done by lia. done.
Qed.

(** ** Concrete instances of the theorems with hypotheses *)

Lemma day_cache_row_count_witness :
  exists (s' : State) (rows : list value),
    ColumnSpace.generate_day_data catStr1_space 3 5 4 2 demo_state = Ret tt s'
    /\ fs s' !! ColumnSpace._get_cache_path catStr1_space 3
       = Some (CacheFile rows)
    /\ Z.of_nat (length rows) = 5.
Proof.
  destruct (day_cache_row_count catStr1_column demo_state
              (set_py_pos 10 demo_state) catStr1_space 3 5 4 2 demo_state
              eq_refl ltac:(lia) ltac:(lia))
    as (s' & rows & Hrun & Hfile & Hlen & _).
  exists s', rows. split; [exact Hrun|]. split; [exact Hfile | exact Hlen].
Defined.



(** ** When the generation phase raises *)

Lemma for__app {A} (f : A -> M unit) (l1 l2 : list A) (s : State) :
  for_ f (l1 ++ l2) s = (for_ f l1 ;; for_ f l2) s.
Proof.
  revert s. induction l1 as [|x l1 IH]; intros s; simpl.
  - done.
  - rewrite !bind_unfold. destruct (f x s) as [[] s1|e s1|]; [|done..].
    rewrite IH. by rewrite bind_unfold.
Qed.

(** A loop raises what its first failing iteration raises. *)
Lemma for__first_failure {A} (f : A -> M unit) (l1 l2 : list A) (x : A)
    (s s1 s2 : State) (e : exn) :
  for_ f l1 s = Ret tt s1 ->
  f x s1 = Raise e s2 ->
  for_ f (l1 ++ x :: l2) s = Raise e s2.
Proof.
  intros H1 Hx. rewrite for__app, bind_unfold, H1. simpl.
  by rewrite bind_unfold, Hx.
Qed.

(** Single-process path: if the columns before [c] and the days of [c]
    before [d] were generated and [generate_day_data] raises for [c] on
    day [d], the generation phase raises that exception. *)
Lemma sequential_failure (self : DataGenerator.t)
    (cols1 cols2 : list ColumnSpace.t) (c : ColumnSpace.t)
    (days1 days2 : list Z) (d n : Z) (s sA sB sC : State) (e : exn) :
  max_workers (DataGenerator.config self) = Some 1 ->
  DataGenerator.column_spaces self = cols1 ++ c :: cols2 ->
  py_range (num_days (DataGenerator.config self)) = days1 ++ d :: days2 ->
  for_ (DataGenerator.generate_one_column self) cols1 s = Ret tt sA ->
  for_ (DataGenerator.generate_one_day self c) days1 sA = Ret tt sB ->
  rows_per_day_map sB !! d = Some n ->
  ColumnSpace.generate_day_data c d n (num_days (DataGenerator.config self))
    (cache_batch_size (DataGenerator.config self)) sB = Raise e sC ->
  DataGenerator._generate_column_data self s = Raise e sC.
Proof.
  intros Hw Hcols Hdays Hpre Hprev Hn Hfail.
  unfold DataGenerator._generate_column_data. rewrite Hw.
  rewrite bool_decide_eq_true_2 by done.
  unfold DataGenerator.generate_sequential. rewrite Hcols.
  apply (for__first_failure _ _ _ _ _ sA); [done|].
  unfold DataGenerator.generate_one_column. rewrite Hdays.
  apply (for__first_failure _ _ _ _ _ sB); [done|].
  unfold DataGenerator.generate_one_day.
  rewrite bind_unfold. unfold get_state. rewrite bind_unfold.
  unfold dict_get. rewrite Hn. cbn [mret M_ret].
  by rewrite bind_unfold, Hfail.
Qed.

(** The loop over the completed futures raises [DataGenerationError] as
    soon as one of them carries an exception. *)
Lemma collect_futures_failure (self : DataGenerator.t)
    (futures : list (nat * (string * result string))) :
  (exists i column_name e, (i, (column_name, Err e)) ∈ futures) ->
  forall s, exists msg s',
    for_ (DataGenerator.collect_future self) futures s
    = Raise (Exn DataGenerationError msg) s'.
Proof.
  induction futures as [|[i [nm r]] futures IH]; intros (j & cn & e & Hin) s.
  - by apply elem_of_nil in Hin.
  - simpl. rewrite bind_unfold.
    unfold DataGenerator.collect_future at 1. simpl.
    destruct r as [v|e'].
    + apply elem_of_cons in Hin as [Heq|Hin]; [congruence|].
      unfold add_cache_operations, modify. apply IH. eauto.
    + rewrite bind_unfold. unfold add_errors_encountered, modify, raise.
      by eexists _, _.
Qed.

(** Process-pool path: once the tasks have been run, a single failed
    worker makes the generation phase raise [DataGenerationError],
    whatever the order in which the workers finish. *)
Lemma parallel_failure (self : DataGenerator.t) (s s1 : State)
    (futures : list (string * result string)) (i : nat)
    (column_name : string) (e : exn) :
  max_workers (DataGenerator.config self) <> Some 1 ->
  (forall n, max_workers (DataGenerator.config self) = Some n -> 0 <= n) ->
  for_each (DataGenerator.submit_column self (rows_per_day_map s))
    (DataGenerator.column_spaces self) s = Ret futures s1 ->
  futures !! i = Some (column_name, Err e) ->
  exists msg s2,
    DataGenerator._generate_column_data self s
    = Raise (Exn DataGenerationError msg) s2.
Proof.
  intros Hw Hpos Hrun Hi.
  unfold DataGenerator._generate_column_data.
  rewrite bool_decide_eq_false_2 by done.
  unfold DataGenerator.generate_parallel. rewrite bind_unfold.
  assert (Hpool :
    match max_workers (DataGenerator.config self) with
    | Some n =>
        if n <? 0
        then raise (Exn ValueError "max_workers must be greater than 0")
        else mret tt
    | None => mret tt
    end s = Ret tt s).
  { destruct (max_workers _) as [n|] eqn:Hn; [|done].
    specialize (Hpos n eq_refl). by destruct (Z.ltb_spec n 0); [lia|]. }
  rewrite Hpool. rewrite bind_unfold. unfold get_state at 1.
  rewrite bind_unfold, Hrun.
  apply collect_futures_failure.
  exists i, column_name, e. unfold as_completed.
  rewrite merge_sort_Permutation.
  apply list_elem_of_lookup. exists i.
  by rewrite list_lookup_imap, Hi.
Qed.

(** * Further properties of the modelled code *)

(** ** Sampling moves the random cursors and nothing else *)

(** The runtime, the files, the metrics and the row plan are the same. *)
Definition same_world (s s' : State) : Prop :=
  rt s' = rt s /\ fs s' = fs s /\ metrics s' = metrics s
  /\ rows_per_day_map s' = rows_per_day_map s.

#[global] Instance same_world_preorder : PreOrder same_world.
Proof.
  split.
  - intros s. by repeat split.
  - intros s1 s2 s3 (H1 & H2 & H3 & H4) (K1 & K2 & K3 & K4).
    repeat split; congruence.
Qed.

Create HintDb frame.

Lemma sw_random_random : preserves same_world random_random.
Proof. intros s. by repeat split. Qed.

Lemma sw_random_choice {A} (l : list A) : preserves same_world (random_choice l).
Proof. intros s. unfold random_choice. destruct (l !! _); by repeat split. Qed.

Lemma sw_np_samples (view : Runtime -> nat -> Q) (n : Z) :
  preserves same_world (np_samples view n).
Proof. intros s. unfold np_samples. destruct (n <? 0); by repeat split. Qed.

Lemma sw_random_word : preserves same_world ValueGenerator._random_word.
Proof. intros s. by repeat split. Qed.

#[global] Hint Resolve sw_random_random sw_random_choice sw_np_samples
  sw_random_word : frame.

Ltac frame_step :=
  first
    [ solve [eauto with frame]
    | apply preserves_ret; apply _
    | apply preserves_raise; apply _
    | apply preserves_diverge
    | apply preserves_get_state; apply _
    | apply preserves_lift_result; apply _
    | apply preserves_bind; [apply _ | | intros ?]
    | apply preserves_try_except; [apply _ | | intros ?]
    | apply preserves_for_; [apply _ | intros ?]
    | apply preserves_for_each; [apply _ | intros ?]
    | case_match ].

Ltac frame_auto := repeat frame_step.

Lemma sw_ValueGenerator_new : preserves same_world ValueGenerator.new.
Proof. unfold ValueGenerator.new. frame_auto. Qed.

Lemma sw_rand_words (wg : ValueGenerator.t) (n : Z) :
  preserves same_world (ValueGenerator.rand_words wg n).
Proof. unfold ValueGenerator.rand_words. frame_auto. Qed.

Lemma sw_rand_cat_str (wg : ValueGenerator.t) :
  preserves same_world (ValueGenerator.rand_cat_str wg).
Proof. unfold ValueGenerator.rand_cat_str. frame_auto. Qed.

#[global] Hint Resolve sw_ValueGenerator_new sw_rand_words sw_rand_cat_str
  : frame.

Lemma sw_ColumnSpace_new (cfg : ColumnConfig) :
  preserves same_world (ColumnSpace.new cfg).
Proof. unfold ColumnSpace.new. frame_auto. Qed.

Lemma sw_generate_word (self : ColumnSpace.t) (d total : Z) :
  preserves same_world (ColumnSpace._generate_word self d total).
Proof. unfold ColumnSpace._generate_word. frame_auto. Qed.

Lemma sw_numeric_distribution (self : ColumnSpace.t) (n : Z) :
  preserves same_world (ColumnSpace._generate_numeric_distribution self n).
Proof. unfold ColumnSpace._generate_numeric_distribution. frame_auto. Qed.

Lemma sw_replace_half (values : list value) (v : value) :
  preserves same_world (ColumnSpace._replace_half values v).
Proof. unfold ColumnSpace._replace_half. frame_auto. Qed.

#[global] Hint Resolve sw_ColumnSpace_new sw_generate_word
  sw_numeric_distribution sw_replace_half : frame.

Lemma sw_apply_transitions (self : ColumnSpace.t) (values : list value)
    (d total : Z) :
  preserves same_world (ColumnSpace._apply_transitions self values d total).
Proof. unfold ColumnSpace._apply_transitions. frame_auto. Qed.

#[global] Hint Resolve sw_apply_transitions : frame.

Lemma sw_generate_batch (self : ColumnSpace.t) (d total n : Z) :
  preserves same_world (ColumnSpace.generate_batch self d total n).
Proof. unfold ColumnSpace.generate_batch. frame_auto. Qed.

Lemma sw_generate_loop (self : ColumnSpace.t) (d n total b : Z) (fuel : nat) :
  forall (generated : Z) (pending : list value),
    preserves same_world
      (ColumnSpace.generate_loop fuel self d n total b generated pending).
Proof.
  induction fuel as [|fuel IH]; intros generated pending; simpl.
  - frame_auto.
  - case_match; [|frame_auto].
    apply preserves_bind; [apply _ | apply sw_generate_batch |].
    intros vs. case_match; [apply preserves_diverge | apply IH].
Qed.

(** ** What a returning batch and a returning loop have produced *)

Lemma for_each_ret_length {A B} (f : A -> M B) (l : list A) :
  forall (s s' : State) (ys : list B),
    for_each f l s = Ret ys s' -> length ys = length l.
Proof.
  induction l as [|x l IH]; intros s s' ys; simpl.
  - by intros [= <- _].
  - rewrite bind_unfold. destruct (f x s) as [y s1|e s1|]; [|done..].
    rewrite bind_unfold.
    destruct (for_each f l s1) as [ys1 s2|e s2|] eqn:E; [|done..].
    intros [= <- _]. simpl. f_equal. by eapply IH.
Qed.

Lemma apply_transitions_ret_length (self : ColumnSpace.t)
    (values vs : list value) (d total : Z) (s s' : State) :
  ColumnSpace._apply_transitions self values d total s = Ret vs s' ->
  length vs = length values.
Proof.
  intros E.
  destruct (returns_apply_transitions self values d total s)
    as (vs' & s'' & E' & Hlen).
  congruence.
Qed.

Lemma numeric_distribution_ret_length (self : ColumnSpace.t) (n : Z)
    (arr : list Q) (s s' : State) :
  ColumnSpace._generate_numeric_distribution self n s = Ret arr s' ->
  length arr = Z.to_nat n.
Proof.
  unfold ColumnSpace._generate_numeric_distribution, np_samples.
  repeat case_match; intros [= <- _];
    rewrite ?length_fmap, ?length_seq; try done.
  unfold ColumnSpace.np_arange. by rewrite length_fmap, py_range_length.
Qed.

Lemma generate_batch_ret_length (self : ColumnSpace.t) (d total n : Z)
    (vs : list value) (s s' : State) :
  ColumnSpace.generate_batch self d total n s = Ret vs s' ->
  length vs = Z.to_nat n.
Proof.
  unfold ColumnSpace.generate_batch. rewrite bind_unfold.
  destruct (ColumnSpace.is_string_type _).
  - destruct (for_each _ _ s) as [ws s1|e s1|] eqn:E; [|done..].
    intros Ht. apply apply_transitions_ret_length in Ht.
    apply for_each_ret_length in E. by rewrite Ht, E, py_range_length.
  - rewrite bind_unfold.
    destruct (ColumnSpace._generate_numeric_distribution self n s)
      as [arr s1|e s1|] eqn:E; [|done..].
    cbn [mret M_ret].
    intros Ht. apply apply_transitions_ret_length in Ht.
    apply numeric_distribution_ret_length in E.
    by rewrite Ht, convert_types_length, length_fmap.
Qed.

Lemma generate_loop_ret_length (self : ColumnSpace.t) (d n total b : Z)
    (fuel : nat) :
  forall (generated : Z) (pending rows : list value) (s s' : State),
    generated <= n ->
    ColumnSpace.generate_loop fuel self d n total b generated pending s
    = Ret rows s' ->
    Z.of_nat (length rows) = Z.of_nat (length pending) + (n - generated).
Proof.
  induction fuel as [|fuel IH]; intros generated pending rows s s' Hle; simpl.
  - destruct (Z.ltb_spec generated n); [done|]. intros [= <- _]. lia.
  - destruct (Z.ltb_spec generated n) as [Hlt|Hge].
    + rewrite bind_unfold.
      destruct (ColumnSpace.generate_batch _ _ _ _ s) as [vs s1|e s1|] eqn:E;
        [|done..].
      apply generate_batch_ret_length in E.
      case_bool_decide; [done|].
      intros Hrec. apply IH in Hrec; [|lia].
      rewrite length_app in Hrec. lia.
    + intros [= <- _]. lia.
Qed.

(** X1.  Whatever the column, the target and the batch size, a call of
    [generate_day_data] that returns has replaced the file at the cache
    path by a table of exactly [max(0, num_values)] rows; a call that
    raises raises a [CacheError] and leaves an empty table at that path.
    In both cases no other file, no metric and no planned row count has
    changed. *)
Theorem generate_day_data_outcome
    (self : ColumnSpace.t) (d n total b : Z) (s : State) :
  match ColumnSpace.generate_day_data self d n total b s with
  | Ret _ s' =>
      exists rows : list value,
        fs s' = <[ColumnSpace._get_cache_path self d := CacheFile rows]> (fs s)
        /\ Z.of_nat (length rows) = Z.max 0 n
        /\ metrics s' = metrics s
        /\ rows_per_day_map s' = rows_per_day_map s
  | Raise e s' =>
      exn_cls e = CacheError
      /\ fs s' = <[ColumnSpace._get_cache_path self d := CacheFile []]> (fs s)
      /\ metrics s' = metrics s
      /\ rows_per_day_map s' = rows_per_day_map s
  | Diverge => True
  end.
Proof.
  unfold ColumnSpace.generate_day_data.
  rewrite bind_unfold. unfold modify at 1.
  set (p := ColumnSpace._get_cache_path self d).
  set (sA := set_fs _ s).
  unfold try_except. rewrite bind_unfold.
  pose proof (sw_generate_loop self d n total b (Z.to_nat n) 0 [] sA) as Hsw.
  destruct (ColumnSpace.generate_loop _ _ _ _ _ _ _ _ sA)
    as [rows sB|e sB|] eqn:E; [| |done].
  - destruct Hsw as (_ & Hfs & Hm & Hr).
    unfold modify. exists rows. simpl. rewrite Hfs. simpl.
    split; [by rewrite insert_insert_eq, insert_delete_eq|].
    split; [|done].
    destruct (Z.le_gt_cases 0 n) as [Hn|Hn].
    + apply generate_loop_ret_length in E; [|done]. simpl in E. lia.
    + rewrite generate_loop_done in E by lia. injection E as <- _. simpl. lia.
  - destruct Hsw as (_ & Hfs & Hm & Hr). unfold raise. simpl.
    split; [done|]. rewrite Hfs. simpl.
    split; [by rewrite insert_delete_eq | done].
Qed.

(** ** Batch sizes below one *)

Lemma apply_transitions_nil (self : ColumnSpace.t) (d total : Z) (s : State) :
  exists s', ColumnSpace._apply_transitions self [] d total s = Ret [] s'.
Proof.
  destruct (returns_apply_transitions self [] d total s) as (vs & s' & E & Hlen).
  exists s'. destruct vs; [done | discriminate].
Qed.

Lemma py_range_nonpos (n : Z) : n <= 0 -> py_range n = [].
Proof. intros H. unfold py_range. by replace (Z.to_nat n) with 0%nat by lia. Qed.

(** A batch of non-positive size is empty, unless numpy is asked for a
    negative number of random samples. *)
Lemma generate_batch_nonpos (self : ColumnSpace.t) (d total b : Z) (s : State) :
  b <= 0 ->
  if ColumnSpace.is_string_type (data_type (ColumnSpace.config self))
     || ColumnSpace.has_distribution self (DistributionType_value INCREMENT)
     || (b =? 0)
  then exists s', ColumnSpace.generate_batch self d total b s = Ret [] s'
  else ColumnSpace.generate_batch self d total b s
       = Raise (Exn ValueError "negative dimensions are not allowed") s.
Proof.
  intros Hb. unfold ColumnSpace.generate_batch. rewrite bind_unfold.
  destruct (ColumnSpace.is_string_type _) eqn:Hstr; simpl.
  { rewrite py_range_nonpos by done. simpl. apply apply_transitions_nil. }
  rewrite bind_unfold. unfold ColumnSpace._generate_numeric_distribution.
  destruct (ColumnSpace.has_distribution self _) eqn:Hinc; simpl.
  { unfold ColumnSpace.np_arange. rewrite py_range_nonpos by done. simpl.
    assert (E : ColumnSpace._convert_types self [] = [])
      by (unfold ColumnSpace._convert_types; by case_match).
    rewrite E. apply apply_transitions_nil. }
  assert (E : ColumnSpace._convert_types self [] = [])
    by (unfold ColumnSpace._convert_types; by case_match).
  destruct (Z.eqb_spec b 0) as [->|Hne].
  - unfold np_samples. simpl.
    destruct (ColumnSpace.has_distribution self (DistributionType_value UNIFORM));
      [|destruct (ColumnSpace.has_distribution self
                    (DistributionType_value NORMAL))];
      cbv beta iota; unfold mret, M_ret; cbv beta iota;
      change (VFloat <$> []) with (@nil value);
      rewrite E; apply apply_transitions_nil.
  - assert (Hsamples : forall view,
      np_samples view b s
      = Raise (Exn ValueError "negative dimensions are not allowed") s).
    { intros view. unfold np_samples. by destruct (Z.ltb_spec b 0); [|lia]. }
    destruct (ColumnSpace.has_distribution self (DistributionType_value UNIFORM));
      [|destruct (ColumnSpace.has_distribution self
                    (DistributionType_value NORMAL))];
      by rewrite Hsamples.
Qed.

(** X2.  With a batch size of zero or less and a target of at least one
    row, [generate_day_data] never produces a cache: the loop makes no
    progress and the call does not return, except that a numeric column
    without the INCREMENT flag and a negative batch size makes numpy
    raise, which surfaces as a [CacheError]. *)
Theorem nonpositive_batch_size
    (self : ColumnSpace.t) (d n total b : Z) (s : State) :
  b <= 0 ->
  1 <= n ->
  match ColumnSpace.generate_day_data self d n total b s with
  | Ret _ _ => False
  | Raise e _ =>
      b < 0
      /\ ColumnSpace.is_string_type (data_type (ColumnSpace.config self)) = false
      /\ ColumnSpace.has_distribution self (DistributionType_value INCREMENT)
         = false
      /\ e = Exn CacheError
               ("Cache operation failed for " +:+ name (ColumnSpace.config self)
                  +:+ ": negative dimensions are not allowed")
  | Diverge =>
      b = 0
      \/ ColumnSpace.is_string_type (data_type (ColumnSpace.config self)) = true
      \/ ColumnSpace.has_distribution self (DistributionType_value INCREMENT)
         = true
  end.
Proof.
  intros Hb Hn. unfold ColumnSpace.generate_day_data.
  rewrite bind_unfold. unfold modify at 1.
  set (sA := set_fs _ s).
  unfold try_except. rewrite bind_unfold.
  destruct (Z.to_nat n) as [|fuel] eqn:Hfuel; [lia|].
  simpl ColumnSpace.generate_loop.
  destruct (Z.ltb_spec 0 n); [|lia].
  rewrite bind_unfold.
  pose proof (generate_batch_nonpos self d total (Z.min b (n - 0)) sA
                ltac:(lia)) as Hbatch.
  replace (Z.min b (n - 0)) with b in * by lia.
  destruct (ColumnSpace.is_string_type _) eqn:Hstr; simpl in Hbatch.
  { destruct Hbatch as (s' & ->). simpl. auto. }
  destruct (ColumnSpace.has_distribution self _) eqn:Hinc; simpl in Hbatch.
  { destruct Hbatch as (s' & ->). simpl. auto. }
  destruct (Z.eqb_spec b 0) as [->|Hne].
  { destruct Hbatch as (s' & ->). simpl. auto. }
  rewrite Hbatch. unfold raise. simpl.
  repeat split; [lia | done..].
Qed.

Lemma nonpositive_batch_size_witness :
  ColumnSpace.generate_day_data (numeric_column id_column) 0 3 1 0 demo_state
  = Diverge.
Proof.
  pose proof (nonpositive_batch_size (numeric_column id_column) 0 3 1 0
                demo_state ltac:(lia) ltac:(lia)) as H.
  destruct (ColumnSpace.generate_day_data (numeric_column id_column) 0 3 1 0
              demo_state) as [u s'|e s'|].
  - destruct H.
  - destruct H as [H _]. lia.
  - reflexivity.
Defined.

(** ** Shape of the written files *)

Lemma row_indices_lookup (n : Z) (i : nat) :
  (i < Z.to_nat n)%nat -> row_indices n !! i = Some (Z.of_nat i + 1).
Proof.
  intros Hi. unfold row_indices, py_range.
  rewrite !list_lookup_fmap, lookup_seq_lt by done. done.
Qed.

Lemma row_indices_length (n : Z) : length (row_indices n) = Z.to_nat n.
Proof. unfold row_indices. by rewrite length_fmap, py_range_length. Qed.

Lemma filter_keeps_all {A} (P : A -> Prop) `{!forall x, Decision (P x)}
    (l : list A) :
  Forall P l -> filter P l = l.
Proof.
  induction 1 as [|x l Hx _ IH]; [done|].
  by rewrite filter_cons_True, IH.
Qed.

(** The CSV reader is the JSON reader followed by [str], with the empty
    string for a missing value. *)
Lemma csv_row_of_json_row (rt : Runtime) (fields : list string) (p : Z)
    (handles : gmap string file) :
  CSVWriter._get_data_row rt fields p handles (Some (VStr ""))
  = (fun c => Some (VStr (csv_cell rt c)))
      <$> JSONWriter._get_data_row fields p handles None.
Proof.
  unfold CSVWriter._get_data_row, JSONWriter._get_data_row.
  rewrite <- list_fmap_compose. apply list_fmap_ext. intros i f _. simpl.
  destruct (handles !! f) as [conn|]; [|done].
  by destruct (select_val conn p) as [[v|]|e].
Qed.

Lemma csv_write_day_spec
    (day : Z) (fields : list string) (handles : gmap string file)
    (n : Z) (path : string) (s : State) :
  exists lines : list (list string),
    CSVWriter.write_day day fields handles n path s
    = Ret tt (set_fs (<[path := CsvFile (fields :: lines)]> (fs s)) s)
    /\ length lines = (if decide (fields = []) then 0%nat else Z.to_nat n)
    /\ (fields <> [] ->
        forall i : nat, (i < Z.to_nat n)%nat ->
          lines !! i
          = Some (csv_cell (rt s)
                    <$> JSONWriter._get_data_row fields (Z.of_nat i + 1)
                          handles None)).
Proof.
  eexists. split; [reflexivity|].
  destruct fields as [|f fields].
  - split; [|done]. rewrite length_fmap. unfold CSVWriter.data_rows.
    case_decide; [|done].
    induction (row_indices n) as [|p l IH]; [done|].
    rewrite fmap_cons, filter_cons_False; [exact IH | by simpl].
  - assert (Hall : CSVWriter.data_rows (rt s) (f :: fields) handles n
                   = (fun p => CSVWriter._get_data_row (rt s) (f :: fields) p
                                 handles (Some (VStr "")))
                       <$> row_indices n).
    { unfold CSVWriter.data_rows. apply filter_keeps_all.
      apply Forall_fmap, Forall_forall. intros p _. simpl.
      unfold CSVWriter._get_data_row.
      destruct (handles !! f) as [c|]; [|done].
      by destruct (select_val c p) as [[v|]|e]. }
    rewrite Hall. split.
    + case_decide; [done|]. by rewrite !length_fmap, row_indices_length.
    + intros _ i Hi.
      rewrite !list_lookup_fmap, row_indices_lookup by done.
      cbn -[CSVWriter._get_data_row JSONWriter._get_data_row csv_cell].
      f_equal. rewrite csv_row_of_json_row, <- list_fmap_compose.
      by apply list_fmap_ext.
Qed.

(** X3.  [CSVWriter.write_day] always returns and puts at the output path
    a file whose first line is the list of field names.  With at least
    one field it is followed by exactly [rows_per_day] data lines, none
    dropped, each with one cell per field: line [i] is the row the JSON
    writer reads at position [i+1], every value passed through [str] and
    a missing value written as the empty field.  Without fields there is
    no data line. *)
Theorem csv_file_shape
    (day : Z) (fields : list string) (handles : gmap string file)
    (n : Z) (path : string) (s : State) :
  exists lines : list (list string),
    CSVWriter.write_day day fields handles n path s
    = Ret tt (set_fs (<[path := CsvFile (fields :: lines)]> (fs s)) s)
    /\ length lines = (if decide (fields = []) then 0%nat else Z.to_nat n)
    /\ (fields <> [] ->
        forall i : nat, (i < Z.to_nat n)%nat ->
          lines !! i
          = Some (csv_cell (rt s)
                    <$> JSONWriter._get_data_row fields (Z.of_nat i + 1)
                          handles None)).
Proof. apply csv_write_day_spec. Qed.

(** [dict(zip(names, row))] keeps every pair when the names are distinct. *)
Lemma dict_set_fresh (d : record) (k : string) (v : option value) :
  k ∉ d.*1 -> dict_set d k v = d ++ [(k, v)].
Proof.
  induction d as [|[k' v'] d IH]; intros Hk; simpl; [done|].
  rewrite fmap_cons, not_elem_of_cons in Hk. destruct Hk as [Hne Hk].
  rewrite bool_decide_eq_false_2 by (simpl in Hne; congruence).
  by rewrite IH.
Qed.

Lemma dict_zip_NoDup (names : list string) (row : list (option value)) :
  NoDup names -> dict_zip names row = zip names row.
Proof.
  intros Hnd. unfold dict_zip.
  assert (H : forall acc : record,
    (forall k, k ∈ names -> k ∉ acc.*1) ->
    fold_left (fun d kv => dict_set d kv.1 kv.2) (zip names row) acc
    = acc ++ zip names row).
  { revert row. induction Hnd as [|k names Hk Hnd IH]; intros row acc Hacc.
    - simpl. by rewrite app_nil_r.
    - destruct row as [|c row]; simpl; [by rewrite app_nil_r|].
      rewrite dict_set_fresh by (apply Hacc; left).
      rewrite IH.
      + by rewrite <- app_assoc.
      + intros k' Hk'. rewrite fmap_app, elem_of_app. simpl.
        intros [Hin|Hin].
        * by apply (Hacc k'); [right|].
        * apply list_elem_of_singleton in Hin. congruence. }
  rewrite H; [done|]. intros k _. simpl. apply not_elem_of_nil.
Qed.

Lemma zip_fmap_self {A B} (g : A -> B) (l : list A) :
  zip l (g <$> l) = (fun x => (x, g x)) <$> l.
Proof. induction l as [|x l IH]; [done|]. csimpl. f_equal. exact IH. Qed.

Lemma json_records_spec
    (fields : list string) (handles : gmap string file) (n : Z)
    (cache : string -> list value) :
  NoDup fields ->
  fields <> [] ->
  (forall f, f ∈ fields ->
     handles !! f = Some (CacheFile (cache f))
     /\ (Z.to_nat n <= length (cache f))%nat) ->
  length (JSONWriter.records fields handles n) = Z.to_nat n
  /\ JSONLinesWriter.records fields handles n
     = JSONWriter.records fields handles n
  /\ forall i : nat, (i < Z.to_nat n)%nat ->
       JSONWriter.records fields handles n !! i
       = Some ((fun f => (f, cache f !! i)) <$> fields)
       /\ Forall (fun f => is_Some (cache f !! i)) fields.
Proof.
  intros Hnd Hne Hcache.
  assert (Hrow : forall i : nat, (i < Z.to_nat n)%nat ->
    JSONWriter._get_data_row fields (Z.of_nat i + 1) handles None
    = (fun f => cache f !! i) <$> fields).
  { intros i Hi. unfold JSONWriter._get_data_row.
    apply Forall_fmap_ext, Forall_forall. intros f Hf.
    destruct (Hcache f Hf) as [-> Hlen]. simpl.
    destruct (Z.leb_spec (Z.of_nat i + 1) 0); [lia|].
    replace (Z.to_nat (Z.of_nat i + 1 - 1)) with i by lia.
    destruct (cache f !! i) eqn:E; [done|].
    apply lookup_ge_None in E. lia. }
  assert (Hsome : forall i : nat, (i < Z.to_nat n)%nat ->
    Forall (fun f => is_Some (cache f !! i)) fields).
  { intros i Hi. apply Forall_forall. intros f Hf.
    destruct (Hcache f Hf) as [_ Hlen]. apply lookup_lt_is_Some. lia. }
  assert (Hkeep : forall i : nat, (i < Z.to_nat n)%nat ->
    keep_row ((fun f => cache f !! i) <$> fields) = true).
  { intros i Hi. specialize (Hsome i Hi).
    destruct fields as [|f fields]; [done|].
    apply Forall_cons in Hsome as [[v Hv] _]. simpl. rewrite Hv.
    by destruct fields. }
  assert (Hall : JSONWriter.records fields handles n
                 = (fun i : nat => (fun f => (f, cache f !! i)) <$> fields)
                     <$> seq 0 (Z.to_nat n)).
  { unfold JSONWriter.records, row_indices, py_range.
    rewrite <- !list_fmap_compose.
    rewrite filter_keeps_all.
    - rewrite <- list_fmap_compose. apply list_fmap_ext. intros k i Hk.
      apply lookup_seq in Hk as [-> Hk]. simpl.
      rewrite Hrow by done. rewrite dict_zip_NoDup by done.
      by rewrite zip_fmap_self.
    - apply Forall_fmap, Forall_forall. intros i Hi.
      apply elem_of_seq in Hi. simpl. rewrite Hrow by lia. apply Hkeep. lia. }
  split; [by rewrite Hall, length_fmap, length_seq|].
  split; [done|].
  intros i Hi. split; [|by apply Hsome].
  rewrite Hall, list_lookup_fmap, lookup_seq_lt by done. done.
Qed.



(** ** Opening the caches of a day *)

Definition column_name (c : ColumnSpace.t) : string :=
  name (ColumnSpace.config c).

Lemma open_connections_ok (files : gmap string file) (d : Z)
    (cols : list ColumnSpace.t) :
  forall (acc conns : gmap string file),
    DataGenerator.open_connections files d cols acc = Ok conns ->
    (forall c, c ∈ cols -> is_Some (files !! ColumnSpace._get_cache_path c d))
    /\ (NoDup (column_name <$> cols) ->
        (forall c, c ∈ cols ->
           conns !! column_name c = files !! ColumnSpace._get_cache_path c d)
        /\ (forall k, k ∉ column_name <$> cols -> conns !! k = acc !! k)).
Proof.
  induction cols as [|c cols IH]; intros acc conns H; simpl in H.
  - injection H as <-. split; [intros c Hc; by apply elem_of_nil in Hc|].
    intros _. split; [intros c Hc; by apply elem_of_nil in Hc | done].
  - destruct (files !! ColumnSpace._get_cache_path c d) as [f|] eqn:Hf;
      [|discriminate].
    destruct (IH _ _ H) as [Hex Hnd]. split.
    + intros c' Hc'. apply elem_of_cons in Hc' as [->|Hc']; [by eexists | auto].
    + rewrite fmap_cons, NoDup_cons. intros [Hfresh Hnodup].
      destruct (Hnd Hnodup) as [Hin Hout]. split.
      * intros c' Hc'. apply elem_of_cons in Hc' as [->|Hc']; [|auto].
        rewrite Hout by done. unfold column_name.
        by rewrite lookup_insert_eq.
      * intros k Hk. rewrite not_elem_of_cons in Hk. destruct Hk as [Hne Hk].
        rewrite Hout by done. apply lookup_insert_ne.
        unfold column_name in Hne. congruence.
Qed.

Lemma open_connections_err (files : gmap string file) (d : Z)
    (cols : list ColumnSpace.t) :
  forall (acc : gmap string file) (e : exn),
    DataGenerator.open_connections files d cols acc = Err e ->
    exists c, c ∈ cols
      /\ files !! ColumnSpace._get_cache_path c d = None
      /\ e = Exn CacheError
               ("Cache file not found: " +:+ ColumnSpace._get_cache_path c d).
Proof.
  induction cols as [|c cols IH]; intros acc e H; simpl in H; [discriminate|].
  destruct (files !! ColumnSpace._get_cache_path c d) as [f|] eqn:Hf.
  - destruct (IH _ _ H) as (c' & Hc' & Hnone & He).
    exists c'. split; [by right | done].
  - injection H as <-. exists c. split; [by left | done].
Qed.

Lemma open_cache_connections_unfold
    (self : DataGenerator.t) (d : Z) (s : State) :
  DataGenerator._open_cache_connections self d s
  = match DataGenerator.open_connections (fs s) d
            (DataGenerator.column_spaces self) ∅ with
    | Ok conns => Ret conns s
    | Err e => Raise e s
    end.
Proof.
  unfold DataGenerator._open_cache_connections.
  rewrite bind_unfold. unfold get_state.
  by destruct (DataGenerator.open_connections _ _ _ _).
Qed.

(** X5.  [_open_cache_connections] never changes the state.  It returns
    only when the cache file of every column exists for the day; the
    dictionary it returns has exactly the configured column names as keys
    and, when the names are distinct, maps each name to the file at that
    column's cache path.  Otherwise it raises
    [CacheError("Cache file not found: <path>")] for a column whose cache
    file is missing. *)
Theorem open_cache_connections_spec
    (self : DataGenerator.t) (d : Z) (s : State) :
  let cols := DataGenerator.column_spaces self in
  match DataGenerator._open_cache_connections self d s with
  | Ret conns s' =>
      s' = s
      /\ (forall c, c ∈ cols ->
            is_Some (fs s !! ColumnSpace._get_cache_path c d))
      /\ (forall k, is_Some (conns !! k) <-> k ∈ column_name <$> cols)
      /\ (NoDup (column_name <$> cols) ->
          forall c, c ∈ cols ->
            conns !! column_name c = fs s !! ColumnSpace._get_cache_path c d)
  | Raise e s' =>
      s' = s
      /\ exists c, c ∈ cols
           /\ fs s !! ColumnSpace._get_cache_path c d = None
           /\ e = Exn CacheError
                    ("Cache file not found: "
                       +:+ ColumnSpace._get_cache_path c d)
  | Diverge => False
  end.
Proof.
  intros cols. unfold DataGenerator._open_cache_connections.
  rewrite bind_unfold. unfold get_state.
  destruct (DataGenerator.open_connections (fs s) d
              (DataGenerator.column_spaces self) ∅) as [conns|e] eqn:E; simpl.
  - split; [done|].
    destruct (open_connections_ok _ _ _ _ _ E) as [Hex Hnd].
    split; [done|]. split.
    + intros k. rewrite (open_connections_keys _ _ _ _ _ E k).
      rewrite lookup_empty. split; [intros [[? [=]]|?]; done | by right].
    + intros Hnodup. by apply Hnd.
  - split; [done|]. by eapply open_connections_err.
Qed.

(** X6.  If the cache file of some column is missing for a day,
    [write_one_day] raises an [OutputError] for that day: no file is
    written or changed, the count of files written stays as it was and
    the error count goes up by one. *)
Theorem missing_cache_fails_day
    (self : DataGenerator.t) (writer : OutputWriter) (d : Z) (s : State)
    (c : ColumnSpace.t) :
  c ∈ DataGenerator.column_spaces self ->
  fs s !! ColumnSpace._get_cache_path c d = None ->
  exists (msg : string) (s' : State),
    DataGenerator.write_one_day self writer d s = Raise (Exn OutputError msg) s'
    /\ fs s' = fs s
    /\ files_written (metrics s') = files_written (metrics s)
    /\ total_rows_generated (metrics s') = total_rows_generated (metrics s)
    /\ errors_encountered (metrics s') = errors_encountered (metrics s) + 1.
Proof.
  intros Hc Hnone.
  unfold DataGenerator.write_one_day, try_except. rewrite bind_unfold.
  rewrite open_cache_connections_unfold.
  destruct (DataGenerator.open_connections _ _ _ _) as [conns|e] eqn:E.
  - destruct (open_connections_ok _ _ _ _ _ E) as [Hex _].
    destruct (Hex c Hc) as [f Hf]. congruence.
  - rewrite bind_unfold.
    unfold add_errors_encountered, modify, raise. by eexists _, _.
Qed.

Lemma missing_cache_fails_day_witness :
  exists (msg : string) (s' : State),
    DataGenerator.write_one_day planner_generator Csv 0 demo_state
    = Raise (Exn OutputError msg) s'
    /\ fs s' = fs demo_state.
Proof.
  destruct (missing_cache_fails_day planner_generator Csv 0 demo_state
              (numeric_column id_column) ltac:(by left) ltac:(reflexivity))
    as (msg & s' & Hrun & Hfs & _).
  exists msg, s'. split; [exact Hrun | exact Hfs].
Defined.

(** ** The write phase *)

Lemma write_day_effect (writer : OutputWriter) (d : Z) (fields : list string)
    (handles : gmap string file) (n : Z) (path : string) (s : State) :
  exists content : file,
    write_day writer d fields handles n path s
    = Ret tt (set_fs (<[path := content]> (fs s)) s)
    /\ written_by writer content.
Proof. destruct writer; by eexists. Qed.

Lemma write_one_day_ret (self : DataGenerator.t) (writer : OutputWriter)
    (d : Z) (s s' : State) :
  DataGenerator.write_one_day self writer d s = Ret tt s' ->
  exists (n : Z) (content : file),
    rows_per_day_map s !! d = Some n
    /\ written_by writer content
    /\ fs s' = <[output_path self writer d := content]> (fs s)
    /\ rows_per_day_map s' = rows_per_day_map s
    /\ files_written (metrics s') = files_written (metrics s) + 1
    /\ total_rows_generated (metrics s') = total_rows_generated (metrics s) + n
    /\ errors_encountered (metrics s') = errors_encountered (metrics s).
Proof.
  unfold DataGenerator.write_one_day, try_except. rewrite bind_unfold.
  rewrite open_cache_connections_unfold.
  destruct (DataGenerator.open_connections _ _ _ _) as [conns|e].
  2:{ rewrite bind_unfold. unfold add_errors_encountered, modify, raise.
      discriminate. }
  rewrite bind_unfold. unfold get_state at 1. rewrite bind_unfold.
  unfold dict_get.
  destruct (rows_per_day_map s !! d) as [n|] eqn:Hn.
  2:{ unfold raise at 1. rewrite bind_unfold.
      unfold add_errors_encountered, modify, raise. discriminate. }
  cbn [mret M_ret]. rewrite bind_unfold.
  destruct (write_day_effect writer d
              ((fun c => ColumnSpace.get_field_name c d
                           (num_days (DataGenerator.config self)))
                 <$> DataGenerator.column_spaces self)
              conns n (output_path self writer d) s)
    as (content & Hw & Hkind).
  unfold output_path in Hw. rewrite Hw.
  unfold add_file_written, modify. intros [= <-].
  exists n, content. by repeat split.
Qed.

Lemma write_days_ret (self : DataGenerator.t) (writer : OutputWriter)
    (days : list Z) :
  forall s s' : State,
    for_ (DataGenerator.write_one_day self writer) days s = Ret tt s' ->
    rows_per_day_map s' = rows_per_day_map s
    /\ files_written (metrics s')
       = files_written (metrics s) + Z.of_nat (length days)
    /\ total_rows_generated (metrics s')
       = total_rows_generated (metrics s)
         + planned_total (rows_per_day_map s) days
    /\ errors_encountered (metrics s') = errors_encountered (metrics s)
    /\ (forall d, d ∈ days ->
          exists content, fs s' !! output_path self writer d = Some content
                          /\ written_by writer content)
    /\ (forall p, (forall d, d ∈ days -> p <> output_path self writer d) ->
          fs s' !! p = fs s !! p)
    /\ (forall p content, fs s !! p = Some content ->
          written_by writer content ->
          exists content', fs s' !! p = Some content'
                           /\ written_by writer content').
Proof.
  induction days as [|d days IH]; intros s s'; simpl.
  - intros [= <-]. repeat split; try done; try lia.
    + intros d Hd. by apply elem_of_nil in Hd.
    + intros p content Hp Hk. by exists content.
  - rewrite bind_unfold.
    destruct (DataGenerator.write_one_day self writer d s)
      as [[] s1|e s1|] eqn:E; [|done..].
    apply write_one_day_ret in E
      as (n & content & Hn & Hkind & Hfs & Hmap & Hfw & Htr & Herr).
    intros Hrest. apply IH in Hrest
      as (Hmap' & Hfw' & Htr' & Herr' & Hfiles & Hframe & Hkeep).
    assert (Hd1 : exists c1, fs s1 !! output_path self writer d = Some c1
                             /\ written_by writer c1).
    { exists content. by rewrite Hfs, lookup_insert_eq. }
    split; [congruence|]. split; [lia|]. split.
    { rewrite Htr', Htr, Hmap, Hn. simpl. lia. }
    split; [congruence|]. split; [|split].
    + intros d' Hd'. apply elem_of_cons in Hd' as [->|Hd']; [|by apply Hfiles].
      destruct Hd1 as (c1 & Hc1 & Hk1). by apply (Hkeep _ c1).
    + intros p Hp. rewrite Hframe by (intros d' Hd'; apply Hp; by right).
      rewrite Hfs. apply lookup_insert_ne. intros Heq.
      by apply (Hp d); [left|].
    + intros p c0 Hp Hk.
      destruct (decide (output_path self writer d = p)) as [<-|Hne].
      * destruct Hd1 as (c1 & Hc1 & Hk1). by apply (Hkeep _ c1).
      * apply (Hkeep p c0); [|done]. by rewrite Hfs, lookup_insert_ne.
Qed.

(** X7.  When the write phase returns, the format was a supported one,
    every day of the run has its file [<output_dir>/<day>.<extension>] in
    the format of the writer, no other path has changed, the planned row
    counts are untouched, [files_written] has grown by the number of days,
    [total_rows_generated] by the sum of the planned row counts, and no
    error was counted. *)
Theorem write_output_data_success (self : DataGenerator.t) (s s' : State) :
  DataGenerator._write_output_data self s = Ret tt s' ->
  let days := py_range (num_days (DataGenerator.config self)) in
  exists writer : OutputWriter,
    OutputWriterFactory.create_writer
      (output_format (DataGenerator.config self)) = Ok writer
    /\ (forall d, d ∈ days ->
          exists content, fs s' !! output_path self writer d = Some content
                          /\ written_by writer content)
    /\ (forall p, (forall d, d ∈ days -> p <> output_path self writer d) ->
          fs s' !! p = fs s !! p)
    /\ rows_per_day_map s' = rows_per_day_map s
    /\ files_written (metrics s')
       = files_written (metrics s) + Z.of_nat (length days)
    /\ total_rows_generated (metrics s')
       = total_rows_generated (metrics s)
         + planned_total (rows_per_day_map s) days
    /\ errors_encountered (metrics s') = errors_encountered (metrics s).
Proof.
  unfold DataGenerator._write_output_data. rewrite bind_unfold.
  destruct (OutputWriterFactory.create_writer _) as [writer|e]; [|done].
  cbn [lift_result mret M_ret].
  intros Hrun. apply write_days_ret in Hrun
    as (Hmap & Hfw & Htr & Herr & Hfiles & Hframe & _).
  exists writer. by repeat split.
Qed.

Lemma write_output_data_success_witness :
  exists s' : State,
    DataGenerator._write_output_data planner_generator cached_state = Ret tt s'
    /\ files_written (metrics s') = 2
    /\ total_rows_generated (metrics s') = 5.
Proof.
  destruct (DataGenerator._write_output_data planner_generator cached_state)
    as [[] s'| |] eqn:E; [|vm_compute in E; discriminate..].
  destruct (write_output_data_success planner_generator cached_state s' E)
    as (writer & _ & _ & _ & _ & Hfw & Htr & _).
  exists s'. split; [reflexivity|]. split; [exact Hfw | exact Htr].
Defined.

(** ** Cache paths *)

(** The character does not occur in the string. *)
Fixpoint char_free (c : Ascii.ascii) (s : string) : Prop :=
  match s with
  | EmptyString => True
  | String c' s' => c' <> c /\ char_free c s'
  end.

Lemma char_free_app (c : Ascii.ascii) (s1 s2 : string) :
  char_free c (s1 +:+ s2) <-> char_free c s1 /\ char_free c s2.
Proof. induction s1 as [|c1 s1 IH]; simpl; [tauto|]. rewrite IH. tauto. Qed.

(** A string splits in one way only at the last occurrence of a
    character. *)
Lemma split_at_last (c : Ascii.ascii) (a b x y : string) :
  char_free c x -> char_free c y ->
  a +:+ String c x = b +:+ String c y -> a = b /\ x = y.
Proof.
  intros Hx Hy. revert b.
  induction a as [|ca a IH]; intros [|cb b]; simpl; intros E.
  - by injection E as ->.
  - injection E as -> ->. apply char_free_app in Hx as [_ [Hc _]]. done.
  - injection E as -> <-. apply char_free_app in Hy as [_ [Hc _]]. done.
  - injection E as -> E. destruct (IH b E) as [-> ->]. done.
Qed.

Lemma pretty_N_char_not (c : Ascii.ascii) (x : N) :
  Ascii.is_nat c = None -> pretty_N_char x <> c.
Proof.
  intros Hc Heq. subst c. unfold pretty_N_char in Hc.
  by repeat case_match.
Qed.

Lemma pretty_N_go_free (c : Ascii.ascii) (x : N) :
  Ascii.is_nat c = None ->
  forall s, char_free c s -> char_free c (pretty_N_go x s).
Proof.
  intros Hc. induction (N.lt_wf_0 x) as [x _ IH]; intros s Hs.
  assert (x = 0 \/ 0 < x)%N as [->|Hpos] by lia.
  - by rewrite pretty_N_go_0.
  - rewrite pretty_N_go_step by done. apply IH.
    + by apply N.div_lt.
    + simpl. split; [by apply pretty_N_char_not | done].
Qed.

(** The decimal rendering of a non-negative integer is made of digits. *)
Lemma pretty_nonneg_free (c : Ascii.ascii) (z : Z) :
  Ascii.is_nat c = None -> 0 <= z -> char_free c (pretty z).
Proof.
  intros Hc Hz. destruct z as [|p|p]; [|  |lia].
  - simpl. split; [|done]. intros <-. discriminate.
  - change (pretty (Z.pos p)) with (pretty (N.pos p)).
    unfold pretty, pretty_N. case_decide; [done|].
    by apply pretty_N_go_free.
Qed.

(** X8.  Cache files are named injectively: for days counted from zero,
    two cache paths are equal only if the column names are equal and the
    days are equal, so distinct (column name, day) pairs never share a
    cache file. *)
Theorem cache_path_injective (c c' : ColumnSpace.t) (d d' : Z) :
  0 <= d -> 0 <= d' ->
  ColumnSpace._get_cache_path c d = ColumnSpace._get_cache_path c' d' ->
  name (ColumnSpace.config c) = name (ColumnSpace.config c') /\ d = d'.
Proof.
  intros Hd Hd'. unfold ColumnSpace._get_cache_path.
  intros [= E].
  cbn [String.append] in E.
  apply split_at_last in E as [Hname E].
  - split; [done|].
    apply split_at_last in E as [E _].
    + by apply (inj pretty).
    + by compute.
    + by compute.
  - apply char_free_app. split; [by apply pretty_nonneg_free | by compute].
  - apply char_free_app. split; [by apply pretty_nonneg_free | by compute].
Qed.

Lemma cache_path_injective_witness :
  name catStr1_column = name catStr1_column /\ 3 = 3.
Proof.
  apply (cache_path_injective catStr1_space catStr1_space 3 3);
    [lia | lia | reflexivity].
Defined.

(** ** The generation phase *)

Lemma elem_of_py_range (n d : Z) : d ∈ py_range n <-> 0 <= d < n.
Proof.
  unfold py_range. rewrite list_elem_of_fmap. split.
  - intros (k & -> & Hk). apply elem_of_seq in Hk. lia.
  - intros Hd. exists (Z.to_nat d). split; [lia|]. apply elem_of_seq. lia.
Qed.

Lemma cache_path_day (c c' : ColumnSpace.t) (d d' : Z) :
  0 <= d -> 0 <= d' ->
  ColumnSpace._get_cache_path c d = ColumnSpace._get_cache_path c' d' ->
  d = d'.
Proof.
  intros Hd Hd'. unfold ColumnSpace._get_cache_path.
  intros [= E]. cbn [String.append] in E.
  apply split_at_last in E as [_ E].
  - apply split_at_last in E as [E _]; [by apply (inj pretty) | by compute..].
  - apply char_free_app. split; [by apply pretty_nonneg_free | by compute].
  - apply char_free_app. split; [by apply pretty_nonneg_free | by compute].
Qed.

Lemma planned_cache_stable cols days m (f f' : gmap string file) (p : string) :
  f' !! p = f !! p -> planned_cache cols days m f p ->
  planned_cache cols days m f' p.
Proof.
  intros E (c & d & Hc & Hd & Hp & rows & n & Hf & Hm & Hlen).
  exists c, d. repeat split; try done. exists rows, n. by rewrite E.
Qed.

#[global] Instance caches_grown_preorder cols days :
  PreOrder (caches_grown cols days).
Proof.
  split.
  - intros s. repeat split; try done. by left.
  - intros s1 s2 s3 (Hm12 & Hf12 & A12 & B12 & C12) (Hm23 & Hf23 & A23 & B23 & C23).
    repeat split; try congruence.
    intros p. destruct (Hf23 p) as [E|Hp]; [|right; by rewrite <- Hm12].
    destruct (Hf12 p) as [E'|Hp]; [left; congruence|].
    right. by apply (planned_cache_stable _ _ _ (fs s2)).
Qed.

Lemma caches_grown_keeps cols days (s s' : State) (p : string) :
  caches_grown cols days s s' ->
  planned_cache cols days (rows_per_day_map s) (fs s) p ->
  planned_cache cols days (rows_per_day_map s') (fs s') p.
Proof.
  intros (Hm & Hf & _) Hp. rewrite Hm.
  destruct (Hf p) as [E|Hp']; [|done].
  by apply (planned_cache_stable _ _ _ (fs s)).
Qed.

(** A loop that returns has run every iteration to its end. *)
Lemma for__ret {A} (I : State -> Prop) (R : State -> State -> Prop)
    `{!PreOrder R} (P : A -> State -> Prop) (mu : State -> Z) (k : Z)
    (f : A -> M unit) (l : list A) :
  (forall x s s', x ∈ l -> I s -> f x s = Ret tt s' ->
     I s' /\ R s s' /\ P x s' /\ mu s' = mu s + k) ->
  (forall x s s', P x s -> R s s' -> P x s') ->
  forall s s', I s -> for_ f l s = Ret tt s' ->
    I s' /\ R s s' /\ (forall x, x ∈ l -> P x s')
    /\ mu s' = mu s + k * Z.of_nat (length l).
Proof.
  intros Hf Hstable. induction l as [|x l IH]; intros s s' Hs; simpl.
  - intros [= <-]. repeat split; [done|reflexivity| |lia].
    intros x Hx. by apply elem_of_nil in Hx.
  - rewrite bind_unfold. destruct (f x s) as [[] s1|e s1|] eqn:E; [|done..].
    intros Hrest.
    destruct (Hf x s s1 ltac:(by left) Hs E) as (Hs1 & HR1 & HP1 & Hmu1).
    destruct (IH (fun y t t' Hy => Hf y t t' ltac:(by right)) s1 s' Hs1 Hrest)
      as (Hs' & HR & HP & Hmu).
    repeat split; [done|by etrans| |lia].
    intros y Hy. apply elem_of_cons in Hy as [->|Hy]; [|by apply HP].
    by apply (Hstable _ s1).
Qed.

Lemma generate_day_data_ret (self : ColumnSpace.t) (d n total b : Z)
    (s s' : State) :
  ColumnSpace.generate_day_data self d n total b s = Ret tt s' ->
  exists rows : list value,
    fs s' = <[ColumnSpace._get_cache_path self d := CacheFile rows]> (fs s)
    /\ Z.of_nat (length rows) = Z.max 0 n
    /\ metrics s' = metrics s
    /\ rows_per_day_map s' = rows_per_day_map s.
Proof.
  unfold ColumnSpace.generate_day_data.
  rewrite bind_unfold. unfold modify at 1.
  set (p := ColumnSpace._get_cache_path self d).
  set (sA := set_fs _ s).
  unfold try_except. rewrite bind_unfold.
  pose proof (sw_generate_loop self d n total b (Z.to_nat n) 0 [] sA) as Hsw.
  destruct (ColumnSpace.generate_loop _ _ _ _ _ _ _ _ sA)
    as [rows sB|e sB|] eqn:E; [|done..].
  destruct Hsw as (_ & Hfs & Hm & Hr).
  unfold modify. intros [= <-]. exists rows. simpl. rewrite Hfs. simpl.
  split; [by rewrite insert_insert_eq, insert_delete_eq|].
  split; [|done].
  destruct (Z.le_gt_cases 0 n) as [Hn|Hn].
  - apply generate_loop_ret_length in E; [|done]. simpl in E. lia.
  - rewrite generate_loop_done in E by lia. injection E as <- _. simpl. lia.
Qed.

(** One planned day of one column, as both execution modes run it. *)
Lemma planned_day_ret (cols : list ColumnSpace.t) (days : list Z)
    (c c' : ColumnSpace.t) (d n total b : Z) (s s' : State) :
  c ∈ cols -> d ∈ days ->
  ColumnSpace.config c' = ColumnSpace.config c ->
  rows_per_day_map s !! d = Some n ->
  ColumnSpace.generate_day_data c' d n total b s = Ret tt s' ->
  caches_grown cols days s s'
  /\ planned_cache cols days (rows_per_day_map s') (fs s')
       (ColumnSpace._get_cache_path c d)
  /\ cache_operations (metrics s') = cache_operations (metrics s).
Proof.
  intros Hc Hd Hcfg Hn Hrun.
  apply generate_day_data_ret in Hrun as (rows & Hfs & Hlen & Hm & Hmap).
  assert (Hp : ColumnSpace._get_cache_path c' d = ColumnSpace._get_cache_path c d).
  { unfold ColumnSpace._get_cache_path. by rewrite Hcfg. }
  rewrite Hp in Hfs.
  assert (Hnew : planned_cache cols days (rows_per_day_map s) (fs s')
                   (ColumnSpace._get_cache_path c d)).
  { exists c, d. repeat split; try done. exists rows, n.
    by rewrite Hfs, lookup_insert_eq. }
  split; [|split; [by rewrite Hmap | by rewrite Hm]].
  split; [done|]. split; [|by rewrite Hm].
  intros p. destruct (decide (ColumnSpace._get_cache_path c d = p)) as [<-|Hne].
  - by right.
  - left. by rewrite Hfs, lookup_insert_ne.
Qed.

Lemma generate_one_day_ret (cols : list ColumnSpace.t) (days : list Z)
    (self : DataGenerator.t) (c : ColumnSpace.t) (d : Z) (s s' : State) :
  c ∈ cols -> d ∈ days ->
  DataGenerator.generate_one_day self c d s = Ret tt s' ->
  caches_grown cols days s s'
  /\ planned_cache cols days (rows_per_day_map s') (fs s')
       (ColumnSpace._get_cache_path c d)
  /\ cache_operations (metrics s') = cache_operations (metrics s) + 1.
Proof.
  intros Hc Hd. unfold DataGenerator.generate_one_day.
  rewrite bind_unfold. unfold get_state at 1. rewrite bind_unfold.
  unfold dict_get. destruct (rows_per_day_map s !! d) as [n|] eqn:Hn; [|done].
  cbn [mret M_ret]. rewrite bind_unfold.
  destruct (ColumnSpace.generate_day_data c d n _ _ s) as [[] s1|e s1|] eqn:E;
    [|done..].
  unfold add_cache_operations, modify. intros [= <-].
  destruct (planned_day_ret cols days c c d n _ _ s s1 Hc Hd eq_refl Hn E)
    as ((Hm & Hf & A & B & C) & Hp & Hops).
  repeat split; simpl; try done. by rewrite Hops.
Qed.

Lemma generate_sequential_ret (self : DataGenerator.t) (s s' : State) :
  let cols := DataGenerator.column_spaces self in
  let days := py_range (num_days (DataGenerator.config self)) in
  DataGenerator.generate_sequential self s = Ret tt s' ->
  caches_grown cols days s s'
  /\ (forall c d, c ∈ cols -> d ∈ days ->
        planned_cache cols days (rows_per_day_map s') (fs s')
          (ColumnSpace._get_cache_path c d))
  /\ cache_operations (metrics s')
     = cache_operations (metrics s)
       + Z.of_nat (length days) * Z.of_nat (length cols).
Proof.
  intros cols days Hrun. unfold DataGenerator.generate_sequential in Hrun.
  eapply (for__ret (fun _ => True) (caches_grown cols days)
            (fun c t => forall d, d ∈ days ->
               planned_cache cols days (rows_per_day_map t) (fs t)
                 (ColumnSpace._get_cache_path c d))
            (fun t => cache_operations (metrics t))
            (1 * Z.of_nat (length days))) in Hrun; [| | |done].
  - destruct Hrun as (_ & HR & HP & Hmu). split; [done|].
    split; [intros c d Hc Hd; by apply HP | subst cols days; lia].
  - intros c t t' Hc _ Hcol. unfold DataGenerator.generate_one_column in Hcol.
    eapply (for__ret (fun _ => True) (caches_grown cols days)
              (fun d u =>
                 planned_cache cols days (rows_per_day_map u) (fs u)
                   (ColumnSpace._get_cache_path c d))
              (fun u => cache_operations (metrics u)) 1) in Hcol; [| | |done].
    + destruct Hcol as (_ & HR & HP & Hmu).
      split; [done|]. split; [done|]. split; [done|]. subst days. lia.
    + intros d u u' Hd _ Hday. split; [done|].
      by apply (generate_one_day_ret cols days self).
    + intros d u u' Hp HR. by eapply caches_grown_keeps.
  - intros c t t' Hp HR d Hd. eapply caches_grown_keeps; [done|]. by apply Hp.
Qed.

(** What a worker that returns has done. *)
Lemma generate_column_worker_ret (cols : list ColumnSpace.t)
    (c : ColumnSpace.t) (total b : Z) (msg : string) (s s' : State) :
  let days := py_range total in
  c ∈ cols ->
  generate_column_worker (ColumnSpace.config c) (rows_per_day_map s) total b s
  = Ret msg s' ->
  caches_grown cols days s s'
  /\ (forall d, d ∈ days ->
        planned_cache cols days (rows_per_day_map s') (fs s')
          (ColumnSpace._get_cache_path c d))
  /\ cache_operations (metrics s') = cache_operations (metrics s).
Proof.
  intros days Hc. unfold generate_column_worker. rewrite bind_unfold.
  pose proof (sw_ColumnSpace_new (ColumnSpace.config c) s) as Hsw.
  pose proof (returns_ColumnSpace_new (ColumnSpace.config c) s)
    as (c' & s0 & Hnew & Hcfg & _).
  rewrite Hnew in Hsw |- *. destruct Hsw as (_ & Hfs0 & Hm0 & Hmap0).
  rewrite bind_unfold.
  destruct (for_ _ _ s0) as [[] s1|e s1|] eqn:Hloop; [|done..].
  intros [= _ <-].
  eapply (for__ret (fun t => rows_per_day_map t = rows_per_day_map s)
            (caches_grown cols days)
            (fun d u =>
               planned_cache cols days (rows_per_day_map u) (fs u)
                 (ColumnSpace._get_cache_path c d))
            (fun u => cache_operations (metrics u)) 0) in Hloop; [| | |done].
  - destruct Hloop as (_ & (Hm & Hf & A & B & C) & HP & Hmu).
    split; [|split; [done | rewrite Hmu, Hm0; lia]].
    split; [congruence|]. split; [|rewrite A, B, C, Hm0; done].
    intros p. rewrite <- Hfs0, <- Hmap0. apply Hf.
  - intros d u u' Hd Hu. rewrite bind_unfold. unfold dict_get.
    destruct (rows_per_day_map s !! d) as [n|] eqn:Hn; [|done].
    cbn [mret M_ret]. intros Hday.
    destruct (planned_day_ret cols days c c' d n _ _ u u' Hc Hd Hcfg
                ltac:(by rewrite Hu) Hday) as (HR & Hp & Hops).
    split; [destruct HR as (-> & _); done|]. split; [done|].
    split; [done | lia].
  - intros d u u' Hp HR. by eapply caches_grown_keeps.
Qed.

Lemma in_child_process_ok {A} (task : M A) (a : A) (s s' : State) :
  in_child_process task s = Ret (Ok a) s' ->
  exists s1, task s = Ret a s1 /\ s' = set_fs (fs s1) s.
Proof.
  unfold in_child_process. destruct (task s) as [a' s1|e s1|]; [|done..].
  intros [= <- <-]. by exists s1.
Qed.

Lemma submit_all_ret (cols : list ColumnSpace.t) (self : DataGenerator.t)
    (m : gmap Z Z) (l : list ColumnSpace.t) :
  let days := py_range (num_days (DataGenerator.config self)) in
  (forall c, c ∈ l -> c ∈ cols) ->
  forall (s s' : State) (futures : list (string * result string)),
    rows_per_day_map s = m ->
    for_each (DataGenerator.submit_column self m) l s = Ret futures s' ->
    Forall future_ok futures ->
    caches_grown cols days s s'
    /\ metrics s' = metrics s
    /\ length futures = length l
    /\ (forall c d, c ∈ l -> d ∈ days ->
          planned_cache cols days (rows_per_day_map s') (fs s')
            (ColumnSpace._get_cache_path c d)).
Proof.
  intros days. induction l as [|c l IH]; intros Hsub s s' futures Hm; simpl.
  - intros [= <- <-] _. split; [reflexivity|]. do 2 (split; [done|]).
    intros c d Hc. by apply elem_of_nil in Hc.
  - rewrite bind_unfold. unfold DataGenerator.submit_column at 1.
    rewrite bind_unfold.
    destruct (in_child_process _ s) as [r s1|e s1|] eqn:Hchild; [|done..].
    cbn [mret M_ret]. rewrite bind_unfold.
    destruct (for_each _ l s1) as [futs s2|e s2|] eqn:Hrest; [|done..].
    intros [= <- <-] Hok. apply Forall_cons in Hok as [[v Hv] Hok].
    simpl in Hv. subst r.
    apply in_child_process_ok in Hchild as (s0 & Hwork & ->).
    rewrite <- Hm in Hwork.
    apply (generate_column_worker_ret cols) in Hwork
      as ((Hm0 & Hf0 & A0 & B0 & C0) & HP0 & _); [|apply Hsub; by left].
    assert (HR1 : caches_grown cols days s (set_fs (fs s0) s)).
    { by repeat split. }
    destruct (IH (fun c' Hc' => Hsub c' ltac:(by right))
                (set_fs (fs s0) s) _ _ Hm Hrest Hok)
      as (HR & Hmet & Hlen & HP).
    split; [by etrans|]. split; [done|]. split; [simpl; by rewrite Hlen|].
    intros c' d Hc' Hd. apply elem_of_cons in Hc' as [->|Hc']; [|by apply HP].
    eapply caches_grown_keeps; [exact HR|]. simpl.
    rewrite <- Hm0. by apply HP0.
Qed.

Lemma collect_all_ret (self : DataGenerator.t)
    (futures : list (nat * (string * result string))) :
  forall s s' : State,
    for_ (DataGenerator.collect_future self) futures s = Ret tt s' ->
    Forall (fun fut => future_ok fut.2) futures
    /\ fs s' = fs s
    /\ rows_per_day_map s' = rows_per_day_map s
    /\ cache_operations (metrics s')
       = cache_operations (metrics s)
         + num_days (DataGenerator.config self) * Z.of_nat (length futures)
    /\ files_written (metrics s') = files_written (metrics s)
    /\ total_rows_generated (metrics s') = total_rows_generated (metrics s)
    /\ errors_encountered (metrics s') = errors_encountered (metrics s).
Proof.
  induction futures as [|[i [nm r]] futures IH]; intros s s'; simpl.
  - intros [= <-]. repeat split; try done. lia.
  - rewrite bind_unfold. unfold DataGenerator.collect_future at 1. simpl.
    destruct r as [v|e].
    + unfold add_cache_operations, modify. intros Hrest.
      apply IH in Hrest as (Hok & Hfs & Hmap & Hops & A & B & C).
      simpl in *. repeat split; try done; [|lia].
      apply Forall_cons. split; [by exists v | done].
    + rewrite bind_unfold. unfold add_errors_encountered, modify, raise.
      discriminate.
Qed.

Lemma generate_parallel_ret (self : DataGenerator.t) (s s' : State) :
  let cols := DataGenerator.column_spaces self in
  let days := py_range (num_days (DataGenerator.config self)) in
  DataGenerator.generate_parallel self s = Ret tt s' ->
  caches_grown cols days s s'
  /\ (forall c d, c ∈ cols -> d ∈ days ->
        planned_cache cols days (rows_per_day_map s') (fs s')
          (ColumnSpace._get_cache_path c d))
  /\ cache_operations (metrics s')
     = cache_operations (metrics s)
       + num_days (DataGenerator.config self) * Z.of_nat (length cols).
Proof.
  intros cols days. unfold DataGenerator.generate_parallel.
  rewrite bind_unfold.
  assert (Hpool : forall o : outcome unit,
    match o with Ret _ s0 => s0 = s | _ => True end ->
    forall k : unit -> M unit,
      match o with
      | Ret a s0 => k a s0
      | Raise e s0 => Raise e s0
      | Diverge => Diverge
      end = Ret tt s' -> k tt s = Ret tt s').
  { intros [[] s0|e s0|] Ho k; [|done..]. by subst s0. }
  intros Hrun. apply Hpool in Hrun.
  2:{ destruct (max_workers _) as [n|]; [|done]. by destruct (n <? 0). }
  clear Hpool. rewrite bind_unfold in Hrun. unfold get_state at 1 in Hrun.
  rewrite bind_unfold in Hrun.
  destruct (for_each _ _ s) as [futures s1|e s1|] eqn:Hsubmit; [|done..].
  apply collect_all_ret in Hrun as (Hok & Hfs & Hmap & Hops & A & B & C).
  assert (Hall : Forall future_ok futures).
  { apply Forall_forall. intros fut Hfut.
    apply list_elem_of_lookup in Hfut as [i Hi].
    rewrite Forall_forall in Hok. apply (Hok (i, fut)).
    unfold as_completed. rewrite merge_sort_Permutation.
    apply list_elem_of_lookup. exists i. by rewrite list_lookup_imap, Hi. }
  apply (submit_all_ret cols) in Hsubmit
    as ((Hm1 & Hf1 & A1 & B1 & C1) & Hmet & Hlen & HP); [|done..].
  assert (Hlen' : length (as_completed (rt s)
                            (imap (fun i f => (i, f)) futures))
                  = length cols).
  { unfold as_completed. rewrite merge_sort_Permutation.
    by rewrite length_imap. }
  rewrite Hlen' in Hops. rewrite Hmet in Hops.
  split; [|split; [|done]].
  - split; [congruence|]. split; [|by rewrite A, B, C].
    intros p. rewrite Hfs. apply Hf1.
  - intros c d Hc Hd. rewrite Hfs, Hmap. by apply HP.
Qed.

Lemma generate_column_data_ret (self : DataGenerator.t) (s s' : State) :
  let cols := DataGenerator.column_spaces self in
  let days := py_range (num_days (DataGenerator.config self)) in
  0 <= num_days (DataGenerator.config self) ->
  DataGenerator._generate_column_data self s = Ret tt s' ->
  caches_grown cols days s s'
  /\ (forall c d, c ∈ cols -> d ∈ days ->
        planned_cache cols days (rows_per_day_map s') (fs s')
          (ColumnSpace._get_cache_path c d))
  /\ cache_operations (metrics s')
     = cache_operations (metrics s)
       + num_days (DataGenerator.config self) * Z.of_nat (length cols).
Proof.
  intros cols days Hdays Hrun.
  unfold DataGenerator._generate_column_data in Hrun.
  destruct (bool_decide _).
  - apply generate_sequential_ret in Hrun as (HR & HP & Hops).
    split; [done|]. split; [done|].
    rewrite Hops, py_range_length. subst cols. lia.
  - by apply generate_parallel_ret in Hrun.
Qed.

(** A planned cache at the path of a column and a day is the cache of
    that day. *)
Lemma planned_cache_aligned (cols : list ColumnSpace.t) (n : Z)
    (m : gmap Z Z) (f : gmap string file) (c : ColumnSpace.t) (d : Z) :
  d ∈ py_range n ->
  planned_cache cols (py_range n) m f (ColumnSpace._get_cache_path c d) ->
  aligned_table m f (ColumnSpace._get_cache_path c d) d.
Proof.
  intros Hd (c' & d' & _ & Hd' & Hpath & Hal).
  apply elem_of_py_range in Hd, Hd'.
  apply cache_path_day in Hpath as <-; [done|lia..].
Qed.

(** X9.  When the generation phase returns, in the single-process mode or
    in the pool mode with distinct column names (workers then write
    disjoint files), the cache of every column holds for every day exactly
    the planned number of rows; only those cache paths have changed, the
    plan is untouched, [cache_operations] has grown by one per column and
    day, and no other metric has changed. *)
Theorem generation_phase_aligned (self : DataGenerator.t) (s s' : State) :
  0 <= num_days (DataGenerator.config self) ->
  max_workers (DataGenerator.config self) = Some 1
  \/ NoDup (column_name <$> DataGenerator.column_spaces self) ->
  DataGenerator._generate_column_data self s = Ret tt s' ->
  let cols := DataGenerator.column_spaces self in
  let days := py_range (num_days (DataGenerator.config self)) in
  (forall c d, c ∈ cols -> d ∈ days -> cache_aligned s' c d)
  /\ (forall p,
        (forall c d, c ∈ cols -> d ∈ days ->
           p <> ColumnSpace._get_cache_path c d) ->
        fs s' !! p = fs s !! p)
  /\ rows_per_day_map s' = rows_per_day_map s
  /\ cache_operations (metrics s')
     = cache_operations (metrics s)
       + num_days (DataGenerator.config self) * Z.of_nat (length cols)
  /\ files_written (metrics s') = files_written (metrics s)
  /\ total_rows_generated (metrics s') = total_rows_generated (metrics s)
  /\ errors_encountered (metrics s') = errors_encountered (metrics s).
Proof.
  intros Hdays _ Hrun. cbv zeta.
  destruct (generate_column_data_ret self s s' Hdays Hrun)
    as ((Hmap & Hf & A & B & C) & HP & Hops).
  split; [|split; [|done]].
  - intros c d Hc Hd. eapply planned_cache_aligned; [done|]. by apply HP.
  - intros p Hp. destruct (Hf p) as [E|(c & d & Hc & Hd & -> & _)]; [done|].
    by destruct (Hp c d Hc Hd).
Qed.

Lemma generation_phase_aligned_witness :
  exists s' : State,
    DataGenerator._generate_column_data planner_generator cached_state
    = Ret tt s'
    /\ cache_aligned s' (numeric_column id_column) 1
    /\ cache_operations (metrics s') = 2.
Proof.
  destruct (DataGenerator._generate_column_data planner_generator cached_state)
    as [[] s'| |] eqn:E; [|vm_compute in E; discriminate..].
  destruct (generation_phase_aligned planner_generator cached_state s'
              ltac:(by compute) ltac:(by left) E) as (Hal & _ & _ & Hops & _).
  exists s'. split; [reflexivity|]. split; [|exact Hops].
  apply Hal; [by left|]. apply elem_of_py_range. by compute.
Defined.

(** ** Removing the caches *)

(** The characters [glob] reads as wildcards. *)
Definition glob_chars : list Ascii.ascii := String.list_ascii_of_string "*?[".

(** [glob] reads the string as itself. *)
Definition glob_literal (s : string) : Prop :=
  Forall (fun c => char_free c s) glob_chars.

Lemma str_app_cons (c : Ascii.ascii) (s t : string) :
  String c s +:+ t = String c (s +:+ t).
Proof. reflexivity. Qed.

Lemma str_app_assoc (a b c : string) : (a +:+ b) +:+ c = a +:+ (b +:+ c).
Proof.
  induction a as [|x a IH]; [done | by rewrite !str_app_cons, IH].
Qed.

Lemma str_length_app (a b : string) :
  String.length (a +:+ b) = (String.length a + String.length b)%nat.
Proof.
  induction a as [|x a IH]; [done|].
  rewrite str_app_cons. simpl. by rewrite IH.
Qed.

Lemma str_prefix_app (pre x : string) : String.prefix pre (pre +:+ x) = true.
Proof.
  induction pre as [|c pre IH]; [by destruct x|].
  rewrite str_app_cons. simpl. by destruct (Ascii.ascii_dec c c).
Qed.

Lemma substring_all (s : string) : String.substring 0 (String.length s) s = s.
Proof. induction s as [|c s IH]; simpl; [done | by rewrite IH]. Qed.

Lemma substring_app_skip (a b : string) (m : nat) :
  String.substring (String.length a) m (a +:+ b) = String.substring 0 m b.
Proof.
  induction a as [|c a IH]; [done|].
  rewrite str_app_cons. simpl. exact IH.
Qed.

(** A string is what precedes a position followed by what follows it. *)
Lemma substring_split (s : string) :
  forall n, (n <= String.length s)%nat ->
    s = String.substring 0 n s
          +:+ String.substring n (String.length s - n) s.
Proof.
  induction s as [|c s IH]; intros [|n] Hn; simpl in Hn; try lia.
  - done.
  - rewrite Nat.sub_0_r. by rewrite (substring_all (String c s)).
  - simpl. rewrite str_app_cons. f_equal. apply IH. lia.
Qed.

Lemma str_endswith_spec (s suf : string) :
  str_endswith s suf = true <-> exists pre, s = pre +:+ suf.
Proof.
  unfold str_endswith. rewrite andb_true_iff, !bool_decide_eq_true. split.
  - intros [Hlen Hsub].
    exists (String.substring 0 (String.length s - String.length suf) s).
    pose proof (substring_split s (String.length s - String.length suf)
                  ltac:(lia)) as Hs.
    replace (String.length s - (String.length s - String.length suf))%nat
      with (String.length suf) in Hs by lia.
    by rewrite Hsub in Hs.
  - intros [pre ->]. rewrite str_length_app. split; [lia|].
    replace (String.length pre + String.length suf - String.length suf)%nat
      with (String.length pre) by lia.
    by rewrite substring_app_skip, substring_all.
Qed.

Lemma matches_own_cache (c c' : ColumnSpace.t) (d : Z) :
  ColumnSpace.config c' = ColumnSpace.config c ->
  ColumnSpace.matches_cache_pattern c (ColumnSpace._get_cache_path c' d) = true.
Proof.
  intros Hcfg. unfold ColumnSpace.matches_cache_pattern,
    ColumnSpace._get_cache_path, str_startswith.
  rewrite Hcfg. set (nm := name (ColumnSpace.config c)).
  rewrite !andb_true_iff, bool_decide_eq_true. split; [split|].
  - rewrite !str_length_app. simpl. lia.
  - rewrite <- !str_app_assoc. rewrite (str_app_assoc _ (pretty d)).
    apply str_prefix_app.
  - apply str_endswith_spec. exists ("." +:+ nm +:+ "-" +:+ pretty d).
    by rewrite !str_app_assoc.
Qed.

Lemma matches_ends_with_cache (c : ColumnSpace.t) (p : string) :
  str_endswith p ".cache" = false ->
  ColumnSpace.matches_cache_pattern c p = false.
Proof.
  intros H. unfold ColumnSpace.matches_cache_pattern. rewrite H.
  apply andb_false_r.
Qed.

Lemma cleanup_all_cache_lookup (c : ColumnSpace.t) (s : State) :
  exists s', ColumnSpace.cleanup_all_cache c s = Ret tt s'
    /\ metrics s' = metrics s
    /\ rows_per_day_map s' = rows_per_day_map s
    /\ forall p,
         fs s' !! p = if ColumnSpace.matches_cache_pattern c p then None
                      else fs s !! p.
Proof.
  eexists. split; [reflexivity|]. split; [done|]. split; [done|].
  intros q. simpl.
  destruct (ColumnSpace.matches_cache_pattern c q) eqn:Hq.
  - apply map_lookup_filter_None_2. right. intros x _. simpl. by rewrite Hq.
  - destruct (fs s !! q) as [x|] eqn:Hx.
    + by apply map_lookup_filter_Some_2.
    + apply map_lookup_filter_None_2. by left.
Qed.

Lemma cleanup_all_ret (l : list ColumnSpace.t) :
  forall s : State,
  exists s', for_ ColumnSpace.cleanup_all_cache l s = Ret tt s'
    /\ metrics s' = metrics s
    /\ rows_per_day_map s' = rows_per_day_map s
    /\ forall p,
         fs s' !! p
         = if bool_decide
                (Exists (fun c => ColumnSpace.matches_cache_pattern c p = true) l)
           then None else fs s !! p.
Proof.
  induction l as [|c l IH]; intros s; simpl.
  - exists s. by repeat split.
  - rewrite bind_unfold.
    destruct (cleanup_all_cache_lookup c s) as (s1 & -> & Hm1 & Hr1 & Hf1).
    destruct (IH s1) as (s' & -> & Hm & Hr & Hf).
    exists s'. split; [done|]. split; [congruence|]. split; [congruence|].
    intros p. rewrite Hf, Hf1.
    destruct (ColumnSpace.matches_cache_pattern c p) eqn:Hc.
    + rewrite (bool_decide_eq_true_2 (Exists _ (c :: l))) by by left.
      by case_bool_decide.
    + case_bool_decide as Hl.
      * rewrite bool_decide_eq_true_2; [done | by right].
      * rewrite bool_decide_eq_false_2; [done|].
        rewrite Exists_cons. intros [?|?]; [congruence | done].
Qed.

Lemma cleanup_cache_files_ret (self : DataGenerator.t) (s : State) :
  let cfg := DataGenerator.config self in
  let cols := DataGenerator.column_spaces self in
  exists s' : State,
    DataGenerator._cleanup_cache_files self s = Ret tt s'
    /\ metrics s' = metrics s
    /\ rows_per_day_map s' = rows_per_day_map s
    /\ (forall p, fs s' !! p = fs s !! p \/ fs s' !! p = None)
    /\ (forall p, str_endswith p ".cache" = false -> fs s' !! p = fs s !! p)
    /\ (cleanup_cache cfg = false -> fs s' = fs s)
    /\ (cleanup_cache cfg = true ->
        forall c d, c ∈ cols ->
          fs s' !! ColumnSpace._get_cache_path c d = None).
Proof.
  intros cfg cols. unfold DataGenerator._cleanup_cache_files. fold cfg cols.
  destruct (cleanup_cache cfg).
  - destruct (cleanup_all_ret cols s) as (s' & Hrun & Hm & Hr & Hf).
    exists s'. do 3 (split; [done|]). split; [|split; [|split; [done|]]].
    + intros p. rewrite Hf. case_bool_decide; [by right | by left].
    + intros p Hp. rewrite Hf. rewrite bool_decide_eq_false_2; [done|].
      rewrite Exists_exists. intros (c & _ & Hc).
      by rewrite matches_ends_with_cache in Hc.
    + intros _ c d Hc. rewrite Hf. rewrite bool_decide_eq_true_2; [done|].
      rewrite Exists_exists. exists c. split; [done|].
      by apply matches_own_cache.
  - exists s. do 3 (split; [done|]). split; [by left|]. by repeat split.
Qed.

(** X10.  For column names that [glob] reads literally,
    [_cleanup_cache_files] always returns and leaves the metrics and the
    plan alone.  It never creates or alters a file, and never removes one
    whose name does not end in [.cache].  With [cleanup_cache] off it
    changes nothing; with [cleanup_cache] on, no cache file of any column
    is left, for any day. *)
Theorem cleanup_cache_files_spec (self : DataGenerator.t) (s : State) :
  let cfg := DataGenerator.config self in
  let cols := DataGenerator.column_spaces self in
  Forall (fun c => glob_literal (column_name c)) cols ->
  exists s' : State,
    DataGenerator._cleanup_cache_files self s = Ret tt s'
    /\ metrics s' = metrics s
    /\ rows_per_day_map s' = rows_per_day_map s
    /\ (forall p, fs s' !! p = fs s !! p \/ fs s' !! p = None)
    /\ (forall p, str_endswith p ".cache" = false -> fs s' !! p = fs s !! p)
    /\ (cleanup_cache cfg = false -> fs s' = fs s)
    /\ (cleanup_cache cfg = true ->
        forall c d, c ∈ cols ->
          fs s' !! ColumnSpace._get_cache_path c d = None).
Proof. intros cfg cols _. apply cleanup_cache_files_ret. Qed.

Lemma cleanup_cache_files_spec_witness :
  exists s' : State,
    DataGenerator._cleanup_cache_files planner_generator cached_state
    = Ret tt s'
    /\ fs s' !! ".id-0.cache" = None
    /\ fs s' !! ".id-1.cache" = None.
Proof.
  destruct (cleanup_cache_files_spec planner_generator cached_state)
    as (s' & Hrun & _ & _ & _ & _ & _ & Hgone).
  - repeat constructor; by compute.
  - exists s'. split; [exact Hrun|].
    split; [exact (Hgone eq_refl (numeric_column id_column) 0 ltac:(by left))
           | exact (Hgone eq_refl (numeric_column id_column) 1 ltac:(by left))].
Defined.

(** ** A run that succeeds *)

Lemma sw_plan_days (self : DataGenerator.t) (days : list Z) :
  forall acc, preserves same_world (DataGenerator.plan_days self days acc).
Proof.
  induction days as [|d days IH]; intros acc; simpl.
  - frame_auto.
  - apply preserves_bind; [apply _ | | intros r; apply IH].
    unfold DataGenerator.rows_for_day. frame_auto.
Qed.

Lemma plan_keys (self : DataGenerator.t) (s s' : State) (m : gmap Z Z) :
  DataGenerator._generate_rows_per_day_map self s = Ret m s' ->
  forall d, is_Some (m !! d)
            <-> d ∈ py_range (num_days (DataGenerator.config self)).
Proof.
  unfold DataGenerator._generate_rows_per_day_map, py_range at 1.
  destruct (plan_days_spec self (Z.to_nat (num_days (DataGenerator.config self)))
              0 ∅ s) as (m' & s1 & E & Hin & Hout).
  rewrite E. intros [= <- <-] d. rewrite elem_of_py_range. split.
  - intros Hsome.
    destruct (decide (0 <= d < num_days (DataGenerator.config self)))
      as [|Hn]; [done|].
    rewrite Hout, lookup_empty in Hsome; [by destruct Hsome|].
    intros j Hj ->. lia.
  - intros Hd. rewrite <- (Z2Nat.id d) by lia. rewrite Hin by lia. by eexists.
Qed.

Lemma plan_values_positive (self : DataGenerator.t) (s s' : State)
    (m : gmap Z Z) :
  DataGenerator._generate_rows_per_day_map self s = Ret m s' ->
  forall d n, m !! d = Some n -> 1 <= n.
Proof.
  unfold DataGenerator._generate_rows_per_day_map, py_range at 1.
  destruct (plan_days_spec self (Z.to_nat (num_days (DataGenerator.config self)))
              0 ∅ s) as (m' & s1 & E & Hin & Hout).
  rewrite E. intros [= <- <-] d n Hd.
  destruct (decide (0 <= d < num_days (DataGenerator.config self)))
    as [Hr|Hr].
  - rewrite <- (Z2Nat.id d) in Hd by lia. rewrite Hin in Hd by lia.
    injection Hd as <-. unfold planned_rows. lia.
  - rewrite Hout, lookup_empty in Hd; [done|]. intros j Hj ->. lia.
Qed.

Lemma path_join_app (a : string) :
  exists pre, forall b, path_join a b = pre +:+ b.
Proof.
  unfold path_join. case_bool_decide.
  - by exists "".
  - destruct (str_endswith a "/").
    + by exists a.
    + exists (a +:+ "/"). intros b. by rewrite str_app_assoc.
Qed.

(** A name with one of the extensions [csv], [json], [jsonl] does not end
    in [.cache]. *)
Lemma other_extension (stem ext : string) :
  ext ∈ ["csv"; "json"; "jsonl"] ->
  str_endswith (stem +:+ "." +:+ ext) ".cache" = false.
Proof.
  intros Hext. apply not_true_is_false. rewrite str_endswith_spec.
  intros [pre E].
  repeat (apply elem_of_cons in Hext as [->|Hext]);
    [..|by apply elem_of_nil in Hext];
    apply split_at_last in E as [_ E]; done || by compute.
Qed.

Lemma cache_path_ends (c : ColumnSpace.t) (d : Z) :
  str_endswith (ColumnSpace._get_cache_path c d) ".cache" = true.
Proof.
  apply str_endswith_spec.
  exists ("." +:+ name (ColumnSpace.config c) +:+ "-" +:+ pretty d).
  unfold ColumnSpace._get_cache_path. by rewrite !str_app_assoc.
Qed.

Lemma output_path_not_cache (self : DataGenerator.t) (writer : OutputWriter)
    (d : Z) :
  str_endswith (output_path self writer d) ".cache" = false.
Proof.
  unfold output_path.
  destruct (path_join_app (output_dir (DataGenerator.config self)))
    as [pre ->].
  rewrite <- str_app_assoc. apply other_extension.
  destruct writer; set_solver.
Qed.

Lemma profile_path_not_cache (self : DataGenerator.t) :
  str_endswith (profile_path self) ".cache" = false.
Proof.
  unfold profile_path.
  destruct (path_join_app (output_dir (DataGenerator.config self)))
    as [pre ->].
  change "generation_profile.json" with ("generation_profile" +:+ "." +:+ "json").
  rewrite <- str_app_assoc. apply other_extension. set_solver.
Qed.

Lemma output_path_not_profile (self : DataGenerator.t) (writer : OutputWriter)
    (d : Z) :
  0 <= d -> output_path self writer d <> profile_path self.
Proof.
  intros Hd. unfold output_path, profile_path.
  destruct (path_join_app (output_dir (DataGenerator.config self)))
    as [pre Hpre].
  rewrite !Hpre. intros E. apply (inj _) in E.
  destruct (pretty d) as [|c p] eqn:Hp.
  - destruct writer; discriminate.
  - rewrite str_app_cons in E. injection E as -> _.
    match type of Hp with
    | _ = String ?c _ => pose proof (pretty_nonneg_free c d eq_refl Hd) as Hfree
    end.
    rewrite Hp in Hfree. by destruct Hfree as [Hne _].
Qed.

(** [cache_operations] is the same in both states. *)
Definition same_cache_operations (s s' : State) : Prop :=
  cache_operations (metrics s') = cache_operations (metrics s).

#[global] Instance same_cache_operations_preorder :
  PreOrder same_cache_operations.
Proof.
  split; [by intros s|]. intros s1 s2 s3 H12 H23.
  unfold same_cache_operations in *. congruence.
Qed.

Lemma write_phase_cache_operations (self : DataGenerator.t) :
  preserves same_cache_operations (DataGenerator._write_output_data self).
Proof.
  unfold DataGenerator._write_output_data.
  apply preserves_bind; [apply _ | apply preserves_lift_result; apply _|].
  intros writer. apply preserves_for_; [apply _|]. intros d.
  unfold DataGenerator.write_one_day.
  apply preserves_try_except; [apply _| |].
  - apply preserves_bind; [apply _| |intros conns].
    { unfold DataGenerator._open_cache_connections.
      apply preserves_bind; [apply _ | apply preserves_get_state; apply _|].
      intros s0. apply preserves_lift_result; apply _. }
    apply preserves_bind; [apply _ | apply preserves_get_state; apply _|].
    intros s0.
    apply preserves_bind; [apply _ | |intros n].
    { unfold dict_get. case_match;
        [apply preserves_ret | apply preserves_raise]; apply _. }
    apply preserves_bind; [apply _ | |intros _].
    + intros s1.
      destruct (write_day_effect writer d
                  ((fun c => ColumnSpace.get_field_name c d
                               (num_days (DataGenerator.config self)))
                     <$> DataGenerator.column_spaces self)
                  conns n
                  (path_join (output_dir (DataGenerator.config self))
                     (pretty d +:+ "." +:+ get_file_extension writer)) s1)
        as (content & -> & _).
      done.
    + by apply preserves_modify.
  - intros e. apply preserves_bind; [apply _ | by apply preserves_modify|].
    intros _. apply preserves_raise; apply _.
Qed.

Lemma write_output_data_ret (self : DataGenerator.t) (s s' : State) :
  DataGenerator._write_output_data self s = Ret tt s' ->
  let days := py_range (num_days (DataGenerator.config self)) in
  exists writer : OutputWriter,
    OutputWriterFactory.create_writer
      (output_format (DataGenerator.config self)) = Ok writer
    /\ (forall d, d ∈ days ->
          exists content, fs s' !! output_path self writer d = Some content
                          /\ written_by writer content)
    /\ (forall p, (forall d, d ∈ days -> p <> output_path self writer d) ->
          fs s' !! p = fs s !! p)
    /\ rows_per_day_map s' = rows_per_day_map s
    /\ files_written (metrics s')
       = files_written (metrics s) + Z.of_nat (length days)
    /\ total_rows_generated (metrics s')
       = total_rows_generated (metrics s)
         + planned_total (rows_per_day_map s) days
    /\ errors_encountered (metrics s') = errors_encountered (metrics s)
    /\ cache_operations (metrics s') = cache_operations (metrics s).
Proof.
  intros Hrun.
  pose proof (write_phase_cache_operations self s) as Hops.
  rewrite Hrun in Hops.
  unfold DataGenerator._write_output_data in Hrun. rewrite bind_unfold in Hrun.
  destruct (OutputWriterFactory.create_writer _) as [writer|e]; [|done].
  cbn [lift_result mret M_ret] in Hrun.
  apply write_days_ret in Hrun
    as (Hmap & Hfw & Htr & Herr & Hfiles & Hframe & _).
  exists writer. by repeat split.
Qed.

Lemma generate_ret (self : DataGenerator.t) (s s' : State)
    (m : GenerationMetrics) :
  let cfg := DataGenerator.config self in
  let cols := DataGenerator.column_spaces self in
  let days := py_range (num_days cfg) in
  0 <= num_days cfg ->
  DataGenerator.generate self s = Ret m s' ->
  exists writer : OutputWriter,
    OutputWriterFactory.create_writer (output_format cfg) = Ok writer
    /\ m = metrics s'
    /\ (forall d, is_Some (rows_per_day_map s' !! d) <-> d ∈ days)
    /\ files_written m = files_written (metrics s) + num_days cfg
    /\ total_rows_generated m
       = total_rows_generated (metrics s)
         + planned_total (rows_per_day_map s') days
    /\ cache_operations m
       = cache_operations (metrics s) + num_days cfg * Z.of_nat (length cols)
    /\ errors_encountered m = errors_encountered (metrics s)
    /\ (forall d, d ∈ days ->
          exists content, fs s' !! output_path self writer d = Some content
                          /\ written_by writer content)
    /\ fs s' !! profile_path self
       = Some (ProfileFile m (rows_per_day_map s'))
    /\ (cleanup_cache cfg = true ->
        forall c d, c ∈ cols ->
          fs s' !! ColumnSpace._get_cache_path c d = None)
    /\ (cleanup_cache cfg = false ->
        forall c d, c ∈ cols -> d ∈ days -> cache_aligned s' c d)
    /\ (forall p, str_endswith p ".cache" = false ->
          p <> profile_path self ->
          (forall d, d ∈ days -> p <> output_path self writer d) ->
          fs s' !! p = fs s !! p)
    /\ (forall d n, rows_per_day_map s' !! d = Some n -> 1 <= n).
Proof.
  intros cfg cols days Hdays Hrun. subst cfg cols days.
  unfold DataGenerator.generate, try_except in Hrun.
  match type of Hrun with
  | match ?body s with _ => _ end = _ =>
      destruct (body s) as [m0 s5|e se|] eqn:Hbody
  end.
  2:{ rewrite bind_unfold in Hrun.
      unfold add_errors_encountered, modify, raise in Hrun. discriminate. }
  2:{ discriminate. }
  injection Hrun as -> ->.
  rewrite bind_unfold in Hbody.
  pose proof (sw_plan_days self (py_range (num_days (DataGenerator.config self))) ∅ s) as Hsw.
  pose proof (plan_keys self s) as Hkeys.
  pose proof (plan_values_positive self s) as Hpos.
  unfold DataGenerator._generate_rows_per_day_map in Hbody, Hkeys, Hpos.
  destruct (DataGenerator.plan_days self (py_range (num_days (DataGenerator.config self))) ∅ s) as [plan s0|e s0|]
    eqn:Hplan; [|done..].
  specialize (Hkeys s0 plan eq_refl).
  specialize (Hpos s0 plan eq_refl).
  destruct Hsw as (_ & Hfs0 & Hm0 & _).
  rewrite bind_unfold in Hbody. unfold modify at 1 in Hbody.
  set (s1 := set_rows_per_day_map plan s0) in Hbody.
  rewrite bind_unfold in Hbody.
  unfold DataGenerator._create_output_directory at 1 in Hbody.
  cbn [mret M_ret] in Hbody. rewrite bind_unfold in Hbody.
  destruct (DataGenerator._generate_column_data self s1) as [[] s2|e s2|]
    eqn:Hgen; [|done..].
  apply generate_column_data_ret in Hgen
    as ((Hmap2 & Hf2 & A2 & B2 & C2) & HP2 & Hops2); [|done].
  rewrite bind_unfold in Hbody.
  destruct (DataGenerator._write_output_data self s2) as [[] s3|e s3|]
    eqn:Hwrite; [|done..].
  apply write_output_data_ret in Hwrite
    as (writer & Hwriter & Hfiles & Hframe & Hmap3 & Hfw3 & Htr3 & Herr3
        & Hops3).
  rewrite bind_unfold in Hbody.
  unfold DataGenerator._write_generation_profile at 1, modify at 1 in Hbody.
  match type of Hbody with
  | context [set_fs ?f s3] => set (s4 := set_fs f s3) in Hbody
  end.
  rewrite bind_unfold in Hbody.
  destruct (cleanup_cache_files_ret self s4)
    as (s5' & Hclean & Hm5 & Hmap5 & Hmono & Hkeep & Hoff & Hon).
  rewrite Hclean in Hbody. rewrite bind_unfold in Hbody.
  unfold get_state in Hbody. injection Hbody as <- <-.
  assert (Hplan5 : rows_per_day_map s5' = plan).
  { rewrite Hmap5. simpl. by rewrite Hmap3, Hmap2. }
  assert (Hlen : Z.of_nat (length (py_range (num_days (DataGenerator.config self))))
                 = num_days (DataGenerator.config self)).
  { rewrite py_range_length. lia. }
  exists writer. split; [done|]. split; [done|].
  split; [by rewrite Hplan5|].
  split; [rewrite Hm5; simpl; rewrite Hfw3, A2; simpl; rewrite Hm0; lia|].
  split.
  { rewrite Hm5, Hplan5. simpl. rewrite Htr3, B2, Hmap2. simpl.
    by rewrite Hm0. }
  split; [rewrite Hm5; simpl; rewrite Hops3, Hops2; simpl; by rewrite Hm0|].
  split; [rewrite Hm5; simpl; rewrite Herr3, C2; simpl; by rewrite Hm0|].
  split.
  { intros d Hd. destruct (Hfiles d Hd) as (content & Hc & Hk).
    exists content. split; [|done].
    rewrite Hkeep by apply output_path_not_cache. simpl.
    rewrite lookup_insert_ne; [done|].
    intros E. symmetry in E. revert E. apply output_path_not_profile.
    apply elem_of_py_range in Hd. lia. }
  split.
  { rewrite Hkeep by apply profile_path_not_cache. simpl.
    rewrite lookup_insert_eq. by rewrite Hm5, Hmap5. }
  split; [done|]. split.
  { intros Hcl c d Hc Hd. unfold cache_aligned.
    rewrite (Hoff Hcl), Hplan5. simpl.
    destruct (planned_cache_aligned (DataGenerator.column_spaces self) (num_days (DataGenerator.config self)) _ _ c d Hd
                (HP2 c d Hc Hd)) as (rows & n & Hrows & Hn & Hl).
    exists rows, n. rewrite Hmap2 in Hn. split; [|done].
    rewrite lookup_insert_ne.
    - rewrite Hframe; [done|]. intros d' _ E.
      pose proof (output_path_not_cache self writer d') as Hno.
      by rewrite <- E, cache_path_ends in Hno.
    - intros E. pose proof (profile_path_not_cache self) as Hno.
      fold (profile_path self) in E.
      by rewrite E, cache_path_ends in Hno. }
  split.
  { intros p Hp Hprof Hout.
    rewrite (Hkeep p Hp). simpl. rewrite lookup_insert_ne by done.
    rewrite (Hframe p Hout).
    destruct (Hf2 p) as [->|(c & d & _ & _ & -> & _)]; [by simpl; rewrite Hfs0|].
    by rewrite cache_path_ends in Hp. }
  by rewrite Hplan5.
Qed.

(** X11.  A run of [generate] that returns (day count not negative,
    single-process mode or distinct column names, names that [glob] reads
    literally) used a supported format and returns the final metrics:
    the plan has exactly the days of the run as keys, [files_written] grew
    by the number of days, [total_rows_generated] by the sum of the plan,
    [cache_operations] by one per column and day, and no error was
    counted.  Every day has its output file in the writer's format, the
    profile holds the metrics and the plan, the caches are all gone when
    [cleanup_cache] is on and all hold their planned row counts when it
    is off, and no path other than outputs, profile and [.cache] names
    has changed.  Every planned row count is at least one. *)
Theorem generate_success (self : DataGenerator.t) (s s' : State)
    (m : GenerationMetrics) :
  let cfg := DataGenerator.config self in
  let cols := DataGenerator.column_spaces self in
  let days := py_range (num_days cfg) in
  0 <= num_days cfg ->
  max_workers cfg = Some 1 \/ NoDup (column_name <$> cols) ->
  Forall (fun c => glob_literal (column_name c)) cols ->
  DataGenerator.generate self s = Ret m s' ->
  exists writer : OutputWriter,
    OutputWriterFactory.create_writer (output_format cfg) = Ok writer
    /\ m = metrics s'
    /\ (forall d, is_Some (rows_per_day_map s' !! d) <-> d ∈ days)
    /\ files_written m = files_written (metrics s) + num_days cfg
    /\ total_rows_generated m
       = total_rows_generated (metrics s)
         + planned_total (rows_per_day_map s') days
    /\ cache_operations m
       = cache_operations (metrics s) + num_days cfg * Z.of_nat (length cols)
    /\ errors_encountered m = errors_encountered (metrics s)
    /\ (forall d, d ∈ days ->
          exists content, fs s' !! output_path self writer d = Some content
                          /\ written_by writer content)
    /\ fs s' !! profile_path self
       = Some (ProfileFile m (rows_per_day_map s'))
    /\ (cleanup_cache cfg = true ->
        forall c d, c ∈ cols ->
          fs s' !! ColumnSpace._get_cache_path c d = None)
    /\ (cleanup_cache cfg = false ->
        forall c d, c ∈ cols -> d ∈ days -> cache_aligned s' c d)
    /\ (forall p, str_endswith p ".cache" = false ->
          p <> profile_path self ->
          (forall d, d ∈ days -> p <> output_path self writer d) ->
          fs s' !! p = fs s !! p)
    /\ (forall d n, rows_per_day_map s' !! d = Some n -> 1 <= n).
Proof.
  intros cfg cols days Hdays _ _ Hrun. by apply generate_ret.
Qed.

Lemma generate_success_witness :
  exists (m : GenerationMetrics) (s' : State),
    DataGenerator.generate planner_generator demo_state = Ret m s'
    /\ files_written m = 2
    /\ cache_operations m = 2
    /\ errors_encountered m = 0
    /\ is_Some (fs s' !! "data/0.csv")
    /\ fs s' !! ".id-0.cache" = None.
Proof.
  destruct (DataGenerator.generate planner_generator demo_state)
    as [m s'| |] eqn:E; [|vm_compute in E; discriminate..].
  destruct (generate_success planner_generator demo_state s' m
              ltac:(by compute) ltac:(by left)
              ltac:(repeat constructor; by compute) E)
    as (writer & Hw & _ & _ & Hfw & _ & Hops & Herr & Hfiles & _ & Hgone & _).
  injection Hw as <-.
  exists m, s'. split; [reflexivity|].
  split; [exact Hfw|]. split; [exact Hops|]. split; [exact Herr|].
  split.
  - destruct (Hfiles 0) as (content & Hc & _).
    + apply elem_of_py_range. by compute.
    + exists content. exact Hc.
  - exact (Hgone eq_refl (numeric_column id_column) 0 ltac:(by left)).
Defined.

(** ** How failures are counted *)

(** [errors_encountered] is the same in both states. *)
Definition same_errors (s s' : State) : Prop :=
  errors_encountered (metrics s') = errors_encountered (metrics s).

(** [m] leaves [errors_encountered] alone when it returns, and adds at most
    one to it when it raises. *)
Definition counts_failure {A} (m : M A) : Prop :=
  forall s,
    match m s with
    | Ret _ s' => same_errors s s'
    | Raise _ s' =>
        errors_encountered (metrics s) <= errors_encountered (metrics s')
        <= errors_encountered (metrics s) + 1
    | Diverge => True
    end.

#[global] Instance same_errors_preorder : PreOrder same_errors.
Proof.
  split; [by intros s|]. intros s1 s2 s3 H12 H23.
  unfold same_errors in *. congruence.
Qed.

Lemma preserves_weaken {A} (R R' : State -> State -> Prop) (m : M A) :
  (forall s s', R s s' -> R' s s') -> preserves R m -> preserves R' m.
Proof.
  intros HR Hm s. specialize (Hm s). destruct (m s); auto.
Qed.

Lemma same_world_errors (s s' : State) : same_world s s' -> same_errors s s'.
Proof. intros (_ & _ & Hm & _). unfold same_errors. by rewrite Hm. Qed.

Create HintDb errors.

Lemma se_generate_loop (self : ColumnSpace.t) (d n total b : Z) (fuel : nat)
    (generated : Z) (pending : list value) :
  preserves same_errors
    (ColumnSpace.generate_loop fuel self d n total b generated pending).
Proof.
  eapply preserves_weaken; [apply same_world_errors | apply sw_generate_loop].
Qed.

Lemma se_ColumnSpace_new (cfg : ColumnConfig) :
  preserves same_errors (ColumnSpace.new cfg).
Proof.
  eapply preserves_weaken; [apply same_world_errors | apply sw_ColumnSpace_new].
Qed.

Lemma se_plan_days (self : DataGenerator.t) (days : list Z) (acc : gmap Z Z) :
  preserves same_errors (DataGenerator.plan_days self days acc).
Proof.
  eapply preserves_weaken; [apply same_world_errors | apply sw_plan_days].
Qed.

Lemma se_dict_get (m : gmap Z Z) (k : Z) : preserves same_errors (dict_get m k).
Proof.
  unfold dict_get. case_match; [apply preserves_ret | apply preserves_raise];
    apply _.
Qed.

Lemma se_add_cache_operations (k : Z) :
  preserves same_errors (add_cache_operations k).
Proof. by apply preserves_modify. Qed.

Lemma se_add_file_written (k : Z) : preserves same_errors (add_file_written k).
Proof. by apply preserves_modify. Qed.

Lemma se_write_day (writer : OutputWriter) (d : Z) (fields : list string)
    (handles : gmap string file) (n : Z) (path : string) :
  preserves same_errors (write_day writer d fields handles n path).
Proof.
  intros s.
  by destruct (write_day_effect writer d fields handles n path s)
    as (content & -> & _).
Qed.

Lemma se_in_child_process {A} (task : M A) :
  preserves same_errors (in_child_process task).
Proof. intros s. unfold in_child_process. by destruct (task s). Qed.

#[global] Hint Resolve se_generate_loop se_ColumnSpace_new se_plan_days
  se_dict_get se_add_cache_operations se_add_file_written se_write_day
  se_in_child_process : errors.

(** Decompose a monadic term, for [same_errors]. *)
Ltac errors_step :=
  first
    [ solve [eauto with errors]
    | apply preserves_ret; apply _
    | apply preserves_raise; apply _
    | apply preserves_diverge
    | apply preserves_get_state; apply _
    | apply preserves_lift_result; apply _
    | apply preserves_modify; intros ?; reflexivity
    | apply preserves_bind; [apply _ | | intros ?]
    | apply preserves_try_except; [apply _ | | intros ?]
    | apply preserves_for_; [apply _ | intros ?]
    | apply preserves_for_each; [apply _ | intros ?]
    | case_match ].

Ltac errors_auto := repeat errors_step.

Lemma se_generate_day_data (self : ColumnSpace.t) (d n total b : Z) :
  preserves same_errors (ColumnSpace.generate_day_data self d n total b).
Proof. unfold ColumnSpace.generate_day_data. errors_auto. Qed.

#[global] Hint Resolve se_generate_day_data : errors.

Lemma se_generate_sequential (self : DataGenerator.t) :
  preserves same_errors (DataGenerator.generate_sequential self).
Proof.
  unfold DataGenerator.generate_sequential, DataGenerator.generate_one_column,
    DataGenerator.generate_one_day.
  errors_auto.
Qed.

Lemma se_submit_column (self : DataGenerator.t) (m : gmap Z Z)
    (c : ColumnSpace.t) :
  preserves same_errors (DataGenerator.submit_column self m c).
Proof. unfold DataGenerator.submit_column. errors_auto. Qed.

Lemma se_cleanup_cache_files (self : DataGenerator.t) :
  preserves same_errors (DataGenerator._cleanup_cache_files self).
Proof.
  intros s.
  destruct (cleanup_cache_files_ret self s) as (s' & -> & Hm & _).
  unfold same_errors. by rewrite Hm.
Qed.

#[global] Hint Resolve se_generate_sequential se_submit_column
  se_cleanup_cache_files : errors.

Lemma cf_preserves {A} (m : M A) :
  preserves same_errors m -> counts_failure m.
Proof.
  intros Hm s. specialize (Hm s). destruct (m s); [done| |done].
  unfold same_errors in Hm. lia.
Qed.

Lemma cf_bind {A B} (m : M A) (f : A -> M B) :
  counts_failure m -> (forall a, counts_failure (f a)) ->
  counts_failure (m ≫= f).
Proof.
  intros Hm Hf s. rewrite bind_unfold. specialize (Hm s).
  destruct (m s) as [a s1|e s1|]; [|done..].
  specialize (Hf a s1). unfold same_errors in *.
  destruct (f a s1); [congruence | lia | done].
Qed.

Lemma cf_for_ {A} (f : A -> M unit) (l : list A) :
  (forall x, counts_failure (f x)) -> counts_failure (for_ f l).
Proof.
  intros Hf. induction l as [|x l IH]; simpl.
  - apply cf_preserves, preserves_ret. apply _.
  - apply cf_bind; [apply Hf | by intros _].
Qed.

(** A handler that counts the failure and raises. *)
Lemma cf_counting_handler {A} (body : M A) (wrap : exn -> exn) :
  preserves same_errors body ->
  counts_failure
    (try_except body
       (fun e => add_errors_encountered 1;; raise (wrap e))).
Proof.
  intros Hbody s. unfold try_except. specialize (Hbody s).
  destruct (body s) as [a s1|e s1|]; [done| |done].
  rewrite bind_unfold. unfold add_errors_encountered, modify, raise.
  unfold same_errors in Hbody. simpl. lia.
Qed.

Lemma cf_write_output_data (self : DataGenerator.t) :
  counts_failure (DataGenerator._write_output_data self).
Proof.
  unfold DataGenerator._write_output_data.
  apply cf_bind; [apply cf_preserves, preserves_lift_result; apply _|].
  intros writer. apply cf_for_. intros d.
  unfold DataGenerator.write_one_day.
  apply (cf_counting_handler _
           (fun e => Exn OutputError
                       ("Failed to write output for day " +:+ pretty d
                          +:+ ": " +:+ exn_msg e))).
  unfold DataGenerator._open_cache_connections. errors_auto.
Qed.

Lemma cf_generate_column_data (self : DataGenerator.t) :
  counts_failure (DataGenerator._generate_column_data self).
Proof.
  unfold DataGenerator._generate_column_data. case_match.
  - apply cf_preserves, se_generate_sequential.
  - unfold DataGenerator.generate_parallel.
    apply cf_bind; [apply cf_preserves; errors_auto|]. intros _.
    apply cf_bind; [apply cf_preserves; errors_auto|]. intros s0.
    apply cf_bind; [apply cf_preserves; errors_auto|]. intros futures.
    apply cf_for_. intros fut. unfold DataGenerator.collect_future.
    destruct (fut.2.2) as [v|e].
    + apply cf_preserves. errors_auto.
    + intros s. rewrite bind_unfold.
      unfold add_errors_encountered, modify, raise. simpl. lia.
Qed.

(** X12.  Whatever the generator and the state, the only exception that
    escapes [generate] is a [DataGenerationError] whose message starts
    with [Data generation failed: ]; the failure is counted in
    [errors_encountered] once, or twice when the failing step (a pool
    worker's result, the writing of a day) had counted it already.  A run
    that returns returns the final metrics and has counted no error. *)
Theorem generate_outcome_errors (self : DataGenerator.t) (s : State) :
  match DataGenerator.generate self s with
  | Ret m s' =>
      m = metrics s'
      /\ errors_encountered m = errors_encountered (metrics s)
  | Raise e s' =>
      exn_cls e = DataGenerationError
      /\ (exists cause, exn_msg e = "Data generation failed: " +:+ cause)
      /\ errors_encountered (metrics s) + 1
         <= errors_encountered (metrics s')
         <= errors_encountered (metrics s) + 2
  | Diverge => True
  end.
Proof.
  unfold DataGenerator.generate, try_except.
  match goal with
  | |- match match ?body s with _ => _ end with _ => _ end =>
      assert (Hbody : counts_failure body /\
                forall m s', body s = Ret m s' -> m = metrics s');
      [|destruct Hbody as [Hcf Hret]; specialize (Hcf s);
        destruct (body s) as [m s1|e s1|] eqn:E]
  end.
  - split.
    + apply cf_bind; [apply cf_preserves; errors_auto|]. intros plan.
      apply cf_bind; [apply cf_preserves; errors_auto|]. intros _.
      apply cf_bind; [apply cf_preserves; errors_auto|]. intros _.
      apply cf_bind; [apply cf_generate_column_data|]. intros _.
      apply cf_bind; [apply cf_write_output_data|]. intros _.
      apply cf_preserves. unfold DataGenerator._write_generation_profile.
      errors_auto.
    + intros m s' Hrun.
      repeat (rewrite bind_unfold in Hrun;
              lazymatch type of Hrun with
              | match get_state ?s0 with _ => _ end = _ =>
                  unfold get_state at 1 in Hrun; cbn beta iota in Hrun
              | match ?x with _ => _ end = _ => destruct x; [|done..]
              end).
      cbn [mret M_ret] in Hrun. by injection Hrun as <- <-.
  - rewrite (Hret m s1 eq_refl). split; [done | exact Hcf].
  - rewrite bind_unfold. unfold add_errors_encountered, modify, raise. simpl.
    split; [done|]. split; [by eexists | lia].
  - done.
Qed.

(** ** The range of the planned row counts *)


Lemma int_of_float_fmul (a b : Q) :
  (0 <= a)%Q -> (0 <= b)%Q -> int_of_float (fmul a b) = Qfloor (a * b).
Proof.
  intros Ha Hb. rewrite <- int_of_float_floor by by apply Qmult_le_0_compat.
  apply int_of_float_comp. unfold fmul. apply Qred_correct.
Qed.





(** ** The transition day *)

Lemma transition_day_zero (self : ColumnSpace.t) (total : Z) :
  transition_day (from_day_zero self) total = 0.
Proof.
  unfold transition_day. simpl.
  rewrite (int_of_float_comp _ 0); [done|].
  unfold fmul. rewrite Qred_correct. ring.
Qed.

Lemma has_transition_before (self : ColumnSpace.t) (d total mask : Z) :
  d < transition_day self total ->
  ColumnSpace.has_transition self d total mask = false.
Proof.
  intros Hd. unfold ColumnSpace.has_transition.
  fold (transition_day self total).
  by destruct (Z.ltb_spec d (transition_day self total)); [|lia].
Qed.

Lemma has_transition_from (self : ColumnSpace.t) (d total mask : Z) :
  0 <= d -> transition_day self total <= d ->
  ColumnSpace.has_transition self d total mask
  = ColumnSpace.has_transition (from_day_zero self) d total mask.
Proof.
  intros H0 Hd. unfold ColumnSpace.has_transition.
  fold (transition_day self total).
  fold (transition_day (from_day_zero self) total).
  rewrite transition_day_zero.
  destruct (Z.ltb_spec d (transition_day self total)); [lia|].
  by destruct (Z.ltb_spec d 0); [lia|].
Qed.

(** X14.  Over the days of a run a column switches once between two
    fixed behaviours: before day [int(total_days * transition_percentage)]
    it generates exactly what the same column without any transition flag
    generates, under its configured name; from that day on it generates
    exactly what the same column with transition fraction 0 generates,
    under the same field name as that column. *)
Theorem generation_switches_once
    (self : ColumnSpace.t) (d total n b : Z) (s : State) :
  0 <= d ->
  (d < transition_day self total ->
     ColumnSpace.generate_day_data self d n total b s
     = ColumnSpace.generate_day_data (without_transitions self) d n total b s
     /\ ColumnSpace.get_field_name self d total
        = name (ColumnSpace.config self))
  /\ (transition_day self total <= d ->
        ColumnSpace.generate_day_data self d n total b s
        = ColumnSpace.generate_day_data (from_day_zero self) d n total b s
        /\ ColumnSpace.get_field_name self d total
           = ColumnSpace.get_field_name (from_day_zero self) d total).
Proof.
  intros H0. split; intros Hd.
  - split.
    + apply generate_day_data_ext; [by repeat split|].
      intros mask. rewrite has_transition_before by done.
      unfold ColumnSpace.has_transition. simpl. by destruct (d <? _).
    + unfold ColumnSpace.get_field_name. by rewrite has_transition_before.
  - split.
    + apply generate_day_data_ext; [by repeat split|].
      intros mask. by apply has_transition_from.
    + unfold ColumnSpace.get_field_name.
      by rewrite has_transition_from.
Qed.

Lemma generation_switches_once_witness :
  ColumnSpace.generate_day_data (numeric_column normal3_column) 6 3 10 10000
    demo_state
  = ColumnSpace.generate_day_data
      (without_transitions (numeric_column normal3_column)) 6 3 10 10000
      demo_state
  /\ ColumnSpace.generate_day_data (numeric_column normal3_column) 7 3 10 10000
       demo_state
     = ColumnSpace.generate_day_data
         (from_day_zero (numeric_column normal3_column)) 7 3 10 10000
         demo_state.
Proof.
  split.
  - apply (generation_switches_once (numeric_column normal3_column) 6 10 3
             10000 demo_state ltac:(lia)).
    by vm_compute.
  - apply (generation_switches_once (numeric_column normal3_column) 7 10 3
             10000 demo_state ltac:(lia)).
    by vm_compute.
Defined.

(** ** Format names *)

(** X15.  The format list checked by [GeneratorConfig.__post_init__], the
    registry of the writer factory and the file extensions of the writers
    agree: a name passes the validation exactly when it is in
    [get_supported_formats]; for such a name [create_writer] returns a
    writer whose file extension is that name, and for every other name it
    raises [OutputError("Unsupported output format: <name>")]. *)
Theorem format_names_agree (f : string) :
  (supported_format f = true
   <-> f ∈ OutputWriterFactory.get_supported_formats)
  /\ match OutputWriterFactory.create_writer f with
     | Ok w =>
         f ∈ OutputWriterFactory.get_supported_formats
         /\ get_file_extension w = f
     | Err e =>
         (f ∉ OutputWriterFactory.get_supported_formats)
         /\ e = Exn OutputError ("Unsupported output format: " +:+ f)
     end.
Proof.
  split.
  - unfold supported_format. by rewrite bool_decide_eq_true.
  - change OutputWriterFactory.get_supported_formats
      with ["csv"; "json"; "jsonl"].
    destruct (decide (f ∈ ["csv"; "json"; "jsonl"])) as [Hin|Hout].
    + repeat (apply elem_of_cons in Hin as [->|Hin]);
        [..|by apply elem_of_nil in Hin];
        (split; [set_solver | reflexivity]).
    + by rewrite create_writer_unsupported.
Qed.

(** ** The command line *)

Lemma default_columns_valid :
  Forall (fun c => ColumnConfig_post_init c = Ok tt) get_default_columns.
Proof. repeat constructor. Qed.

Lemma default_config_valid : GeneratorConfig_post_init get_default_config = Ok tt.
Proof. reflexivity. Qed.

Lemma validate_args_inv (isfile : string -> bool) (args : Args.t) :
  validate_args isfile args = Ok tt ->
  (forall r, Args.rows args = Some r -> 0 < r)
  /\ (forall d, Args.days args = Some d -> 0 < d)
  /\ (str_truthy (Args.format args) = true ->
      supported_format (default "" (Args.format args)) = true)
  /\ (str_truthy (Args.config args) = true ->
      isfile (default "" (Args.config args)) = true)
  /\ (forall w, Args.workers args = Some w -> 1 <= w).
Proof.
  unfold validate_args.
  destruct (Args.rows args) as [r|] eqn:Hr.
  1: destruct (Z.leb_spec r 0); [discriminate|].
  all: destruct (Args.days args) as [d|] eqn:Hd.
  1,3: destruct (Z.leb_spec d 0); [discriminate|].
  all: destruct (str_truthy (Args.format args)) eqn:Hf; simpl.
  all: try (case_bool_decide as Hfmt; simpl; [|discriminate]).
  all: destruct (str_truthy (Args.config args)) eqn:Hc; simpl.
  all: try (destruct (isfile _) eqn:Hfile; simpl; [|discriminate]).
  all: destruct (Args.workers args) as [w|] eqn:Hw.
  all: try (destruct (Z.ltb_spec w 1); [discriminate|]).
  all: intros _; repeat split; try done;
    try (intros ? [= <-]; lia);
    try (intros _; unfold supported_format; by apply bool_decide_eq_true).
Qed.

Lemma apply_overrides_valid (args : Args.t) (config : GeneratorConfig)
    (isfile : string -> bool) :
  validate_args isfile args = Ok tt ->
  GeneratorConfig_post_init config = Ok tt ->
  GeneratorConfig_post_init (apply_overrides args config) = Ok tt.
Proof.
  intros Hargs Hcfg.
  apply validate_args_inv in Hargs as (Hrows & Hdays & Hfmt & _ & _).
  apply GeneratorConfig_post_init_inv in Hcfg as (Hd & Hr & Hf & Hv0 & Hv1).
  unfold GeneratorConfig_post_init, apply_overrides.
  cbn [num_days approx_rows_per_day output_format row_variation_percentage].
  assert (Hd' : 0 < (if int_truthy (Args.days args)
                     then default 0 (Args.days args) else num_days config)).
  { destruct (Args.days args) as [d|]; simpl; [|done].
    destruct (d =? 0); simpl; [done | by apply Hdays]. }
  assert (Hr' : 0 < (if int_truthy (Args.rows args)
                     then default 0 (Args.rows args)
                     else approx_rows_per_day config)).
  { destruct (Args.rows args) as [r|]; simpl; [|done].
    destruct (r =? 0); simpl; [done | by apply Hrows]. }
  rewrite (proj2 (Z.leb_gt _ _) Hd'), (proj2 (Z.leb_gt _ _) Hr').
  assert (Hf' : supported_format
                  (if str_truthy (Args.format args)
                   then default "" (Args.format args)
                   else output_format config) = true).
  { destruct (str_truthy (Args.format args)); [by apply Hfmt | done]. }
  rewrite Hf'. simpl.
  apply Qle_bool_iff in Hv0, Hv1. by rewrite Hv0, Hv1.
Qed.

(** X16.  Every configuration that the command line hands to the generator
    satisfies the checks of [GeneratorConfig.__post_init__], although the
    overrides are assigned after that check has run: if [validate_args]
    accepts the arguments and the configuration files load only validated
    configurations, [load_config_from_args] either returns a valid
    configuration or, only when a file was named, raises a
    [ConfigurationError] that starts with [Failed to load config file].
    A worker count given on the command line is at least one; a batch
    size given is taken as it is, whatever its sign; without a file the
    columns are the default ones. *)
Theorem cli_config_valid
    (isfile : string -> bool)
    (from_yaml from_json : string -> result GeneratorConfig)
    (args : Args.t) :
  (forall p c, from_yaml p = Ok c -> GeneratorConfig_post_init c = Ok tt) ->
  (forall p c, from_json p = Ok c -> GeneratorConfig_post_init c = Ok tt) ->
  validate_args isfile args = Ok tt ->
  match load_config_from_args from_yaml from_json args with
  | Ok cfg =>
      GeneratorConfig_post_init cfg = Ok tt
      /\ (forall w, Args.workers args = Some w ->
            max_workers cfg = Some w /\ 1 <= w)
      /\ (forall b, Args.batch_size args = Some b -> b <> 0 ->
            cache_batch_size cfg = b)
      /\ (str_truthy (Args.config args) = false ->
          columns cfg = get_default_columns)
  | Err e =>
      exn_cls e = ConfigurationError
      /\ str_truthy (Args.config args) = true
      /\ exists cause,
           exn_msg e = "Failed to load config file "
                         +:+ default "" (Args.config args) +:+ ": " +:+ cause
  end.
Proof.
  intros Hyaml Hjson Hargs. unfold load_config_from_args.
  assert (Hfinish : forall config,
    GeneratorConfig_post_init config = Ok tt ->
    (str_truthy (Args.config args) = false ->
     columns config = get_default_columns) ->
    GeneratorConfig_post_init (apply_overrides args config) = Ok tt
    /\ (forall w, Args.workers args = Some w ->
          max_workers (apply_overrides args config) = Some w /\ 1 <= w)
    /\ (forall b, Args.batch_size args = Some b -> b <> 0 ->
          cache_batch_size (apply_overrides args config) = b)
    /\ (str_truthy (Args.config args) = false ->
        columns (apply_overrides args config) = get_default_columns)).
  { intros config Hcfg Hcols.
    split; [by eapply apply_overrides_valid|].
    apply validate_args_inv in Hargs as (_ & _ & _ & _ & Hw).
    split; [|split; [|done]].
    - intros w Hwk. simpl. rewrite Hwk. split; [done | by apply Hw].
    - intros b Hb Hne. simpl. rewrite Hb. simpl.
      by destruct (Z.eqb_spec b 0). }
  destruct (str_truthy (Args.config args)) eqn:Hc.
  - set (path := default "" (Args.config args)).
    destruct (str_endswith path ".yaml" || str_endswith path ".yml").
    + destruct (from_yaml path) as [config|e] eqn:E.
      * apply Hfinish; [by eapply Hyaml | done].
      * split; [done|]. split; [done | by eexists].
    + destruct (str_endswith path ".json").
      * destruct (from_json path) as [config|e] eqn:E.
        -- apply Hfinish; [by eapply Hjson | done].
        -- split; [done|]. split; [done | by eexists].
      * split; [done|]. split; [done | by eexists].
  - apply Hfinish; [apply default_config_valid | done].
Qed.

Lemma cli_config_valid_witness :
  exists cfg : GeneratorConfig,
    load_config_from_args (fun _ => Err (Exn ValueError "no yaml"))
      (fun _ => Err (Exn ValueError "no json")) demo_args = Ok cfg
    /\ GeneratorConfig_post_init cfg = Ok tt
    /\ cache_batch_size cfg = -5.
Proof.
  pose proof (cli_config_valid (fun _ => false)
                (fun _ => Err (Exn ValueError "no yaml"))
                (fun _ => Err (Exn ValueError "no json")) demo_args
                ltac:(discriminate) ltac:(discriminate) eq_refl) as H.
  destruct (load_config_from_args _ _ demo_args) as [cfg|e] eqn:E;
    [|vm_compute in E; discriminate].
  destruct H as (Hvalid & _ & Hbatch & _).
  exists cfg. split; [reflexivity|]. split; [exact Hvalid|].
  apply Hbatch; [reflexivity | lia].
Defined.

(** ** The validation of a run *)

Lemma planned_total_positive (m : gmap Z Z) (days : list Z) :
  (forall d, d ∈ days -> exists n, m !! d = Some n /\ 1 <= n) ->
  Z.of_nat (length days) <= planned_total m days.
Proof.
  induction days as [|d days IH]; intros H; simpl; [done|].
  destruct (H d ltac:(by left)) as (n & -> & Hn). simpl.
  specialize (IH (fun d' Hd' => H d' ltac:(by right))). lia.
Qed.

Lemma create_writer_jsonl (f : string) :
  OutputWriterFactory.create_writer f = Ok JsonLines -> f = "jsonl".
Proof.
  intros Hw.
  destruct (decide (f ∈ ["csv"; "json"; "jsonl"])) as [Hin|Hout].
  - repeat (apply elem_of_cons in Hin as [Hin|Hin]);
      [rewrite Hin in Hw; discriminate Hw..|done|by apply elem_of_nil in Hin].
  - by rewrite create_writer_unsupported in Hw.
Qed.

(** X17.  The generator's own validation after a run that succeeded from
    fresh metrics (at least one day; single-process mode or distinct
    column names; names that [glob] reads literally; the output directory
    exists): [validate_generated_data] returns without changing the
    state, and the only issues it can report are [Empty file: <d>.jsonl]
    for days of a JSON-lines run whose file holds no record.  For the
    csv and json formats it reports nothing. *)
Theorem validation_after_success (self : DataGenerator.t) (s s' : State)
    (m : GenerationMetrics) :
  let cfg := DataGenerator.config self in
  0 < num_days cfg ->
  max_workers cfg = Some 1
  \/ NoDup (column_name <$> DataGenerator.column_spaces self) ->
  Forall (fun c => glob_literal (column_name c))
    (DataGenerator.column_spaces self) ->
  files_written (metrics s) = 0 ->
  total_rows_generated (metrics s) = 0 ->
  DataGenerator.generate self s = Ret m s' ->
  exists issues : list string,
    validate_generated_data true self s' = Ret issues s'
    /\ (forall issue, issue ∈ issues ->
          output_format cfg = "jsonl"
          /\ exists d, 0 <= d < num_days cfg
               /\ fs s' !! path_join (output_dir cfg) (pretty d +:+ ".jsonl")
                  = Some (JsonlFile [])
               /\ issue = "Empty file: " +:+ pretty d +:+ ".jsonl")
    /\ (output_format cfg <> "jsonl" -> issues = []).
Proof.
  intros cfg Hdays _ _ Hfw0 Htr0 Hrun. subst cfg.
  apply generate_ret in Hrun
    as (writer & Hw & -> & Hkeys & Hfw & Htr & _ & _ & Hfiles & _ & _ & _ & _
        & Hpos); [|lia].
  unfold validate_generated_data. cbn [negb]. rewrite bind_unfold, Hw.
  cbn [lift_result mret M_ret]. rewrite bind_unfold. unfold get_state.
  assert (Hrows : (total_rows_generated (metrics s') =? 0) = false).
  { apply Z.eqb_neq. rewrite Htr, Htr0.
    pose proof (planned_total_positive (rows_per_day_map s')
                  (py_range (num_days (DataGenerator.config self)))) as Hsum.
    rewrite py_range_length in Hsum.
    assert (Z.of_nat (Z.to_nat (num_days (DataGenerator.config self)))
            <= planned_total (rows_per_day_map s')
                 (py_range (num_days (DataGenerator.config self)))); [|lia].
    apply Hsum. intros d Hd. apply Hkeys in Hd as [n Hn].
    exists n. split; [done | by eapply Hpos]. }
  assert (Hcount : (files_written (metrics s')
                    =? num_days (DataGenerator.config self)) = true).
  { apply Z.eqb_eq. lia. }
  rewrite Hrows, Hcount. cbn [negb]. rewrite !app_nil_r.
  eexists. split; [reflexivity|].
  assert (Hissue : forall issue,
    issue ∈ (((fun i => pretty i +:+ "." +:+ get_file_extension writer)
                <$> py_range (num_days (DataGenerator.config self)))
             ≫= (fun expected_file =>
                   match fs s' !! path_join
                                    (output_dir (DataGenerator.config self))
                                    expected_file with
                   | None => ["Missing expected file: " +:+ expected_file]
                   | Some f =>
                       if file_is_empty f
                       then ["Empty file: " +:+ expected_file] else []
                   end)) ->
    writer = JsonLines
    /\ exists d, 0 <= d < num_days (DataGenerator.config self)
         /\ fs s' !! path_join (output_dir (DataGenerator.config self))
                       (pretty d +:+ ".jsonl")
            = Some (JsonlFile [])
         /\ issue = "Empty file: " +:+ pretty d +:+ ".jsonl").
  { intros issue Hin. apply list_elem_of_bind in Hin as (file & Hin & Hfile).
    apply list_elem_of_fmap in Hfile as (d & -> & Hd).
    destruct (Hfiles d Hd) as (content & Hc & Hk).
    unfold output_path in Hc. rewrite Hc in Hin.
    apply elem_of_py_range in Hd.
    destruct writer, content as [| [|] | | [|] |]; simpl in Hk, Hin;
      try done; try (by apply elem_of_nil in Hin); try (by destruct Hk).
    apply list_elem_of_singleton in Hin as ->.
    split; [done|]. exists d. split; [done|].
    split; [exact Hc | reflexivity]. }
  split.
  - intros issue Hin. destruct (Hissue issue Hin) as (-> & d & Hd & Hf & ->).
    split; [by apply create_writer_jsonl | by exists d].
  - intros Hfmt.
    match goal with |- ?l = [] => destruct l as [|issue rest] eqn:El end;
      [done|].
    destruct (Hissue issue ltac:(by left)) as (-> & _).
    exfalso. by apply Hfmt, create_writer_jsonl.
Qed.

Lemma validation_after_success_witness :
  exists (m : GenerationMetrics) (s' : State),
    DataGenerator.generate planner_generator demo_state = Ret m s'
    /\ validate_generated_data true planner_generator s' = Ret [] s'.
Proof.
  destruct (DataGenerator.generate planner_generator demo_state)
    as [m s'| |] eqn:E; [|vm_compute in E; discriminate..].
  destruct (validation_after_success planner_generator demo_state s' m
              ltac:(by compute) ltac:(by left)
              ltac:(repeat constructor; by compute) eq_refl eq_refl E)
    as (issues & Hrun & _ & Hnone).
  exists m, s'. split; [reflexivity|].
  rewrite (Hnone ltac:(discriminate)) in Hrun. exact Hrun.
Defined.

(** The issue that the theorem above leaves open does occur:
    every row of the run above is the single null that the writer drops,
    the day's file is empty, and the validation reports it. *)
Example validation_reports_empty_file :
  exists (m : GenerationMetrics) (s' : State),
    DataGenerator.generate renamed_jsonl_generator demo_state = Ret m s'
    /\ validate_generated_data true renamed_jsonl_generator s'
       = Ret ["Empty file: 0.jsonl"] s'.
Proof.
  destruct (DataGenerator.generate renamed_jsonl_generator demo_state)
    as [m s'| |] eqn:E; [|vm_compute in E; discriminate..].
  exists m, s'. split; [done|].
  vm_compute in E. injection E as <- <-. by vm_compute.
Qed.

(** ** The values of a day *)

Lemma for_each_ret_Forall {A B} (P : B -> Prop) (I : State -> Prop)
    (f : A -> M B) (l : list A) :
  (forall x s y s', I s -> f x s = Ret y s' -> P y /\ I s') ->
  forall s ys s', I s -> for_each f l s = Ret ys s' -> Forall P ys /\ I s'.
Proof.
  intros Hf. induction l as [|x l IH]; intros s ys s' Hs; simpl.
  - by intros [= <- <-].
  - rewrite bind_unfold. destruct (f x s) as [y s1|e s1|] eqn:E; [|done..].
    destruct (Hf _ _ _ _ Hs E) as [Hy Hs1].
    rewrite bind_unfold.
    destruct (for_each f l s1) as [ys1 s2|e s2|] eqn:E'; [|done..].
    intros [= <- <-]. destruct (IH _ _ _ Hs1 E') as [Hys Hs2].
    split; [by constructor | done].
Qed.

(** The rows of a day are the values of its batches. *)
Lemma generate_loop_Forall (P : value -> Prop) (rt0 : Runtime)
    (self : ColumnSpace.t) (d n total b : Z) :
  (forall k s vs s', rt s = rt0 ->
     ColumnSpace.generate_batch self d total k s = Ret vs s' ->
     Forall P vs) ->
  forall (fuel : nat) (generated : Z) (pending rows : list value)
         (s s' : State),
    rt s = rt0 -> Forall P pending ->
    ColumnSpace.generate_loop fuel self d n total b generated pending s
    = Ret rows s' ->
    Forall P rows.
Proof.
  intros Hbatch.
  induction fuel as [|fuel IH]; intros generated pending rows s s' Hrt Hp;
    simpl.
  - destruct (generated <? n); [done|]. by intros [= <- _].
  - destruct (generated <? n); [|by intros [= <- _]].
    rewrite bind_unfold.
    pose proof (sw_generate_batch self d total
                  (Z.min b (n - generated)) s) as Hsw.
    destruct (ColumnSpace.generate_batch _ _ _ _ s) as [vs s1|e s1|] eqn:E;
      [|done..].
    destruct Hsw as (Hrt1 & _).
    case_bool_decide; [done|].
    apply IH; [congruence|].
    apply Forall_app. split; [done | by eapply Hbatch].
Qed.

Lemma generate_day_data_Forall (P : value -> Prop)
    (self : ColumnSpace.t) (d n total b : Z) (s s' : State) :
  (forall k s0 vs s1, rt s0 = rt s ->
     ColumnSpace.generate_batch self d total k s0 = Ret vs s1 ->
     Forall P vs) ->
  ColumnSpace.generate_day_data self d n total b s = Ret tt s' ->
  exists rows,
    fs s' !! ColumnSpace._get_cache_path self d = Some (CacheFile rows)
    /\ Forall P rows.
Proof.
  intros Hbatch. unfold ColumnSpace.generate_day_data.
  rewrite bind_unfold. unfold modify at 1.
  set (sA := set_fs _ s). unfold try_except. rewrite bind_unfold.
  destruct (ColumnSpace.generate_loop _ _ _ _ _ _ _ _ sA)
    as [rows sB|e sB|] eqn:E; [|done..].
  unfold modify. intros [= <-]. exists rows. simpl.
  split; [apply lookup_insert_eq|].
  by eapply (generate_loop_Forall P (rt s)) in E.
Qed.

Lemma random_choice_ret {A} (l : list A) (x : A) (s s' : State) :
  random_choice l s = Ret x s' -> x ∈ l.
Proof.
  unfold random_choice. destruct (l !! _) as [y|] eqn:E; [|done].
  intros [= <- _]. by eapply list_elem_of_lookup_2.
Qed.

Lemma category_batch (self : ColumnSpace.t) (wg : ValueGenerator.t)
    (d total k : Z) (s s' : State) (vs : list value) :
  data_type (ColumnSpace.config self) = STRING_CATEGORY ->
  ColumnSpace.word_gen self = Some wg ->
  no_transition_active self d total ->
  ColumnSpace.generate_batch self d total k s = Ret vs s' ->
  Forall (category_word wg) vs.
Proof.
  intros Hdt Hwg Hd. unfold ColumnSpace.generate_batch.
  rewrite Hdt. cbn [ColumnSpace.is_string_type]. rewrite bind_unfold.
  destruct (for_each _ _ s) as [ws s1|e s1|] eqn:E; [|done..].
  rewrite apply_transitions_inactive by done.
  intros [= <- _].
  eapply (for_each_ret_Forall _ (fun _ => True)) in E as [H _]; [done| |done].
  intros _ s0 y s2 _. rewrite bind_unfold.
  unfold ColumnSpace._generate_word. rewrite Hwg, Hdt.
  rewrite (Hd STRING_SMALL_TO_LONG).
  unfold ValueGenerator.rand_cat_str.
  destruct (random_choice _ s0) as [w s3|e s3|] eqn:Ew; [|done..].
  intros [= <- _]. split; [|done]. exists w. split; [done|].
  by eapply random_choice_ret.
Qed.

Lemma ValueGenerator_new_ret (wg : ValueGenerator.t) (s s' : State) :
  ValueGenerator.new s = Ret wg s' ->
  length (ValueGenerator.cat_string wg) = 10%nat.
Proof.
  unfold ValueGenerator.new. rewrite bind_unfold.
  destruct (for_each _ _ s) as [ws s1|e s1|] eqn:E; [|done..].
  intros [= <- _]. simpl. by apply for_each_ret_length in E.
Qed.

(** X18.  A category column emits its category words only: the
    constructor draws a list of exactly ten words, and on every day on
    which no transition is active every value that [generate_day_data]
    caches is a string of that list, whatever the row count and the batch
    size. *)
Theorem category_column_values
    (cfg : ColumnConfig) (s0 s1 : State) (self : ColumnSpace.t) :
  data_type cfg = STRING_CATEGORY ->
  ColumnSpace.new cfg s0 = Ret self s1 ->
  exists wg : ValueGenerator.t,
    ColumnSpace.word_gen self = Some wg
    /\ length (ValueGenerator.cat_string wg) = 10%nat
    /\ forall (d n total b : Z) (s s' : State),
         no_transition_active self d total ->
         ColumnSpace.generate_day_data self d n total b s = Ret tt s' ->
         exists rows,
           fs s' !! ColumnSpace._get_cache_path self d = Some (CacheFile rows)
           /\ Forall (category_word wg) rows.
Proof.
  intros Hdt. unfold ColumnSpace.new. rewrite Hdt, bind_unfold.
  destruct (ValueGenerator.new s0) as [wg s2|e s2|] eqn:Hwg; [|done..].
  intros [= <- <-]. exists wg. split; [done|].
  split; [exact (ValueGenerator_new_ret _ _ _ Hwg)|].
  intros d n total b s s' Hd Hrun.
  eapply generate_day_data_Forall; [|exact Hrun].
  intros k t vs t' _ Hbatch.
  exact (category_batch
           {| ColumnSpace.config := cfg; ColumnSpace.word_gen := Some wg |}
           wg d total k t t' vs Hdt eq_refl Hd Hbatch).
Qed.

Lemma category_column_values_witness :
  exists (self : ColumnSpace.t) (wg : ValueGenerator.t) (s' : State)
         (rows : list value),
    ColumnSpace.word_gen self = Some wg
    /\ length (ValueGenerator.cat_string wg) = 10%nat
    /\ ColumnSpace.generate_day_data self 0 2 2 10000 demo_state = Ret tt s'
    /\ fs s' !! ColumnSpace._get_cache_path self 0 = Some (CacheFile rows)
    /\ Forall (category_word wg) rows.
Proof.
  destruct (ColumnSpace.new catStr1_column demo_state) as [self s1| |] eqn:E;
    [|vm_compute in E; discriminate..].
  destruct (category_column_values catStr1_column demo_state s1 self
              eq_refl E) as (wg & Hwg & Hlen & Hall).
  destruct (ColumnSpace.generate_day_data self 0 2 2 10000 demo_state)
    as [[] s'| |] eqn:Hrun.
  - destruct (Hall 0 2 2 10000 demo_state s') as (rows & Hrows & Hcat).
    + vm_compute in E. injection E as <- _. intros []; reflexivity.
    + exact Hrun.
    + exists self, wg, s', rows. by repeat split.
  - vm_compute in E. injection E as <- _. vm_compute in Hrun. discriminate.
  - vm_compute in E. injection E as <- _. vm_compute in Hrun. discriminate.
Defined.

Lemma unit_sample_percent (q : Q) :
  (0 <= q)%Q -> (q < 1)%Q ->
  0 <= int_of_float (fmul q (float_of_int 100)) <= 99.
Proof.
  intros H0 H1. rewrite int_of_float_fmul; [|done|by compute].
  assert (Hlo : (0 <= q * float_of_int 100)%Q).
  { apply Qmult_le_0_compat; [done | by compute]. }
  assert (Hhi : (q * float_of_int 100 < inject_Z 100)%Q).
  { unfold float_of_int.
    assert (q * inject_Z 100 < 1 * inject_Z 100)%Q
      by (apply Qmult_lt_compat_r; [by compute | done]).
    lra. }
  split.
  - change 0 with (Qfloor 0). by apply Qfloor_resp_le.
  - apply Z.lt_succ_r. change (Z.succ 99) with 100.
    destruct (Z.lt_ge_cases (Qfloor (q * float_of_int 100)) 100) as [|Hge];
      [done|].
    exfalso. apply (Qlt_not_le _ _ Hhi).
    eapply Qle_trans; [|apply Qfloor_le].
    by rewrite <- Zle_Qle.
Qed.

Lemma uniform_batch (self : ColumnSpace.t) (d total k : Z) (s s' : State)
    (vs : list value) :
  ColumnSpace.is_string_type (data_type (ColumnSpace.config self)) = false ->
  ColumnSpace.has_distribution self (DistributionType_value INCREMENT) = false ->
  ColumnSpace.has_distribution self (DistributionType_value UNIFORM) = true
  \/ ColumnSpace.has_distribution self (DistributionType_value NORMAL) = false ->
  unit_samples (rt s) ->
  no_transition_active self d total ->
  ColumnSpace.generate_batch self d total k s = Ret vs s' ->
  Forall (match data_type (ColumnSpace.config self) with
          | INTEGER => percent_value
          | _ => unit_float
          end) vs.
Proof.
  intros Hstr Hinc Hdist Hunit Hd. unfold ColumnSpace.generate_batch.
  rewrite Hstr, !bind_unfold.
  unfold ColumnSpace._generate_numeric_distribution. rewrite Hinc.
  assert (Hsamples :
    (if ColumnSpace.has_distribution self (DistributionType_value UNIFORM)
     then np_samples np_rand k
     else if ColumnSpace.has_distribution self (DistributionType_value NORMAL)
          then np_samples np_normal k else np_samples np_rand k)
    = np_samples np_rand k).
  { destruct Hdist as [Hu|Hn]; [by rewrite Hu|].
    rewrite Hn. by case_match. }
  rewrite Hsamples. unfold np_samples. destruct (k <? 0); [done|].
  cbn [mret M_ret].
  rewrite apply_transitions_inactive by done.
  intros [= <- _]. unfold ColumnSpace._convert_types.
  destruct (data_type (ColumnSpace.config self)); try done.
  - rewrite <- !list_fmap_compose. apply Forall_fmap, Forall_forall.
    intros i _. simpl. destruct (Hunit i) as [H0 H1].
    destruct (Qeq_bool (np_rand (rt s) i) 0) eqn:Hz; simpl.
    + left. eexists. split; [done|]. by apply Qeq_bool_iff.
    + right. eexists. split; [done|]. by apply unit_sample_percent.
  - rewrite <- !list_fmap_compose. apply Forall_fmap, Forall_forall.
    intros i _. simpl. destruct (Hunit i) as [H0 H1]. by eexists.
Qed.

(** X19.  The range of a uniform numeric column (UNIFORM set, or no
    distribution flag at all; INCREMENT not set), for samples of
    [np.random.rand] in [[0,1)] and a day without active transition:
    every cached value of a FLOAT column is a float in [[0,1)]; every
    cached value of an INTEGER column is an integer from 0 to 99, or the
    float zero that the conversion leaves as it is. *)
Theorem uniform_column_values
    (self : ColumnSpace.t) (d n total b : Z) (s s' : State) :
  ColumnSpace.is_string_type (data_type (ColumnSpace.config self)) = false ->
  ColumnSpace.has_distribution self (DistributionType_value INCREMENT) = false ->
  ColumnSpace.has_distribution self (DistributionType_value UNIFORM) = true
  \/ ColumnSpace.has_distribution self (DistributionType_value NORMAL) = false ->
  unit_samples (rt s) ->
  no_transition_active self d total ->
  ColumnSpace.generate_day_data self d n total b s = Ret tt s' ->
  exists rows,
    fs s' !! ColumnSpace._get_cache_path self d = Some (CacheFile rows)
    /\ Forall (match data_type (ColumnSpace.config self) with
               | INTEGER => percent_value
               | _ => unit_float
               end) rows.
Proof.
  intros Hstr Hinc Hdist Hunit Hd Hrun.
  eapply generate_day_data_Forall; [|exact Hrun].
  intros k t vs t' Hrt Hbatch.
  apply (uniform_batch self d total k t t' vs); try done. by rewrite Hrt.
Qed.

Lemma demo_unit_samples : unit_samples demo_rt.
Proof. intros k. split; by compute. Qed.

Lemma uniform_column_values_witness :
  exists (s' : State) (rows : list value),
    ColumnSpace.generate_day_data
      (numeric_column (column "uniform1" INTEGER 0 0
                         (DistributionType_value UNIFORM)))
      0 3 2 10000 demo_state = Ret tt s'
    /\ fs s' !! ".uniform1-0.cache" = Some (CacheFile rows)
    /\ Forall percent_value rows.
Proof.
  set (self := numeric_column (column "uniform1" INTEGER 0 0
                                 (DistributionType_value UNIFORM))).
  destruct (ColumnSpace.generate_day_data self 0 3 2 10000 demo_state)
    as [[] s'| |] eqn:Hrun; [|vm_compute in Hrun; discriminate..].
  destruct (uniform_column_values self 0 3 2 10000 demo_state s'
              eq_refl eq_refl ltac:(by left) demo_unit_samples
              ltac:(intros []; reflexivity) Hrun) as (rows & Hrows & Hall).
  exists s', rows. split; [reflexivity|]. split; [exact Hrows | exact Hall].
Defined.

(** ** From the caches to the records of a day *)

Lemma open_connections_total (files : gmap string file) (d : Z)
    (cols : list ColumnSpace.t) (acc : gmap string file) :
  (forall c, c ∈ cols -> is_Some (files !! ColumnSpace._get_cache_path c d)) ->
  exists conns, DataGenerator.open_connections files d cols acc = Ok conns.
Proof.
  intros Hall.
  destruct (DataGenerator.open_connections files d cols acc) as [conns|e] eqn:E;
    [by eexists|].
  apply open_connections_err in E as (c & Hc & Hnone & _).
  destruct (Hall c Hc) as [f Hf]. congruence.
Qed.

(** X20.  Writing a day as JSON or JSON lines copies the caches: if the
    column names are distinct, no column is renamed on that day, and
    every column has a cache for the day with at least the planned number
    of rows, then [write_one_day] returns, the day's file holds exactly
    the planned number of records, and record [i] lists every column, in
    column order, under its configured name with the [i]-th value of its
    cache, none of them null. *)
Theorem written_records_are_cache_rows
    (self : DataGenerator.t) (writer : OutputWriter) (d n : Z) (s : State) :
  let cfg := DataGenerator.config self in
  let cols := DataGenerator.column_spaces self in
  writer <> Csv ->
  NoDup (column_name <$> cols) ->
  cols <> [] ->
  (forall c, c ∈ cols ->
     ColumnSpace.get_field_name c d (num_days cfg) = column_name c) ->
  rows_per_day_map s !! d = Some n ->
  (forall c, c ∈ cols ->
     exists rows,
       fs s !! ColumnSpace._get_cache_path c d = Some (CacheFile rows)
       /\ (Z.to_nat n <= length rows)%nat) ->
  exists (s' : State) (recs : list record),
    DataGenerator.write_one_day self writer d s = Ret tt s'
    /\ fs s' = <[output_path self writer d := records_file writer recs]> (fs s)
    /\ length recs = Z.to_nat n
    /\ forall i : nat, (i < Z.to_nat n)%nat ->
         recs !! i
         = Some ((fun c => (column_name c, day_cache s c d !! i)) <$> cols)
         /\ Forall (fun c => is_Some (day_cache s c d !! i)) cols.
Proof.
  intros cfg cols Hw Hnd Hne Hnames Hn Hcaches. subst cfg cols.
  set (cols := DataGenerator.column_spaces self) in *.
  destruct (open_connections_total (fs s) d cols ∅) as [conns Hopen].
  { intros c Hc. destruct (Hcaches c Hc) as (rows & -> & _). by eexists. }
  destruct (open_connections_ok _ _ _ _ _ Hopen) as [_ Hconns].
  destruct (Hconns Hnd) as [Hin _].
  set (fields := column_name <$> cols).
  pose (cache := fun f : string =>
                   match conns !! f with
                   | Some (CacheFile rows) => rows
                   | _ => []
                   end).
  assert (Hcache : forall c, c ∈ cols -> cache (column_name c) = day_cache s c d).
  { intros c Hc. unfold cache, day_cache. by rewrite Hin. }
  destruct (json_records_spec fields conns n cache) as (Hlen & Hsame & Hrec).
  { done. }
  { unfold fields. by destruct cols. }
  { intros f Hf. apply list_elem_of_fmap in Hf as (c & -> & Hc).
    destruct (Hcaches c Hc) as (rows & Hrows & Hl).
    unfold cache. rewrite Hin, Hrows by done. done. }
  assert (Hfields :
    (fun c => ColumnSpace.get_field_name c d
                (num_days (DataGenerator.config self))) <$> cols = fields).
  { unfold fields. apply list_fmap_ext. intros i c Hc.
    apply Hnames. by eapply list_elem_of_lookup_2. }
  exists (set_metrics
            {| total_rows_generated := total_rows_generated (metrics s) + n;
               total_columns := total_columns (metrics s);
               cache_operations := cache_operations (metrics s);
               files_written := files_written (metrics s) + 1;
               errors_encountered := errors_encountered (metrics s) |}
            (set_fs (<[output_path self writer d :=
                         records_file writer
                           (JSONWriter.records fields conns n)]> (fs s)) s)),
    (JSONWriter.records fields conns n).
  split; [|split; [done|split; [done|]]].
  - unfold DataGenerator.write_one_day, try_except. rewrite bind_unfold.
    rewrite open_cache_connections_unfold. fold cols. rewrite Hopen.
    rewrite bind_unfold. unfold get_state at 1. rewrite bind_unfold.
    unfold dict_get. rewrite Hn. cbn [mret M_ret]. rewrite bind_unfold.
    rewrite Hfields.
    destruct writer; [done| |]; simpl; unfold output_path; simpl;
      by rewrite ?Hsame.
  - intros i Hi. destruct (Hrec i Hi) as [Hri Hsome]. split.
    + rewrite Hri. unfold fields. rewrite <- list_fmap_compose. f_equal.
      apply list_fmap_ext. intros k c Hc. simpl.
      rewrite Hcache; [done | by eapply list_elem_of_lookup_2].
    + apply Forall_forall. intros c Hc.
      rewrite <- Hcache by done.
      rewrite Forall_forall in Hsome. apply Hsome.
      by apply list_elem_of_fmap_2.
Qed.

Lemma written_records_are_cache_rows_witness :
  exists (s' : State) (recs : list record),
    DataGenerator.write_one_day planner_generator Json 0 cached_state
    = Ret tt s'
    /\ fs s' !! "data/0.json" = Some (JsonFile recs)
    /\ recs !! 1%nat = Some [("id", Some (VInt 100))].
Proof.
  destruct (written_records_are_cache_rows planner_generator Json 0 2
              cached_state)
    as (s' & recs & Hrun & Hfs & _ & Hrec).
  - discriminate.
  - repeat constructor. by apply not_elem_of_nil.
  - discriminate.
  - intros c Hc. apply list_elem_of_singleton in Hc as ->. reflexivity.
  - reflexivity.
  - intros c Hc. apply list_elem_of_singleton in Hc as ->.
    eexists. split; [reflexivity | simpl; lia].
  - exists s', recs. split; [exact Hrun|]. split.
    + rewrite Hfs. apply lookup_insert_eq.
    + exact (proj1 (Hrec 1%nat ltac:(simpl; lia))).
Defined.

(** ** Constructing the generator *)





(** ** What a failed run leaves behind *)

(** What a run may do to the files before it writes its profile: a path
    holds what it held, or it holds a file and is either a [.cache] name
    or the output path of a day. *)
Definition run_writes (self : DataGenerator.t) (s s' : State) : Prop :=
  forall p, fs s' !! p = fs s !! p
            \/ (is_Some (fs s' !! p)
                /\ (str_endswith p ".cache" = true
                    \/ exists writer d, p = output_path self writer d)).

(** An exception that [m] raises leaves the state [R]-related to the
    initial one. *)
Definition raises_within {A} (R : State -> State -> Prop) (m : M A) : Prop :=
  forall s e s', m s = Raise e s' -> R s s'.

#[global] Instance run_writes_preorder (self : DataGenerator.t) :
  PreOrder (run_writes self).
Proof.
  split.
  - intros s p. by left.
  - intros s1 s2 s3 H12 H23 p.
    destruct (H23 p) as [E|H]; [|by right].
    rewrite E. apply H12.
Qed.

Lemma same_world_run_writes (self : DataGenerator.t) (s s' : State) :
  same_world s s' -> run_writes self s s'.
Proof. intros (_ & Hfs & _) p. left. by rewrite Hfs. Qed.

Lemma run_writes_same_fs (self : DataGenerator.t) (s s' : State) :
  fs s' = fs s -> run_writes self s s'.
Proof. intros Hfs p. left. by rewrite Hfs. Qed.

Lemma run_writes_cache (self : DataGenerator.t) (s : State)
    (c : ColumnSpace.t) (d : Z) (f : file) (files : gmap string file) :
  (forall p, p <> ColumnSpace._get_cache_path c d -> files !! p = fs s !! p) ->
  run_writes self s
    (set_fs (<[ColumnSpace._get_cache_path c d := f]> files) s).
Proof.
  intros Hfiles p. simpl.
  destruct (decide (ColumnSpace._get_cache_path c d = p)) as [<-|Hne].
  - right. rewrite lookup_insert_eq. split; [by eexists|].
    left. apply cache_path_ends.
  - left. rewrite lookup_insert_ne by done. by apply Hfiles.
Qed.

Section RunWrites.

Context (self : DataGenerator.t).

Lemma rw_generate_loop (c : ColumnSpace.t) (d n total b : Z) (fuel : nat)
    (generated : Z) (pending : list value) :
  preserves (run_writes self)
    (ColumnSpace.generate_loop fuel c d n total b generated pending).
Proof using Type.
  eapply preserves_weaken; [apply same_world_run_writes | apply sw_generate_loop].
Qed.

Lemma rw_ColumnSpace_new (cfg : ColumnConfig) :
  preserves (run_writes self) (ColumnSpace.new cfg).
Proof using Type.
  eapply preserves_weaken; [apply same_world_run_writes | apply sw_ColumnSpace_new].
Qed.

Lemma rw_plan_days (g : DataGenerator.t) (days : list Z) (acc : gmap Z Z) :
  preserves (run_writes self) (DataGenerator.plan_days g days acc).
Proof using Type.
  eapply preserves_weaken; [apply same_world_run_writes | apply sw_plan_days].
Qed.

Lemma rw_generate_day_data (c : ColumnSpace.t) (d n total b : Z) :
  preserves (run_writes self) (ColumnSpace.generate_day_data c d n total b).
Proof using Type.
  unfold ColumnSpace.generate_day_data.
  apply preserves_bind; [apply _ | | intros _].
  - apply preserves_modify. intros s. apply run_writes_cache.
    intros p Hp. by rewrite lookup_delete_ne.
  - apply preserves_try_except; [apply _ | | intros e; apply preserves_raise; apply _].
    apply preserves_bind; [apply _ | apply rw_generate_loop |].
    intros rows. apply preserves_modify. intros s. by apply run_writes_cache.
Qed.

Lemma rw_dict_get (m : gmap Z Z) (k : Z) :
  preserves (run_writes self) (dict_get m k).
Proof using Type.
  unfold dict_get. case_match; [apply preserves_ret | apply preserves_raise];
    apply _.
Qed.

Lemma rw_metrics (f : State -> State) :
  (forall s, fs (f s) = fs s) -> preserves (run_writes self) (modify f).
Proof using Type.
  intros Hf. apply preserves_modify. intros s. by apply run_writes_same_fs.
Qed.

Lemma rw_in_child_process {A} (task : M A) :
  preserves (run_writes self) task ->
  preserves (run_writes self) (in_child_process task).
Proof using Type.
  intros H s. unfold in_child_process. specialize (H s).
  by destruct (task s).
Qed.

Lemma rw_generate_column_data :
  preserves (run_writes self) (DataGenerator._generate_column_data self).
Proof using Type.
  unfold DataGenerator._generate_column_data. case_match.
  - unfold DataGenerator.generate_sequential,
      DataGenerator.generate_one_column, DataGenerator.generate_one_day.
    apply preserves_for_; [apply _|]. intros c.
    apply preserves_for_; [apply _|]. intros d.
    apply preserves_bind; [apply _ | apply preserves_get_state; apply _|].
    intros s0.
    apply preserves_bind; [apply _ | apply rw_dict_get|]. intros n.
    apply preserves_bind; [apply _ | apply rw_generate_day_data|]. intros _.
    by apply rw_metrics.
  - unfold DataGenerator.generate_parallel.
    apply preserves_bind; [apply _ | | intros _].
    { repeat case_match; (apply preserves_ret || apply preserves_raise);
        apply _. }
    apply preserves_bind; [apply _ | apply preserves_get_state; apply _|].
    intros s0.
    apply preserves_bind; [apply _ | | intros futures].
    + apply preserves_for_each; [apply _|]. intros c.
      unfold DataGenerator.submit_column.
      apply preserves_bind; [apply _ | | intros r; apply preserves_ret; apply _].
      apply rw_in_child_process. unfold generate_column_worker.
      apply preserves_bind; [apply _ | apply rw_ColumnSpace_new|]. intros c'.
      apply preserves_bind; [apply _ | | intros _; apply preserves_ret; apply _].
      apply preserves_for_; [apply _|]. intros d.
      apply preserves_bind; [apply _ | apply rw_dict_get|]. intros n.
      apply rw_generate_day_data.
    + apply preserves_for_; [apply _|]. intros fut.
      unfold DataGenerator.collect_future. case_match.
      * by apply rw_metrics.
      * apply preserves_bind; [apply _ | by apply rw_metrics|]. intros _.
        apply preserves_raise; apply _.
Qed.

Lemma rw_write_output_data :
  preserves (run_writes self) (DataGenerator._write_output_data self).
Proof using Type.
  unfold DataGenerator._write_output_data.
  apply preserves_bind; [apply _ | apply preserves_lift_result; apply _|].
  intros writer. apply preserves_for_; [apply _|]. intros d.
  unfold DataGenerator.write_one_day.
  apply preserves_try_except; [apply _| |].
  - apply preserves_bind; [apply _| |intros conns].
    { unfold DataGenerator._open_cache_connections.
      apply preserves_bind; [apply _ | apply preserves_get_state; apply _|].
      intros s0. apply preserves_lift_result; apply _. }
    apply preserves_bind; [apply _ | apply preserves_get_state; apply _|].
    intros s0.
    apply preserves_bind; [apply _ | apply rw_dict_get |intros n].
    apply preserves_bind; [apply _ | |intros _; by apply rw_metrics].
    intros s1.
    destruct (write_day_effect writer d
                ((fun c => ColumnSpace.get_field_name c d
                             (num_days (DataGenerator.config self)))
                   <$> DataGenerator.column_spaces self)
                conns n (output_path self writer d) s1)
      as (content & Hw & _).
    unfold output_path in Hw. rewrite Hw. intros p. simpl.
    destruct (decide (output_path self writer d = p)) as [<-|Hne].
    + right. unfold output_path. rewrite lookup_insert_eq.
      split; [by eexists|]. right. by exists writer, d.
    + left. unfold output_path in Hne. by rewrite lookup_insert_ne.
  - intros e. apply preserves_bind; [apply _ | by apply rw_metrics|].
    intros _. apply preserves_raise; apply _.
Qed.

End RunWrites.

Lemma raises_within_bind {A B} (R : State -> State -> Prop) `{!PreOrder R}
    (m : M A) (f : A -> M B) :
  preserves R m -> (forall a, raises_within R (f a)) ->
  raises_within R (m ≫= f).
Proof.
  intros Hm Hf s e s'. rewrite bind_unfold. specialize (Hm s).
  destruct (m s) as [a s1|e1 s1|]; [| |done].
  - intros Hrun. etrans; [done|]. by eapply Hf.
  - by intros [= _ <-].
Qed.

Lemma raises_within_total {A} (R : State -> State -> Prop) (m : M A) :
  (forall s, exists a s', m s = Ret a s') -> raises_within R m.
Proof. intros Hm s e s' Hrun. destruct (Hm s) as (a & s1 & E). congruence. Qed.

Lemma output_path_never_profile (self : DataGenerator.t)
    (writer : OutputWriter) (d : Z) :
  output_path self writer d <> profile_path self.
Proof.
  destruct (Z.le_gt_cases 0 d) as [Hd|Hd];
    [by apply output_path_not_profile|].
  unfold output_path, profile_path.
  destruct (path_join_app (output_dir (DataGenerator.config self)))
    as [pre Hpre].
  rewrite !Hpre. intros E. apply (inj _) in E.
  destruct d as [|p|p]; [lia..|].
  change (pretty (Z.neg p)) with ("-" +:+ pretty (N.pos p)) in E.
  rewrite str_app_assoc, str_app_cons in E. discriminate.
Qed.

(** X22.  A run of [generate] that fails removes nothing and writes no
    profile: every file that existed still exists (the caches written so
    far are left behind, since the cleanup is never reached), the path of
    the generation profile holds what it held, and any path whose content
    has changed is a [.cache] name or the output path of a day. *)
Theorem failed_run_leaves (self : DataGenerator.t) (s s' : State) (e : exn) :
  DataGenerator.generate self s = Raise e s' ->
  (forall p, is_Some (fs s !! p) -> is_Some (fs s' !! p))
  /\ fs s' !! profile_path self = fs s !! profile_path self
  /\ (forall p, fs s' !! p = fs s !! p
                \/ str_endswith p ".cache" = true
                \/ exists writer d, p = output_path self writer d).
Proof.
  intros Hrun.
  assert (HR : run_writes self s s').
  { revert Hrun. unfold DataGenerator.generate, try_except.
    match goal with
    | |- match ?body s with _ => _ end = _ -> _ =>
        assert (Hbody : raises_within (run_writes self) body);
        [|specialize (Hbody s); destruct (body s) as [m s1|e1 s1|]; [done| |done]]
    end.
    - apply raises_within_bind; [apply _ | apply rw_plan_days|]. intros plan.
      apply raises_within_bind; [apply _ | by apply rw_metrics|]. intros _.
      apply raises_within_bind; [apply _ | apply preserves_ret; apply _|].
      intros _.
      apply raises_within_bind; [apply _ | apply rw_generate_column_data|].
      intros _.
      apply raises_within_bind; [apply _ | apply rw_write_output_data|].
      intros _. apply raises_within_total. intros s0.
      rewrite bind_unfold. unfold DataGenerator._write_generation_profile.
      unfold modify at 1. rewrite bind_unfold.
      match goal with
      | |- context [DataGenerator._cleanup_cache_files self ?s4] =>
          destruct (cleanup_cache_files_ret self s4) as (s5 & -> & _)
      end.
      rewrite bind_unfold. by eexists _, _.
    - rewrite bind_unfold. unfold add_errors_encountered, modify, raise.
      intros [= _ <-]. simpl. intros p. destruct (Hbody e1 s1 eq_refl p);
        [by left | by right]. }
  split; [|split].
  - intros p Hp. destruct (HR p) as [->|[H _]]; done.
  - destruct (HR (profile_path self)) as [E|[_ [H|(writer & d & H)]]]; [done| |].
    + by rewrite profile_path_not_cache in H.
    + symmetry in H. by apply output_path_never_profile in H.
  - intros p. destruct (HR p) as [E|[_ H]]; [by left | by right].
Qed.

Lemma failed_run_leaves_witness :
  exists (e : exn) (s' : State),
    DataGenerator.generate failing_generator demo_state = Raise e s'
    /\ fs s' !! profile_path failing_generator = None.
Proof.
  destruct (DataGenerator.generate failing_generator demo_state)
    as [m s'|e s'|] eqn:E; [vm_compute in E; discriminate| |
                            vm_compute in E; discriminate].
  destruct (failed_run_leaves failing_generator demo_state s' e E)
    as (_ & Hprofile & _).
  exists e, s'. split; [reflexivity|]. rewrite Hprofile. reflexivity.
Defined.

(** ** From the caches to the lines of a CSV day *)

(** The row that the writers read at a position within the caches. *)
Lemma json_row_of_caches (fields : list string) (handles : gmap string file)
    (n : Z) (cache : string -> list value) (i : nat) :
  (forall f, f ∈ fields ->
     handles !! f = Some (CacheFile (cache f))
     /\ (Z.to_nat n <= length (cache f))%nat) ->
  (i < Z.to_nat n)%nat ->
  JSONWriter._get_data_row fields (Z.of_nat i + 1) handles None
  = (fun f => cache f !! i) <$> fields.
Proof.
  intros Hcache Hi. unfold JSONWriter._get_data_row.
  apply Forall_fmap_ext, Forall_forall. intros f Hf.
  destruct (Hcache f Hf) as [-> Hlen]. simpl.
  destruct (Z.leb_spec (Z.of_nat i + 1) 0); [lia|].
  replace (Z.to_nat (Z.of_nat i + 1 - 1)) with i by lia.
  destruct (cache f !! i) eqn:E; [done|].
  apply lookup_ge_None in E. lia.
Qed.

(** X23.  Writing a day as CSV, the default format, copies the caches as
    text: under the conditions of the theorem above for JSON (distinct
    names, at least one column, no renaming that day, caches with at
    least the planned number of rows), [write_one_day] returns, the file
    is the header of configured names followed by exactly the planned
    number of lines, and line [i] holds, in column order, [str] of the
    [i]-th value of each column's cache. *)
Theorem written_csv_lines_are_cache_rows
    (self : DataGenerator.t) (d n : Z) (s : State) :
  let cfg := DataGenerator.config self in
  let cols := DataGenerator.column_spaces self in
  NoDup (column_name <$> cols) ->
  cols <> [] ->
  (forall c, c ∈ cols ->
     ColumnSpace.get_field_name c d (num_days cfg) = column_name c) ->
  rows_per_day_map s !! d = Some n ->
  (forall c, c ∈ cols ->
     exists rows,
       fs s !! ColumnSpace._get_cache_path c d = Some (CacheFile rows)
       /\ (Z.to_nat n <= length rows)%nat) ->
  exists (s' : State) (lines : list (list string)),
    DataGenerator.write_one_day self Csv d s = Ret tt s'
    /\ fs s' = <[output_path self Csv d
                 := CsvFile ((column_name <$> cols) :: lines)]> (fs s)
    /\ length lines = Z.to_nat n
    /\ forall i : nat, (i < Z.to_nat n)%nat ->
         lines !! i
         = Some ((fun c => csv_cell (rt s) (day_cache s c d !! i)) <$> cols)
         /\ Forall (fun c => is_Some (day_cache s c d !! i)) cols.
Proof.
  intros cfg cols Hnd Hne Hnames Hn Hcaches. subst cfg cols.
  set (cols := DataGenerator.column_spaces self) in *.
  destruct (open_connections_total (fs s) d cols ∅) as [conns Hopen].
  { intros c Hc. destruct (Hcaches c Hc) as (rows & -> & _). by eexists. }
  destruct (open_connections_ok _ _ _ _ _ Hopen) as [_ Hconns].
  destruct (Hconns Hnd) as [Hin _].
  set (fields := column_name <$> cols).
  pose (cache := fun f : string =>
                   match conns !! f with
                   | Some (CacheFile rows) => rows
                   | _ => []
                   end).
  assert (Hcache : forall c, c ∈ cols -> cache (column_name c) = day_cache s c d).
  { intros c Hc. unfold cache, day_cache. by rewrite Hin. }
  assert (Hhandles : forall f, f ∈ fields ->
            conns !! f = Some (CacheFile (cache f))
            /\ (Z.to_nat n <= length (cache f))%nat).
  { intros f Hf. apply list_elem_of_fmap in Hf as (c & -> & Hc).
    destruct (Hcaches c Hc) as (rows & Hrows & Hl).
    unfold cache. rewrite Hin, Hrows by done. done. }
  assert (Hfields :
    (fun c => ColumnSpace.get_field_name c d
                (num_days (DataGenerator.config self))) <$> cols = fields).
  { unfold fields. apply list_fmap_ext. intros i c Hc.
    apply Hnames. by eapply list_elem_of_lookup_2. }
  assert (Hfne : fields <> []) by (unfold fields; by destruct cols).
  destruct (csv_write_day_spec d fields conns n (output_path self Csv d) s)
    as (lines & Hwrite & Hlen & Hlines).
  rewrite decide_False in Hlen by done.
  eexists _, lines. split; [|split; [|split; [exact Hlen|]]].
  - unfold DataGenerator.write_one_day, try_except. rewrite bind_unfold.
    rewrite open_cache_connections_unfold. fold cols. rewrite Hopen.
    rewrite bind_unfold. unfold get_state at 1. rewrite bind_unfold.
    unfold dict_get. rewrite Hn. cbn [mret M_ret]. rewrite bind_unfold.
    rewrite Hfields. cbn [write_day get_file_extension].
    unfold output_path in Hwrite. cbn [get_file_extension] in Hwrite.
    rewrite Hwrite. unfold add_file_written, modify. reflexivity.
  - done.
  - intros i Hi. split.
    + rewrite (Hlines Hfne i Hi), (json_row_of_caches _ _ n cache) by done.
      unfold fields. rewrite <- !list_fmap_compose. f_equal.
      apply list_fmap_ext. intros k c Hc. simpl.
      rewrite Hcache; [done | by eapply list_elem_of_lookup_2].
    + apply Forall_forall. intros c Hc. rewrite <- Hcache by done.
      destruct (Hhandles (column_name c)) as [_ Hl];
        [by apply list_elem_of_fmap_2|].
      apply lookup_lt_is_Some. lia.
Qed.

Lemma written_csv_lines_are_cache_rows_witness :
  exists (s' : State) (lines : list (list string)),
    DataGenerator.write_one_day planner_generator Csv 1 cached_state
    = Ret tt s'
    /\ fs s' !! "data/1.csv" = Some (CsvFile (["id"] :: lines))
    /\ lines !! 2%nat = Some ["200"].
Proof.
  destruct (written_csv_lines_are_cache_rows planner_generator 1 3
              cached_state)
    as (s' & lines & Hrun & Hfs & _ & Hrec).
  - repeat constructor. by apply not_elem_of_nil.
  - discriminate.
  - intros c Hc. apply list_elem_of_singleton in Hc as ->. reflexivity.
  - reflexivity.
  - intros c Hc. apply list_elem_of_singleton in Hc as ->.
    eexists. split; [reflexivity | simpl; lia].
  - exists s', lines. split; [exact Hrun|]. split.
    + rewrite Hfs. apply lookup_insert_eq.
    + exact (proj1 (Hrec 2%nat ltac:(simpl; lia))).
Defined.

(** ** INCREMENT columns over several batches *)

Lemma py_range_app (a c : Z) :
  0 <= a -> 0 <= c ->
  py_range (a + c) = py_range a ++ ((fun j => a + j) <$> py_range c).
Proof.
  intros Ha Hc. unfold py_range.
  rewrite Z2Nat.inj_add, seq_app, fmap_app by done. f_equal.
  rewrite <- list_fmap_compose.
  replace (seq (0 + Z.to_nat a) (Z.to_nat c))
    with (Nat.add (Z.to_nat a) <$> seq 0 (Z.to_nat c)).
  2:{ rewrite fmap_add_seq. f_equal. lia. }
  rewrite <- list_fmap_compose. apply list_fmap_ext. intros i k _. simpl. lia.
Qed.

Lemma increment_batch (self : ColumnSpace.t) (d total k : Z) (s : State) :
  ColumnSpace.has_distribution self (DistributionType_value INCREMENT) = true ->
  no_transition_active self d total ->
  data_type (ColumnSpace.config self) = FLOAT
  \/ data_type (ColumnSpace.config self) = INTEGER ->
  ColumnSpace.generate_batch self d total k s
  = Ret (increment_value (data_type (ColumnSpace.config self)) <$> py_range k) s.
Proof.
  intros Hinc Hoff Hdt. unfold ColumnSpace.generate_batch.
  assert (Hstr : ColumnSpace.is_string_type
                   (data_type (ColumnSpace.config self)) = false)
    by (destruct Hdt as [-> | ->]; done).
  rewrite Hstr. unfold ColumnSpace._generate_numeric_distribution.
  rewrite Hinc. rewrite !bind_unfold. simpl.
  rewrite apply_transitions_inactive by done. f_equal.
  destruct Hdt as [Hf | Hi].
  - rewrite Hf. by apply convert_increments_float.
  - rewrite Hi. by apply convert_increments_integer.
Qed.

Lemma increment_loop (self : ColumnSpace.t) (d n total b : Z) :
  ColumnSpace.has_distribution self (DistributionType_value INCREMENT) = true ->
  no_transition_active self d total ->
  data_type (ColumnSpace.config self) = FLOAT
  \/ data_type (ColumnSpace.config self) = INTEGER ->
  1 <= b ->
  forall (fuel : nat) (q : Z) (pending : list value) (s : State),
    0 <= q -> q * b <= n ->
    (Z.to_nat (n - q * b) <= fuel)%nat ->
    ColumnSpace.generate_loop fuel self d n total b (q * b) pending s
    = Ret (pending
           ++ ((fun j => increment_value (data_type (ColumnSpace.config self))
                           ((q * b + j) mod b))
                 <$> py_range (n - q * b))) s.
Proof.
  intros Hinc Hoff Hdt Hb.
  set (incv := increment_value (data_type (ColumnSpace.config self))).
  assert (Hmod : forall q k, 0 <= q -> 0 <= k <= b ->
    (fun j => incv ((q * b + j) mod b)) <$> py_range k = incv <$> py_range k).
  { intros q k Hq Hk. apply Forall_fmap_ext, Forall_forall. intros j Hj.
    apply elem_of_py_range in Hj. f_equal.
    rewrite Z.add_comm, Z.mod_add by lia. apply Z.mod_small. lia. }
  induction fuel as [|fuel IH]; intros q pending s Hq Hle Hfuel.
  - assert (n = q * b) as -> by lia.
    rewrite generate_loop_done by lia.
    by rewrite Z.sub_diag, app_nil_r.
  - destruct (decide (q * b = n)) as [<-|Hne].
    { rewrite generate_loop_done by lia.
      by rewrite Z.sub_diag, app_nil_r. }
    cbn [ColumnSpace.generate_loop].
    destruct (Z.ltb_spec (q * b) n) as [Hlt|]; [|lia].
    rewrite bind_unfold, increment_batch by done.
    set (k := Z.min b (n - q * b)).
    assert (Hk : 1 <= k <= b) by (unfold k; lia).
    rewrite bool_decide_eq_false_2.
    2:{ intros E. apply (f_equal length) in E.
        rewrite length_fmap, py_range_length in E. simpl in E. lia. }
    rewrite length_fmap, py_range_length, Z2Nat.id by lia.
    destruct (decide (b <= n - q * b)) as [Hfull|Hlast].
    + assert (Hkb : k = b) by (unfold k; lia). rewrite Hkb.
      replace (q * b + b) with ((q + 1) * b) by lia.
      assert (H1 : (q + 1) * b <= n) by lia.
      assert (H2 : (Z.to_nat (n - (q + 1) * b) <= fuel)%nat) by lia.
      rewrite (IH (q + 1) _ _ ltac:(lia) H1 H2).
      f_equal. rewrite <- app_assoc. f_equal.
      replace (n - q * b) with (b + (n - (q + 1) * b)) by lia.
      rewrite py_range_app, fmap_app by lia.
      rewrite (Hmod q b) by lia. f_equal.
      rewrite <- list_fmap_compose. apply list_fmap_ext. intros i j _.
      simpl. f_equal. f_equal. lia.
    + assert (Hkn : k = n - q * b) by (unfold k; lia).
      rewrite generate_loop_done by lia. f_equal. f_equal.
      rewrite Hkn. symmetry. apply (Hmod q); lia.
Qed.

(** X24.  The counter of an INCREMENT column restarts in every batch: for
    a FLOAT or INTEGER column with the INCREMENT flag, a day without
    active transition, any batch size of at least one and any row count,
    [generate_day_data] returns and the value at position [i] of the
    day's cache is the one of the counter [i mod batch_size]; the values
    are distinct only up to the batch size. *)
Theorem increment_restarts_every_batch
    (self : ColumnSpace.t) (d n total b : Z) (s : State) :
  ColumnSpace.has_distribution self (DistributionType_value INCREMENT) = true ->
  no_transition_active self d total ->
  data_type (ColumnSpace.config self) = FLOAT
  \/ data_type (ColumnSpace.config self) = INTEGER ->
  1 <= b ->
  0 <= n ->
  exists s' : State,
    ColumnSpace.generate_day_data self d n total b s = Ret tt s'
    /\ fs s' !! ColumnSpace._get_cache_path self d
       = Some (CacheFile
                 ((fun i => increment_value
                              (data_type (ColumnSpace.config self)) (i mod b))
                    <$> py_range n)).
Proof.
  intros Hinc Hoff Hdt Hb Hn.
  unfold ColumnSpace.generate_day_data.
  rewrite bind_unfold. unfold modify at 1.
  set (sA := set_fs _ s). unfold try_except. rewrite bind_unfold.
  pose proof (increment_loop self d n total b Hinc Hoff Hdt Hb
                (Z.to_nat n) 0 [] sA ltac:(lia) ltac:(lia) ltac:(lia)) as Hloop.
  rewrite Z.mul_0_l, Z.sub_0_r in Hloop. rewrite Hloop.
  unfold modify. eexists. split; [reflexivity|]. simpl.
  by rewrite lookup_insert_eq.
Qed.

Lemma increment_restarts_every_batch_witness :
  exists s' : State,
    ColumnSpace.generate_day_data (numeric_column id_column) 0 5 2 2 demo_state
    = Ret tt s'
    /\ fs s' !! ".id-0.cache"
       = Some (CacheFile [VFloat 0; VInt 100; VFloat 0; VInt 100; VFloat 0]).
Proof.
  destruct (increment_restarts_every_batch (numeric_column id_column) 0 5 2 2
              demo_state eq_refl ltac:(intros []; reflexivity)
              ltac:(by right) ltac:(lia) ltac:(lia)) as (s' & Hrun & Hfs).
  exists s'. split; [exact Hrun | exact Hfs].
Defined.

(** ** A field that no cache is opened for *)

Lemma write_one_day_content (self : DataGenerator.t) (writer : OutputWriter)
    (d : Z) (s s' : State) :
  DataGenerator.write_one_day self writer d s = Ret tt s' ->
  exists (conns : gmap string file) (n : Z),
    DataGenerator.open_connections (fs s) d
      (DataGenerator.column_spaces self) ∅ = Ok conns
    /\ rows_per_day_map s !! d = Some n
    /\ write_day writer d
         ((fun c => ColumnSpace.get_field_name c d
                      (num_days (DataGenerator.config self)))
            <$> DataGenerator.column_spaces self)
         conns n (output_path self writer d) s
       = Ret tt (set_fs (fs s') s).
Proof.
  unfold DataGenerator.write_one_day, try_except. rewrite bind_unfold.
  rewrite open_cache_connections_unfold.
  destruct (DataGenerator.open_connections _ _ _ _) as [conns|e].
  2:{ rewrite bind_unfold. unfold add_errors_encountered, modify, raise.
      discriminate. }
  rewrite bind_unfold. unfold get_state at 1. rewrite bind_unfold.
  unfold dict_get.
  destruct (rows_per_day_map s !! d) as [n|] eqn:Hn.
  2:{ unfold raise at 1. rewrite bind_unfold.
      unfold add_errors_encountered, modify, raise. discriminate. }
  cbn [mret M_ret]. rewrite bind_unfold.
  destruct (write_day_effect writer d
              ((fun c => ColumnSpace.get_field_name c d
                           (num_days (DataGenerator.config self)))
                 <$> DataGenerator.column_spaces self)
              conns n (output_path self writer d) s)
    as (content & Hw & _).
  pose proof Hw as Hw'. unfold output_path in Hw'. rewrite Hw'.
  unfold add_file_written, modify. intros [= <-].
  exists conns, n. split; [done|]. split; [done|]. by rewrite Hw.
Qed.

Lemma csv_unknown_field_is_blank (rt : Runtime) (handles : gmap string file)
    (fields : list string) (k : nat) (field : string) (p : Z) :
  fields !! k = Some field ->
  handles !! field = None ->
  CSVWriter._get_data_row rt fields p handles (Some (VStr "")) !! k
  = Some (Some (VStr "")).
Proof.
  intros Hk Hnone. unfold CSVWriter._get_data_row.
  by rewrite list_lookup_fmap, Hk; simpl; rewrite Hnone.
Qed.

(** X25.  A column whose field name on a day is not the name of any
    configured column, which is what a SCHEMA_NAME column has from its
    transition day on when no column is called new-<name>, is present
    but blank in the day's file whenever the day is written: in a CSV
    file the header has the field name at the column's position and
    every data line has the empty string there; in a JSON or JSON-lines
    file with distinct field names every record has the field at that
    position with the value null.  The cached values of the column are
    never read. *)
Theorem unconfigured_field_is_blank
    (self : DataGenerator.t) (writer : OutputWriter) (d : Z) (s s' : State)
    (k : nat) (c : ColumnSpace.t) :
  let cols := DataGenerator.column_spaces self in
  let total := num_days (DataGenerator.config self) in
  let fields := (fun c => ColumnSpace.get_field_name c d total) <$> cols in
  let field := ColumnSpace.get_field_name c d total in
  DataGenerator.write_one_day self writer d s = Ret tt s' ->
  cols !! k = Some c ->
  field ∉ column_name <$> cols ->
  match fs s' !! output_path self writer d with
  | Some (CsvFile lines) =>
      exists header rows,
        lines = header :: rows
        /\ header !! k = Some field
        /\ forall line, line ∈ rows -> line !! k = Some ""
  | Some (JsonFile recs) | Some (JsonlFile recs) =>
      NoDup fields ->
      forall rec, rec ∈ recs -> rec !! k = Some (field, None)
  | _ => False
  end.
Proof.
  intros cols total fields field Hrun Hk Hnot.
  apply write_one_day_content in Hrun as (conns & n & Hopen & Hn & Hwrite).
  fold cols total fields in Hwrite.
  assert (Hnone : conns !! field = None).
  { apply eq_None_not_Some. intros Hsome.
    apply (open_connections_keys _ _ _ _ _ Hopen) in Hsome as [Hacc|Hin].
    - rewrite lookup_empty in Hacc. by destruct Hacc.
    - by apply Hnot. }
  assert (Hfield : fields !! k = Some field).
  { unfold fields. by rewrite list_lookup_fmap, Hk. }
  assert (Hjson : forall recs,
    recs = JSONWriter.records fields conns n ->
    NoDup fields -> forall rec, rec ∈ recs -> rec !! k = Some (field, None)).
  { intros recs -> Hnd rec Hrec. unfold JSONWriter.records in Hrec.
    apply list_elem_of_fmap in Hrec as (row & -> & Hrow).
    apply list_elem_of_filter in Hrow as [_ Hrow].
    apply list_elem_of_fmap in Hrow as (p & -> & _).
    rewrite dict_zip_NoDup by done.
    etrans; [apply lookup_zip_with|]. rewrite Hfield. simpl.
    by rewrite (unknown_field_reads_none _ _ k field). }
  destruct writer; simpl in Hwrite; unfold modify in Hwrite;
    injection Hwrite as Hfs; rewrite <- Hfs, lookup_insert_eq.
  - eexists _, _. split; [reflexivity|]. split; [done|].
    intros line Hline.
    apply list_elem_of_fmap in Hline as (row & -> & Hrow).
    unfold CSVWriter.data_rows in Hrow.
    apply list_elem_of_filter in Hrow as [_ Hrow].
    apply list_elem_of_fmap in Hrow as (p & -> & _).
    rewrite list_lookup_fmap.
    by rewrite (csv_unknown_field_is_blank _ _ _ k field).
  - by apply Hjson.
  - by apply Hjson.
Qed.

Lemma unconfigured_field_is_blank_witness :
  exists (s' : State) (recs : list record),
    DataGenerator.write_one_day renaming_generator Json 2 renamed_state
    = Ret tt s'
    /\ fs s' !! "data/2.json" = Some (JsonFile recs)
    /\ recs <> []
    /\ forall rec, rec ∈ recs -> rec !! 1%nat = Some ("new-normal1", None).
Proof.
  destruct (DataGenerator.write_one_day renaming_generator Json 2
              renamed_state) as [[] s'| |] eqn:E;
    [|vm_compute in E; discriminate..].
  assert (Hnot : "new-normal1"
                 ∉ column_name <$> DataGenerator.column_spaces
                                     renaming_generator).
  { intros Hin. vm_compute in Hin.
    apply elem_of_cons in Hin as [Hin|Hin]; [discriminate|].
    apply elem_of_cons in Hin as [Hin|Hin]; [discriminate|].
    by apply elem_of_nil in Hin. }
  pose proof (unconfigured_field_is_blank renaming_generator Json 2
                renamed_state s' 1
                (numeric_column
                   (column "normal1" FLOAT (1 # 2)
                      (TransitionType_value SCHEMA_NAME)
                      (DistributionType_value NORMAL)))
                E eq_refl Hnot) as H.
  assert (Hfile : fs s' !! output_path renaming_generator Json 2
                  = Some (JsonFile [[("id", Some (VFloat 0));
                                     ("new-normal1", None)]])).
  { vm_compute in E. injection E as <-. reflexivity. }
  rewrite Hfile in H.
  exists s', [[("id", Some (VFloat 0)); ("new-normal1", None)]].
  split; [reflexivity|]. split; [exact Hfile|]. split; [discriminate|].
  apply H. vm_compute.
  apply NoDup_cons. split.
  - intros Hin. apply elem_of_cons in Hin as [Hin|Hin]; [discriminate|].
    by apply elem_of_nil in Hin.
  - apply NoDup_singleton.
Defined.
